(** * Soter file vault: a shallow embedding of the Go backend

    The development follows the package layout of the backend:
    - [Go]          the pieces of the Go standard library the code calls
                    (strings, fmt verbs, path/filepath);
    - [Models]      internal/models (permissions, files, validation results);
    - [Repository]  internal/repository/file.go over an explicit metadata store;
    - [Services]    internal/services (validation, virus scan, upload);
    - [Handlers]    internal/handlers/files.go (DeleteFile);
    - [Middleware]  internal/middleware (token-bucket admission).

    Go strings and byte slices are byte sequences; both are modelled by Rocq
    strings, one [ascii] per byte.  Go [int] and [int64] are modelled by [Z]
    (no operation below can overflow 64 bits on the inputs the code receives:
    sizes are lengths of in-memory buffers, permissions are small integers). *)

From Stdlib Require Import ZArith NArith QArith Qround Ascii String List Bool Lia.
From stdpp Require Import base option list gmap strings.

Local Open Scope Z_scope.

(** ** The Go standard library, as far as the backend uses it *)
Module Go.

(** A value-or-error result, with a separate case for a run-time panic. *)
Inductive result (A : Type) : Type :=
| Ok (a : A)
| Err (msg : string)
| Panic.
Arguments Ok {A} a.
Arguments Err {A} msg.
Arguments Panic {A}.

Definition byte_of (c : ascii) : N := Ascii.N_of_ascii c.

(** [strings.HasPrefix] / [bytes.HasPrefix]. *)
Fixpoint HasPrefix (s pre : string) {struct pre} : bool :=
  match pre with
  | EmptyString => true
  | String p pre' =>
      match s with
      | EmptyString => false
      | String c s' => if Ascii.eqb c p then HasPrefix s' pre' else false
      end
  end.

(** [strings.Contains] / [bytes.Contains]: some suffix of [s] starts with
    [substr]. *)
Fixpoint Contains (s substr : string) : bool :=
  HasPrefix s substr ||
  match s with
  | EmptyString => false
  | String _ s' => Contains s' substr
  end.

(** The [asciiSpace] table of package strings. *)
Definition asciiSpace (c : ascii) : bool :=
  match byte_of c with
  | 9%N | 10%N | 11%N | 12%N | 13%N | 32%N => true
  | _ => false
  end.

(** [c >= utf8.RuneSelf] *)
Definition nonASCII (c : ascii) : bool := (128 <=? byte_of c)%N.

(** Second loop of [strings.TrimSpace] before its test: [s] without its
    trailing run of ASCII blanks. *)
Fixpoint dropTrailingSpace (s : string) : string :=
  match s with
  | EmptyString => EmptyString
  | String c r =>
      match dropTrailingSpace r with
      | EmptyString => if asciiSpace c then EmptyString else String c EmptyString
      | r' => String c r'
      end
  end.

Fixpoint lastByte (s : string) : option ascii :=
  match s with
  | EmptyString => None
  | String c EmptyString => Some c
  | String _ r => lastByte r
  end.

(** [filepath.Ext] on a Unix host: the suffix starting at the last dot of
    the last slash-separated element, or the empty string. *)
Definition isDotOrSep (c : ascii) : bool :=
  Ascii.eqb c "."%char || Ascii.eqb c "/"%char.

Fixpoint hasDotOrSep (s : string) : bool :=
  match s with
  | EmptyString => false
  | String c r => isDotOrSep c || hasDotOrSep r
  end.

Fixpoint Ext (path : string) : string :=
  match path with
  | EmptyString => EmptyString
  | String c r =>
      if hasDotOrSep r then Ext r
      else if Ascii.eqb c "."%char then path else EmptyString
  end.

(** [strings.Split] for a non-empty separator: cut at each occurrence of
    [sep], left to right, occurrences not overlapping.  [skip] counts the
    bytes of a matched separator still to be dropped, [cur] is the piece
    being collected. *)
Fixpoint splitFrom (sep s : string) (skip : nat) (cur : string) : list string :=
  match s with
  | EmptyString => [cur]
  | String c r =>
      match skip with
      | S k => splitFrom sep r k cur
      | O =>
          if HasPrefix s sep
          then cur :: splitFrom sep r (String.length sep - 1)%nat EmptyString
          else splitFrom sep r O (cur +:+ String c EmptyString)
      end
  end.

Definition Split (s sep : string) : list string := splitFrom sep s O EmptyString.

(** Digits for the integer verbs of package fmt. *)
Definition digitChar (d : N) : ascii :=
  if (d <? 10)%N then Ascii.ascii_of_N (48 + d) else Ascii.ascii_of_N (87 + d).

Fixpoint digitsFuel (fuel : nat) (base n : N) (acc : string) : string :=
  match fuel with
  | O => acc
  | S f =>
      let acc' := String (digitChar (n mod base)) acc in
      if (n / base =? 0)%N then acc' else digitsFuel f base (n / base) acc'
  end.

Definition FormatUint (base n : N) : string :=
  digitsFuel (S (N.to_nat (N.log2 n))) base n EmptyString.

Fixpoint zeros (k : nat) : string :=
  match k with
  | O => EmptyString
  | S k' => String "0"%char (zeros k')
  end.

Definition padZero (width : nat) (s : string) : string :=
  zeros (width - String.length s) +:+ s.

(** [fmt.Sprintf("%0<width><verb>", z)]: the sign takes one column of the
    width, the digits are zero-padded to the rest. *)
Definition formatInt (base : N) (width : nat) (z : Z) : string :=
  if z <? 0
  then String "-"%char (padZero (width - 1) (FormatUint base (Z.abs_N z)))
  else padZero width (FormatUint base (Z.abs_N z)).

Definition Sprintf_d (z : Z) : string := formatInt 10 0 z.
Definition Sprintf_03o (z : Z) : string := formatInt 8 3 z.
Definition Sprintf_08x (z : Z) : string := formatInt 16 8 z.
Definition Itoa (z : Z) : string := Sprintf_d z.

(** The standard library functions whose result depends on Unicode tables,
    on the SHA-256 compression function or on the host's MIME database are
    an interface; the code is verified against any implementation. *)
Class Lib := {
  (** [hex.EncodeToString(sha256.Sum256(b))] *)
  sha256_hex : string -> string;
  (** [strings.TrimFunc(s, unicode.IsSpace)], the slow path of TrimSpace *)
  TrimFunc_IsSpace : string -> string;
  (** [strings.TrimRightFunc(s, unicode.IsSpace)] *)
  TrimRightFunc_IsSpace : string -> string;
  (** [strings.ToLower] *)
  ToLower : string -> string;
}.

Section WithLib.
Context `{Lib}.

(** Second loop of [strings.TrimSpace], on [s[start:]]. *)
Definition trimSpaceRight (s : string) : string :=
  let t := dropTrailingSpace s in
  match lastByte t with
  | Some c => if nonASCII c then TrimRightFunc_IsSpace t else t
  | None => EmptyString
  end.

(** [strings.TrimSpace]: ASCII fast path from both ends, falling back to
    the Unicode-aware functions at the first non-ASCII byte. *)
Fixpoint TrimSpace (s : string) : string :=
  match s with
  | EmptyString => EmptyString
  | String c r =>
      if nonASCII c then TrimFunc_IsSpace s
      else if asciiSpace c then TrimSpace r
      else trimSpaceRight s
  end.
End WithLib.

End Go.

(** ** internal/models *)
Module Models.

(** [uuid.UUID]: 128 bits, compared with [==]. *)
Definition UUID := N.

(** [*uuid.UUID == userID] guarded by a nil check. *)
Definition ptrIs (p : option UUID) (u : UUID) : bool :=
  match p with
  | Some v => (v =? u)%N
  | None => false
  end.

(** *** Permission (group.go) *)
Definition Permission := Z.

Definition PermissionNone : Permission := 0.
Definition PermissionExecute : Permission := 1.
Definition PermissionWrite : Permission := 2.
Definition PermissionWriteExec : Permission := 3.
Definition PermissionRead : Permission := 4.
Definition PermissionReadExec : Permission := 5.
Definition PermissionReadWrite : Permission := 6.
Definition PermissionReadWriteExec : Permission := 7.

Definition PermissionOwnerFull : Permission := 700.
Definition PermissionOwnerReadWrite : Permission := 600.
Definition PermissionGroupRead : Permission := 644.
Definition PermissionGroupWrite : Permission := 664.
Definition PermissionPublicRead : Permission := 755.
Definition PermissionPublicWrite : Permission := 777.

(** [int(p)&int(requested) == int(requested)] *)
Definition HasPermission (p requested : Permission) : bool :=
  Z.land p requested =? requested.

Definition Permission_CanRead (p : Permission) : bool := HasPermission p PermissionRead.
Definition Permission_CanWrite (p : Permission) : bool := HasPermission p PermissionWrite.
Definition Permission_CanExecute (p : Permission) : bool := HasPermission p PermissionExecute.

(** Go's [/] truncates toward zero and [%] takes the sign of the dividend:
    [Z.quot] and [Z.rem]. *)
Definition GetOwnerPermissions (p : Permission) : Permission := Z.rem (Z.quot p 100) 10.
Definition GetGroupPermissions (p : Permission) : Permission := Z.rem (Z.quot p 10) 10.
Definition GetOtherPermissions (p : Permission) : Permission := Z.rem p 10.

Record PermissionSet := {
  Read : bool;
  Write : bool;
  Execute : bool;
}.

Record FilePermissionCheck := {
  CanRead : bool;
  CanWrite : bool;
  CanDownload : bool;
  CanDelete : bool;
  CanShare : bool;
  Owner : PermissionSet;
  Group : PermissionSet;
  Others : PermissionSet;
  Octal : string;
}.

(** The zero value of [PermissionSet]. *)
Definition noPermissionSet : PermissionSet :=
  {| Read := false; Write := false; Execute := false |}.

(** [(perms & 4) != 0], [(perms & 2) != 0], [(perms & 1) != 0] *)
Definition permissionSetOf (perms : Z) : PermissionSet :=
  {| Read := negb (Z.land perms 4 =? 0);
     Write := negb (Z.land perms 2 =? 0);
     Execute := negb (Z.land perms 1 =? 0) |}.

(** The membership loop
    [for _, ugid := range userGroupIDs { if ugid == *groupID { ...; break } }]. *)
Fixpoint inGroups (userGroupIDs : list UUID) (groupID : UUID) : bool :=
  match userGroupIDs with
  | [] => false
  | ugid :: rest => if (ugid =? groupID)%N then true else inGroups rest groupID
  end.

(** The local [userPerms] of ParseLinuxPermissions: the permission set that
    applies to the user. *)
Definition userPermsOf (owner group others : PermissionSet)
    (userID : UUID) (fileOwnerID groupID : option UUID)
    (userGroupIDs : list UUID) : PermissionSet :=
  if ptrIs fileOwnerID userID then owner
  else match groupID with
       | Some g => if inGroups userGroupIDs g then group else others
       | None => others
       end.

Definition ParseLinuxPermissions (permissions : Z) (userID : UUID)
    (fileOwnerID groupID : option UUID) (userGroupIDs : list UUID)
    : FilePermissionCheck :=
  let octal := Go.Sprintf_03o permissions in
  let ownerPerms := Z.land (Z.shiftr permissions 6) 7 in
  let groupPerms := Z.land (Z.shiftr permissions 3) 7 in
  let otherPerms := Z.land permissions 7 in
  let owner := permissionSetOf ownerPerms in
  let group := permissionSetOf groupPerms in
  let others := permissionSetOf otherPerms in
  let userPerms := userPermsOf owner group others userID fileOwnerID groupID userGroupIDs in
  {| CanRead := Read userPerms;
     CanWrite := Write userPerms;
     CanDownload := Read userPerms;
     CanDelete := Write userPerms;
     CanShare := Read userPerms;
     Owner := owner;
     Group := group;
     Others := others;
     Octal := octal |}.

(** *** File, UserFile, validation results (file.go) *)
Record File := {
  File_ID : UUID;
  ContentHash : string;
  Filename : string;
  OriginalMimeType : string;
  File_DetectedMimeType : string;
  File_FileSize : Z;
  StoragePath : string;
  IsEncrypted : bool;
  OwnerID : option UUID;
  PrimaryGroupID : option UUID;
  FilePermissions : Z;
}.

Record UserFile := {
  UserFile_ID : UUID;
  UserID : UUID;
  FileID : UUID;
  UserFilename : string;
  FolderPath : string;
  IsDeleted : bool;
  DownloadCount : Z;
  AccessPermissions : Z;
}.

Record FileValidationResult := {
  IsValid : bool;
  DetectedMimeType : string;
  FVR_ContentHash : string;
  FileSize : Z;
  Errors : list string;
  Warnings : list string;
}.

Record DeduplicationResult := {
  DR_IsExisting : bool;
  ExistingFileID : option UUID;
  DR_SavingsBytes : Z;
  DR_StoragePath : string;
}.

Record VirusScanResult := {
  Clean : bool;
  Engine : string;
  ScannedAt : Z;
  Status : string;
  ThreatName : string;
  Error : string;
}.

(** [MaxFileSize = 100 * 1024 * 1024 * 1024] *)
Definition MaxFileSize : Z := 100 * 1024 * 1024 * 1024.

End Models.

(** ** internal/repository/file.go *)
Module Repository.
Import Go Models.

(** The metadata store: the rows of tables [files] and [user_files], in
    insertion order.  Timestamps are not modelled. *)
Record Store := {
  files : list File;
  user_files : list UserFile;
}.

(** What one statement receives from outside the program: [fault] is the
    error of a statement that fails for a reason outside the model (lost
    connection, timeout, ...), [newID] the value of [gen_random_uuid()]. *)
Definition Fault := option string.

Definition ErrRecordNotFound : string := "record not found".

Definition hashIs (contentHash : string) (f : File) : bool :=
  String.eqb (ContentHash f) contentHash.

(** [First(&file, "content_hash = ?", contentHash)] *)
Definition GetByContentHash (st : Store) (fault : Fault) (contentHash : string)
    : result File :=
  match fault with
  | Some e => Err e
  | None =>
      match find (hashIs contentHash) (files st) with
      | Some f => Ok f
      | None => Err ErrRecordNotFound
      end
  end.

(** [CheckFileExists]: a missing row is [nil, nil]. *)
Definition CheckFileExists (st : Store) (fault : Fault) (contentHash : string)
    : result (option File) :=
  match fault with
  | Some e => Err ("error checking file existence: " +:+ e)
  | None => Ok (find (hashIs contentHash) (files st))
  end.

(** [contentHash[:2]] and [contentHash[2:4]] panic on a shorter string. *)
Definition generateStoragePath (contentHash : string) : result string :=
  if (String.length contentHash <? 4)%nat then Panic
  else Ok ("files/" +:+ String.substring 0 2 contentHash +:+ "/"
           +:+ String.substring 2 2 contentHash +:+ "/" +:+ contentHash).

Definition CheckDeduplication (st : Store) (fault : Fault) (contentHash : string)
    (fileSize : Z) : result DeduplicationResult :=
  match CheckFileExists st fault contentHash with
  | Err e => Err ("error checking deduplication: " +:+ e)
  | Panic => Panic
  | Ok (Some existingFile) =>
      Ok {| DR_IsExisting := true;
            ExistingFileID := Some (File_ID existingFile);
            DR_SavingsBytes := fileSize;
            DR_StoragePath := StoragePath existingFile |}
  | Ok None =>
      match generateStoragePath contentHash with
      | Ok path =>
          Ok {| DR_IsExisting := false;
                ExistingFileID := None;
                DR_SavingsBytes := 0;
                DR_StoragePath := path |}
      | Err e => Err e
      | Panic => Panic
      end
  end.

(** The row gorm inserts for [file]: zero-valued columns that carry a
    [default:] tag take the default ([id] from [gen_random_uuid()],
    [file_permissions] 644). *)
Definition fileRow (newID : UUID) (file : File) : File :=
  {| File_ID := if (File_ID file =? 0)%N then newID else File_ID file;
     ContentHash := ContentHash file;
     Filename := Filename file;
     OriginalMimeType := OriginalMimeType file;
     File_DetectedMimeType := File_DetectedMimeType file;
     File_FileSize := File_FileSize file;
     StoragePath := StoragePath file;
     IsEncrypted := IsEncrypted file;
     OwnerID := OwnerID file;
     PrimaryGroupID := PrimaryGroupID file;
     FilePermissions := if FilePermissions file =? 0 then 644 else FilePermissions file |}.

Definition ErrDuplicateKey : string := "duplicate key value violates unique constraint".

(** [Create]: insert into [files]; the primary key and the unique index
    [files_content_hash_key] reject a duplicate. *)
Definition Create (st : Store) (fault : Fault) (newID : UUID) (file : File)
    : Store * result File :=
  match fault with
  | Some e => (st, Err e)
  | None =>
      let row := fileRow newID file in
      if existsb (fun f => (File_ID f =? File_ID row)%N) (files st)
         || existsb (hashIs (ContentHash row)) (files st)
      then (st, Err ErrDuplicateKey)
      else ({| files := files st ++ [row]; user_files := user_files st |}, Ok row)
  end.

Definition userFileRow (newID : UUID) (uf : UserFile) : UserFile :=
  {| UserFile_ID := if (UserFile_ID uf =? 0)%N then newID else UserFile_ID uf;
     UserID := UserID uf;
     FileID := FileID uf;
     UserFilename := UserFilename uf;
     FolderPath := if String.eqb (FolderPath uf) EmptyString then "/" else FolderPath uf;
     IsDeleted := IsDeleted uf;
     DownloadCount := DownloadCount uf;
     AccessPermissions := if AccessPermissions uf =? 0 then 644 else AccessPermissions uf |}.

(** [UNIQUE(user_id, user_filename, folder_path)] of table [user_files]. *)
Definition sameName (a b : UserFile) : bool :=
  (UserID a =? UserID b)%N
  && String.eqb (UserFilename a) (UserFilename b)
  && String.eqb (FolderPath a) (FolderPath b).

(** [CreateUserFile]: insert into [user_files]; the row must reference an
    existing file. *)
Definition CreateUserFile (st : Store) (fault : Fault) (newID : UUID) (uf : UserFile)
    : Store * result UserFile :=
  match fault with
  | Some e => (st, Err e)
  | None =>
      let row := userFileRow newID uf in
      if existsb (fun r => (UserFile_ID r =? UserFile_ID row)%N) (user_files st)
         || existsb (sameName row) (user_files st)
      then (st, Err ErrDuplicateKey)
      else if negb (existsb (fun f => (File_ID f =? FileID row)%N) (files st))
      then (st, Err "violates foreign key constraint")
      else ({| files := files st; user_files := user_files st ++ [row] |}, Ok row)
  end.

(** [Where("id = ? AND user_id = ? AND is_deleted = false", ...).First] *)
Definition liveRowOf (userID userFileID : UUID) (r : UserFile) : bool :=
  (UserFile_ID r =? userFileID)%N && (UserID r =? userID)%N && negb (IsDeleted r).

Definition GetUserFile (st : Store) (fault : Fault) (userID userFileID : UUID)
    : result UserFile :=
  match fault with
  | Some e => Err ("user file not found: " +:+ e)
  | None =>
      match find (liveRowOf userID userFileID) (user_files st) with
      | Some r => Ok r
      | None => Err ("user file not found: " +:+ ErrRecordNotFound)
      end
  end.

Definition markDeleted (userFileID : UUID) (r : UserFile) : UserFile :=
  if (UserFile_ID r =? userFileID)%N
  then {| UserFile_ID := UserFile_ID r;
          UserID := UserID r;
          FileID := FileID r;
          UserFilename := UserFilename r;
          FolderPath := FolderPath r;
          IsDeleted := true;
          DownloadCount := DownloadCount r;
          AccessPermissions := AccessPermissions r |}
  else r.

(** [SoftDeleteUserFile]: [UPDATE user_files SET is_deleted = true WHERE id = ?];
    an update that matches no row is not an error. *)
Definition SoftDeleteUserFile (st : Store) (fault : Fault) (userFileID : UUID)
    : Store * option string :=
  match fault with
  | Some e => (st, Some e)
  | None =>
      ({| files := files st;
          user_files := map (markDeleted userFileID) (user_files st) |}, None)
  end.

(** The group loop of calculateUserFilePermissions: the group digits on the
    first match, the zero value of [effectivePermission] otherwise. *)
Fixpoint groupMatch (userGroupIDs : list UUID) (filePrimaryGroupID : UUID)
    (perm : Permission) : Permission :=
  match userGroupIDs with
  | [] => 0
  | groupID :: rest =>
      if (groupID =? filePrimaryGroupID)%N then GetGroupPermissions perm
      else groupMatch rest filePrimaryGroupID perm
  end.

(** The local [effectivePermission] of calculateUserFilePermissions. *)
Definition effectivePermissionOf (userID : UUID) (userGroupIDs : list UUID)
    (fileOwnerID filePrimaryGroupID : option UUID) (filePermissions : Z)
    : Permission :=
  let perm : Permission := filePermissions in
  if ptrIs fileOwnerID userID then GetOwnerPermissions perm
  else
    let effectivePermission :=
      match filePrimaryGroupID with
      | Some g => groupMatch userGroupIDs g perm
      | None => 0
      end in
    if effectivePermission =? 0 then GetOtherPermissions perm
    else effectivePermission.

Definition calculateUserFilePermissions (userID : UUID) (userGroupIDs : list UUID)
    (fileOwnerID filePrimaryGroupID : option UUID) (filePermissions : Z)
    : FilePermissionCheck :=
  let effectivePermission :=
    effectivePermissionOf userID userGroupIDs fileOwnerID filePrimaryGroupID
      filePermissions in
  {| CanRead := Permission_CanRead effectivePermission;
     CanWrite := Permission_CanWrite effectivePermission;
     CanDownload := Permission_CanRead effectivePermission;
     CanDelete := Permission_CanWrite effectivePermission;
     CanShare := Permission_CanRead effectivePermission;
     Owner := noPermissionSet;
     Group := noPermissionSet;
     Others := noPermissionSet;
     Octal := EmptyString |}.

End Repository.

(** ** internal/services: validation (file_validation.go) *)
Module Services.
Import Go Models Repository.

(** *** io.Reader

    A reader is the sequence of results its successive [Read] calls will
    return; past the end of the sequence every call returns [(0, io.EOF)]. *)
Inductive ReadErr :=
| NoErr
| EOF
| ReadFailure (msg : string).

Record ReadResult := {
  data : string;
  err : ReadErr;
}.

Definition Reader := list ReadResult.

(** [io.Copy(dst, src)]: the bytes written, the error ([io.EOF] is not one)
    and the reader afterwards. *)
Fixpoint ioCopy (src : Reader) : string * option string * Reader :=
  match src with
  | [] => (EmptyString, None, [])
  | r :: rest =>
      match err r with
      | EOF => (data r, None, rest)
      | ReadFailure e => (data r, Some e, rest)
      | NoErr => let '(written, e, rest') := ioCopy rest in
                 (data r +:+ written, e, rest')
      end
  end.

(** The bytes a reader yields up to its end of file. *)
Definition contentBytes (src : Reader) : string := fst (fst (ioCopy src)).

(** A string given by its byte values. *)
Definition bytes (l : list N) : string :=
  fold_right (fun n s => String (Ascii.ascii_of_N n) s) EmptyString l.

(** [len(s)] as an [int]. *)
Definition len (s : string) : Z := Z.of_nat (String.length s).

Record FileValidationService := {
  virusScanningEnabled : bool;
  clamAVHost : string;
  clamAVPort : string;
}.

(** [result.IsValid = false; result.Errors = append(result.Errors, msg)] *)
Definition addError (msg : string) (r : FileValidationResult) : FileValidationResult :=
  {| IsValid := false;
     DetectedMimeType := DetectedMimeType r;
     FVR_ContentHash := FVR_ContentHash r;
     FileSize := FileSize r;
     Errors := Errors r ++ [msg];
     Warnings := Warnings r |}.

(** [result.Warnings = append(result.Warnings, msg)] *)
Definition addWarning (msg : string) (r : FileValidationResult) : FileValidationResult :=
  {| IsValid := IsValid r;
     DetectedMimeType := DetectedMimeType r;
     FVR_ContentHash := FVR_ContentHash r;
     FileSize := FileSize r;
     Errors := Errors r;
     Warnings := Warnings r ++ [msg] |}.

Definition setDetectedMimeType (m : string) (r : FileValidationResult)
    : FileValidationResult :=
  {| IsValid := IsValid r;
     DetectedMimeType := m;
     FVR_ContentHash := FVR_ContentHash r;
     FileSize := FileSize r;
     Errors := Errors r;
     Warnings := Warnings r |}.

(** Two relations between a result and a later one, for the validation
    steps: [keeps] - a rejected result stays rejected and errors are only
    appended; [rejects] - the later result is rejected, with a new error. *)
Definition keeps (r r' : FileValidationResult) : Prop :=
  (IsValid r = false -> IsValid r' = false)
  /\ (List.length (Errors r) <= List.length (Errors r'))%nat.

Definition rejects (r r' : FileValidationResult) : Prop :=
  IsValid r' = false /\ (List.length (Errors r) < List.length (Errors r'))%nat.

(** The fingerprint and the size a result carries. *)
Definition digestOf (r : FileValidationResult) : string * Z :=
  (FVR_ContentHash r, FileSize r).

(** validateFileSize; the Go function always returns a nil error. *)
Definition validateFileSize (size : Z) (result : FileValidationResult)
    : FileValidationResult :=
  let result :=
    if size =? 0 then addError "File is empty" result else result in
  if size >? MaxFileSize
  then addError ("File size (" +:+ Sprintf_d size
                 +:+ " bytes) exceeds maximum allowed size ("
                 +:+ Sprintf_d MaxFileSize +:+ " bytes)") result
  else result.

Definition dangerousChars : list string :=
  ["../"; "..\"; "<"; ">"; ":"; String (Ascii.ascii_of_N 34) EmptyString; "|"; "?"; "*"].

(** The loop over [dangerousChars]. *)
Fixpoint checkDangerousChars (chars : list string) (filename : string)
    (result : FileValidationResult) : FileValidationResult :=
  match chars with
  | [] => result
  | char :: rest =>
      let result :=
        if Contains filename char
        then addError ("Filename contains dangerous character: " +:+ char) result
        else result in
      checkDangerousChars rest filename result
  end.

Section Validation.
Context `{Lib}.

(** validateFilename; the Go function always returns a nil error. *)
Definition validateFilename (filename : string) (result : FileValidationResult)
    : FileValidationResult :=
  if String.eqb (TrimSpace filename) EmptyString
  then addError "Filename cannot be empty" result
  else
    let result := checkDangerousChars dangerousChars filename result in
    let result :=
      if len filename >? 255
      then addError "Filename is too long (max 255 characters)" result
      else result in
    if Contains filename (bytes [0%N])
    then addError "Filename contains null bytes" result
    else result.

Definition dangerousExts : list string :=
  [".exe"; ".bat"; ".cmd"; ".com"; ".pif"; ".scr"; ".vbs"; ".vbe";
   ".js"; ".jar"; ".msi"; ".dll"; ".deb"; ".rpm"; ".dmg"; ".pkg";
   ".sh"; ".bash"; ".zsh"; ".fish"; ".csh"; ".ksh"; ".ps1"; ".psm1";
   ".py"; ".rb"; ".pl"; ".php"; ".asp"; ".aspx"; ".jsp"; ".war";
   ".ipa"; ".apk"; ".app"; ".gadget"; ".workflow"].

Definition suspiciousExts : list string :=
  [".zip"; ".rar"; ".7z"; ".tar"; ".gz"; ".bz2"].

Definition validateFileExtension (filename : string) (result : FileValidationResult)
    : FileValidationResult :=
  let ext := ToLower (Ext filename) in
  if existsb (String.eqb ext) dangerousExts
  then addError ("File type '" +:+ ext +:+ "' is not allowed for security reasons") result
  else if existsb (String.eqb ext) suspiciousExts
  then addWarning ("Archive file detected (" +:+ ext
                   +:+ "). Please scan contents before extraction") result
  else result.

(** The counting loop of isTextContent over the first [checkSize] bytes. *)
Definition isPrintable (b : ascii) : bool :=
  let v := byte_of b in
  (v =? 9)%N || (v =? 10)%N || (v =? 13)%N || ((32 <=? v)%N && (v <=? 126)%N)
  || (128 <=? v)%N.

Fixpoint countNonPrintable (checkSize : nat) (content : string) : Z :=
  match checkSize, content with
  | S k, String b rest =>
      (if isPrintable b then 0 else 1) + countNonPrintable k rest
  | _, _ => 0
  end.

(** isTextContent.  [float64(nonPrintable)/float64(checkSize) < 0.3] with
    [checkSize <= 512] holds exactly when [10 * nonPrintable < 3 * checkSize]:
    the quotient is either the same double as the constant or differs from
    [3/10] by at least [1/5120]. *)
Definition isTextContent (content : string) : bool :=
  if len content =? 0 then false
  else
    let checkSize := if len content <? 512 then len content else 512 in
    let nonPrintable := countNonPrintable (Z.to_nat checkSize) content in
    10 * nonPrintable <? 3 * checkSize.

Definition acceptableMismatches (detected : string) : option (list string) :=
  if String.eqb detected "application/octet-stream" then Some ["*"]
  else if String.eqb detected "text/plain" then Some ["application/octet-stream"]
  else if String.eqb detected "application/zip"
  then Some ["application/vnd.openxmlformats-officedocument.wordprocessingml.document";
             "application/vnd.openxmlformats-officedocument.spreadsheetml.sheet"]
  else None.

Definition validateMimeTypeConsistency (declared detected : string)
    (result : FileValidationResult) : FileValidationResult :=
  if String.eqb declared EmptyString then result
  else if String.eqb detected declared then result
  else
    let accepted :=
      match acceptableMismatches detected with
      | Some l => existsb (fun t => String.eqb t "*" || String.eqb t declared) l
      | None => false
      end in
    if accepted then result
    else addWarning ("Declared MIME type (" +:+ declared
                     +:+ ") differs from detected type (" +:+ detected +:+ ")") result.

Definition suspiciousPatterns : list string :=
  ["autorun.inf"; "desktop.ini"; ".htaccess"; "web.config"; "config.php";
   "wp-config.php"; ".env"; "id_rsa"; "id_dsa"; "private.key"].

Definition suspiciousScripts : list string :=
  ["<script"; "javascript:"; "vbscript:"; "onload="; "onerror="; "eval(";
   "exec("; "system("; "shell_exec("].

(** A loop that appends one warning per pattern found in [text]. *)
Fixpoint warnEach (prefix : string) (patterns : list string) (text : string)
    (result : FileValidationResult) : FileValidationResult :=
  match patterns with
  | [] => result
  | pattern :: rest =>
      let result :=
        if Contains text pattern then addWarning (prefix +:+ pattern) result
        else result in
      warnEach prefix rest text result
  end.

Definition checkMaliciousContent (filename content : string)
    (result : FileValidationResult) : FileValidationResult :=
  let lowerFilename := ToLower filename in
  let result :=
    warnEach "Suspicious filename pattern detected: " suspiciousPatterns
      lowerFilename result in
  let result :=
    if len content >? 2 then
      let result :=
        if Contains content "MZ" && Contains content ("PE" +:+ bytes [0%N; 0%N])
        then addError "File contains embedded Windows executable" result
        else result in
      let result :=
        if (len content >=? 4)
           && String.eqb (String.substring 0 4 content) (bytes [127%N] +:+ "ELF")
        then addError "File contains embedded Linux executable" result
        else result in
      if (len content >=? 4)
         && (String.eqb (String.substring 0 4 content) (bytes [254%N; 237%N; 250%N; 206%N])
             || String.eqb (String.substring 0 4 content) (bytes [254%N; 237%N; 250%N; 207%N]))
      then addError "File contains embedded macOS executable" result
      else result
    else result in
  if isTextContent content
  then warnEach "Potentially suspicious script content detected: " suspiciousScripts
         (ToLower content) result
  else result.

Definition validateFileSignature (content detectedMimeType : string)
    (result : FileValidationResult) : FileValidationResult :=
  if len content <? 4 then result
  else if String.eqb detectedMimeType "image/jpeg" then
    if negb (HasPrefix content (bytes [255%N; 216%N; 255%N]))
    then addWarning "JPEG file signature validation failed" result else result
  else if String.eqb detectedMimeType "image/png" then
    if negb (HasPrefix content (bytes [137%N] +:+ "PNG" +:+ bytes [13%N; 10%N; 26%N; 10%N]))
    then addWarning "PNG file signature validation failed" result else result
  else if String.eqb detectedMimeType "application/pdf" then
    if negb (HasPrefix content "%PDF-")
    then addWarning "PDF file signature validation failed" result else result
  else result.

(** detectMimeType matches magic bytes, then asks the host MIME database
    ([mime.TypeByExtension]); for XML-like content it also inspects
    [content[:100]], which for a shorter content reaches into the unused
    capacity of the buffer.  It is an interface here: its result only feeds
    [DetectedMimeType] and the warnings. *)
Class Sniffer := {
  detectMimeType : string -> string -> string;
}.

Context `{Sniffer}.

(** ValidateFile; the Go function always returns a nil error.  The second
    component is the reader after [io.Copy] has drained it.  This is the
    result of the calls that return; [ServicesMore.ValidateFile_run] adds
    the one panic, in detectMimeTypeByContent. *)
Definition ValidateFile (filename declaredMimeType : string) (content : Reader)
    : FileValidationResult * Reader :=
  let result :=
    {| IsValid := true; DetectedMimeType := EmptyString; FVR_ContentHash := EmptyString;
       FileSize := 0; Errors := []; Warnings := [] |} in
  let '(contentBytes, e, content') := ioCopy content in
  match e with
  | Some msg => (addError ("Failed to read file content: " +:+ msg) result, content')
  | None =>
      let size := len contentBytes in
      let result :=
        {| IsValid := IsValid result;
           DetectedMimeType := DetectedMimeType result;
           FVR_ContentHash := sha256_hex contentBytes;
           FileSize := size;
           Errors := Errors result;
           Warnings := Warnings result |} in
      let result := validateFileSize size result in
      let result := validateFilename filename result in
      let detectedMimeType := detectMimeType filename contentBytes in
      let result := setDetectedMimeType detectedMimeType result in
      let result := validateMimeTypeConsistency declaredMimeType detectedMimeType result in
      let result := checkMaliciousContent filename contentBytes result in
      let result := validateFileExtension filename result in
      let result := validateFileSignature contentBytes detectedMimeType result in
      (result, content')
  end.

End Validation.

(** *** Virus scan (scanForViruses) *)

(** What the network does during one scan: the error of [net.DialTimeout],
    the error of the first [conn.Write], and the outcome of the single
    [conn.Read] ([inl] the bytes it returned, [inr] its error). *)
Record ClamAV := {
  dialErr : option string;
  commandWriteErr : option string;
  response : string + string;
}.

Definition newScanResult (now : Z) : VirusScanResult :=
  {| Clean := true; Engine := "ClamAV"; ScannedAt := now;
     Status := EmptyString; ThreatName := EmptyString; Error := EmptyString |}.

Definition withStatus (status error : string) (r : VirusScanResult) : VirusScanResult :=
  {| Clean := Clean r; Engine := Engine r; ScannedAt := ScannedAt r;
     Status := status; ThreatName := ThreatName r; Error := error |}.

(** The command line: [[]byte("nINSTREAM\n")]. *)
Definition instreamCommand : string := "nINSTREAM" +:+ bytes [10%N].

(** One iteration of the streaming loop writes
    [fmt.Sprintf("%08x", n)] and then [buffer[:n]], when [n > 0]. *)
Definition chunkFrame (chunk : string) : string :=
  if len chunk >? 0 then Sprintf_08x (len chunk) +:+ chunk else EmptyString.

(** The streaming loop: the bytes handed to [conn.Write] and the read error
    that ended the loop, if any. *)
Fixpoint streamChunks (content : Reader) : string * option string :=
  match content with
  | [] => (EmptyString, None)
  | r :: rest =>
      match err r with
      | EOF => (chunkFrame (data r), None)
      | ReadFailure e => (chunkFrame (data r), Some e)
      | NoErr => let '(sent, e) := streamChunks rest in
                 (chunkFrame (data r) +:+ sent, e)
      end
  end.

(** The end-of-stream marker: [[]byte("00000000")]. *)
Definition endOfStream : string := "00000000".

(** The branch on the response text. *)
Definition parseResponse (responseStr : string) (scanResult : VirusScanResult)
    : VirusScanResult :=
  if Contains responseStr "FOUND" then
    let threatName :=
      match Split responseStr ": " with
      | _ :: part1 :: _ =>
          match Split part1 " " with
          | threat :: _ => threat
          | [] => ThreatName scanResult
          end
      | _ => ThreatName scanResult
      end in
    {| Clean := false; Engine := Engine scanResult; ScannedAt := ScannedAt scanResult;
       Status := "infected"; ThreatName := threatName; Error := Error scanResult |}
  else if Contains responseStr "OK" then
    withStatus "clean" (Error scanResult) scanResult
  else
    withStatus "error" ("Unexpected ClamAV response: " +:+ responseStr) scanResult.

(** scanForViruses: everything the function hands to [conn.Write], in order,
    then its two results. *)
Definition scanForViruses (s : FileValidationService) (net : ClamAV) (now : Z)
    (content : Reader) : string * VirusScanResult * option string :=
  let scanResult := newScanResult now in
  if negb (virusScanningEnabled s)
  then (EmptyString, withStatus "disabled" EmptyString scanResult, None)
  else
    match dialErr net with
    | Some e =>
        (EmptyString,
         withStatus "error" ("Failed to connect to ClamAV: " +:+ e) scanResult,
         Some ("ClamAV connection failed: " +:+ e))
    | None =>
        match commandWriteErr net with
        | Some e =>
            (instreamCommand,
             withStatus "error" "Failed to send scan command" scanResult, Some e)
        | None =>
            let '(sent, readErr) := streamChunks content in
            match readErr with
            | Some e =>
                (instreamCommand +:+ sent,
                 withStatus "error" "Failed to stream file content" scanResult, Some e)
            | None =>
                let wire := instreamCommand +:+ sent +:+ endOfStream in
                match response net with
                | inr e =>
                    (wire, withStatus "error" "Failed to read scan result" scanResult,
                     Some e)
                | inl responseStr => (wire, parseResponse responseStr scanResult, None)
                end
            end
        end
    end.

(** The framing the scanner interface is specified with: each chunk as a
    4-byte big-endian length followed by the chunk, then four zero bytes. *)
Definition bigEndian32 (n : Z) : string :=
  bytes [Z.to_N (Z.land (Z.shiftr n 24) 255); Z.to_N (Z.land (Z.shiftr n 16) 255);
         Z.to_N (Z.land (Z.shiftr n 8) 255); Z.to_N (Z.land n 255)].

Definition chunkFrameSpec (chunk : string) : string :=
  if len chunk >? 0 then bigEndian32 (len chunk) +:+ chunk else EmptyString.

Fixpoint streamChunksSpec (content : Reader) : string :=
  match content with
  | [] => EmptyString
  | r :: rest =>
      match err r with
      | NoErr => chunkFrameSpec (data r) +:+ streamChunksSpec rest
      | _ => chunkFrameSpec (data r)
      end
  end.

Definition instreamWireSpec (content : Reader) : string :=
  instreamCommand +:+ streamChunksSpec content +:+ bytes [0%N; 0%N; 0%N; 0%N].

(** ** internal/services: storage (storage.go, local_storage.go,
    azure_storage.go) *)

(** The object store: path to bytes. *)
Abbreviation Objects := (gmap string string).

(** [StorageInterface], restricted to [UploadFile].  [fault] is an error of
    the backend itself (no space, no permission, ...). *)
Class StorageInterface := {
  Storage_UploadFile :
    Objects -> Fault -> string -> Reader -> Z -> string ->
    Objects * Reader * option string;
}.

(** LocalStorageService.UploadFile: [os.Create] truncates the file, then
    [io.Copy] writes whatever the reader still yields. *)
Definition LocalStorageService_UploadFile (objects : Objects) (fault : Fault)
    (storagePath : string) (content : Reader) (contentLength : Z)
    (contentType : string) : Objects * Reader * option string :=
  match fault with
  | Some e => (objects, content, Some ("failed to create file: " +:+ e))
  | None =>
      let '(written, e, content') := ioCopy content in
      (<[storagePath := written]> objects, content',
       match e with
       | Some msg => Some ("failed to write file content: " +:+ msg)
       | None => None
       end)
  end.

(** SimpleAzureStorageService.UploadFile: a placeholder that always fails. *)
Definition SimpleAzureStorageService_UploadFile (objects : Objects) (fault : Fault)
    (storagePath : string) (content : Reader) (contentLength : Z)
    (contentType : string) : Objects * Reader * option string :=
  (objects, content,
   Some "Azure storage not yet implemented - using local storage instead").

#[export] Instance LocalStorageService : StorageInterface | 10 :=
  {| Storage_UploadFile := LocalStorageService_UploadFile |}.

Definition SimpleAzureStorageService : StorageInterface :=
  {| Storage_UploadFile := SimpleAzureStorageService_UploadFile |}.

(** ** internal/services: upload (file_upload.go) *)

Record UploadFileRequest := {
  reqUserID : UUID;
  reqSessionToken : option UUID;
  reqFilename : string;
  reqUserFilename : string;
  reqMimeType : string;
  reqFolderPath : string;
  reqContent : Reader;
  reqFileSize : Z;
  reqOwnerID : option UUID;
  reqPrimaryGroupID : option UUID;
  reqFilePermissions : Z;
}.

Record UploadFileResponse := {
  respFileID : UUID;
  respUserFileID : UUID;
  IsExisting : bool;
  SavingsBytes : Z;
  respWarnings : list string;
}.

(** Metadata store and object store together. *)
Record World := {
  meta : Store;
  objects : Objects;
}.

(** What one UploadFile call receives from outside: the faults of its four
    external operations and the two identifiers the database draws. *)
Record UploadEnv := {
  lookupFault : Fault;
  putFault : Fault;
  createFault : Fault;
  referenceFault : Fault;
  fileUUID : UUID;
  referenceUUID : UUID;
}.

(** [fmt.Sprintf("%v", []string{...})] *)
Fixpoint joinWords (l : list string) : string :=
  match l with
  | [] => EmptyString
  | [x] => x
  | x :: rest => x +:+ " " +:+ joinWords rest
  end.

Definition Sprintf_v (l : list string) : string := "[" +:+ joinWords l +:+ "]".

(** FileUploadService.generateStoragePath *)
Definition Service_generateStoragePath (contentHash : string) : result string :=
  if (String.length contentHash <? 4)%nat then Panic
  else Ok ("files/" +:+ String.substring 0 2 contentHash +:+ "/"
           +:+ String.substring 2 2 contentHash +:+ "/" +:+ contentHash).

Section Upload.
Context `{Lib} `{Sniffer} `{StorageInterface}.

(** Step 3 of UploadFile: create the user file reference and answer. *)
Definition createReference (w : World) (env : UploadEnv) (req : UploadFileRequest)
    (validation : FileValidationResult) (file : File) (isExisting : bool)
    (savingsBytes : Z) : World * result UploadFileResponse :=
  let userFile :=
    {| UserFile_ID := 0%N;
       UserID := reqUserID req;
       FileID := File_ID file;
       UserFilename := reqUserFilename req;
       FolderPath := reqFolderPath req;
       IsDeleted := false;
       DownloadCount := 0;
       AccessPermissions := 0 |} in
  let '(st, r) := CreateUserFile (meta w) (referenceFault env) (referenceUUID env) userFile in
  let w := {| meta := st; objects := objects w |} in
  match r with
  | Ok userFile =>
      (w, Ok {| respFileID := File_ID file;
                respUserFileID := UserFile_ID userFile;
                IsExisting := isExisting;
                SavingsBytes := savingsBytes;
                respWarnings := Warnings validation |})
  | Err e => (w, Err ("failed to create user file reference: " +:+ e))
  | Panic => (w, Panic)
  end.

(** FileUploadService.UploadFile *)
Definition UploadFile (w : World) (env : UploadEnv) (req : UploadFileRequest)
    : World * result UploadFileResponse :=
  (* 1. Validate file content and security *)
  let '(validation, content) :=
    ValidateFile (reqFilename req) (reqMimeType req) (reqContent req) in
  if negb (IsValid validation)
  then (w, Err ("file validation failed: " +:+ Sprintf_v (Errors validation)))
  else
    (* 2. Check for existing file (deduplication logic) *)
    match GetByContentHash (meta w) (lookupFault env) (FVR_ContentHash validation) with
    | Ok existingFile =>
        createReference w env req validation existingFile true (FileSize validation)
    | _ =>
        match Service_generateStoragePath (FVR_ContentHash validation) with
        | Ok storagePath =>
            let '(objs, _, e) :=
              Storage_UploadFile (objects w) (putFault env) storagePath content
                (FileSize validation) (DetectedMimeType validation) in
            let w := {| meta := meta w; objects := objs |} in
            match e with
            | Some msg => (w, Err ("failed to upload file to storage: " +:+ msg))
            | None =>
                let file :=
                  {| File_ID := 0%N;
                     ContentHash := FVR_ContentHash validation;
                     Filename := reqFilename req;
                     OriginalMimeType := reqMimeType req;
                     File_DetectedMimeType := DetectedMimeType validation;
                     File_FileSize := FileSize validation;
                     StoragePath := storagePath;
                     IsEncrypted := false;
                     OwnerID := reqOwnerID req;
                     PrimaryGroupID := reqPrimaryGroupID req;
                     FilePermissions := reqFilePermissions req |} in
                let '(st, r) := Create (meta w) (createFault env) (fileUUID env) file in
                let w := {| meta := st; objects := objects w |} in
                match r with
                | Ok file => createReference w env req validation file false 0
                | Err msg => (w, Err ("failed to create file record: " +:+ msg))
                | Panic => (w, Panic)
                end
            end
        | Err msg => (w, Err msg)
        | Panic => (w, Panic)
        end
    end.

End Upload.

End Services.

(** ** internal/handlers/files.go *)
Module Handlers.
Import Go Models Repository.

(** [c.JSON(code, gin.H{key: message})] *)
Record Response := {
  code : Z;
  key : string;
  message : string;
}.

Definition StatusOK : Z := 200.
Definition StatusBadRequest : Z := 400.
Definition StatusUnauthorized : Z := 401.
Definition StatusForbidden : Z := 403.
Definition StatusNotFound : Z := 404.
Definition StatusInternalServerError : Z := 500.

(** A request for [DELETE /files/:fileId]: the value the auth middleware
    stored under ["userID"], if any, and the result of [uuid.Parse] on the
    path parameter ([None] when it does not parse). *)
Record DeleteRequest := {
  ctxUserID : option UUID;
  fileId : option UUID;
}.

(** The faults of the two statements of one DeleteFile call. *)
Record DeleteEnv := {
  getFault : Fault;
  updateFault : Fault;
}.

(** FileHandler.DeleteFile *)
Definition DeleteFile (st : Store) (env : DeleteEnv) (req : DeleteRequest)
    : Store * Response :=
  match ctxUserID req with
  | None =>
      (st, {| code := StatusUnauthorized; key := "error";
              message := "User not authenticated" |})
  | Some userID =>
      match fileId req with
      | None =>
          (st, {| code := StatusBadRequest; key := "error";
                  message := "Invalid file ID" |})
      | Some fileID =>
          match GetUserFile st (getFault env) userID fileID with
          | Ok userFile =>
              if negb (UserID userFile =? userID)%N
              then (st, {| code := StatusForbidden; key := "error";
                           message := "Access denied" |})
              else
                match SoftDeleteUserFile st (updateFault env) (UserFile_ID userFile) with
                | (st', Some _) =>
                    (st', {| code := StatusInternalServerError; key := "error";
                             message := "Failed to delete file" |})
                | (st', None) =>
                    (st', {| code := StatusOK; key := "message";
                             message := "File deleted successfully" |})
                end
          | _ =>
              (st, {| code := StatusNotFound; key := "error";
                      message := "File not found" |})
          end
      end
  end.

(** The answer to a reference that is not there. *)
Definition fileNotFound : Response :=
  {| code := StatusNotFound; key := "error"; message := "File not found" |}.

(** A run of DeleteFile calls, each with its own faults. *)
Fixpoint DeleteFileMany (st : Store) (envs : list DeleteEnv) (req : DeleteRequest)
    : Store * list Response :=
  match envs with
  | [] => (st, [])
  | env :: rest =>
      let '(st1, r) := DeleteFile st env req in
      let '(st2, rs) := DeleteFileMany st1 rest req in
      (st2, r :: rs)
  end.

End Handlers.

(** ** internal/middleware/rate_limiter.go *)
Module Middleware.
Import Go Models.

(** [golang.org/x/time/rate]: the limiter is a library type.  Time is in
    nanoseconds; token counts, which the library keeps as floats, are
    rationals. *)
Class RateLib := {
  Limiter : Type;
  (** [rate.NewLimiter(r, b)] *)
  NewLimiter : Z -> Z -> Limiter;
  (** [lim.Allow()] at a given instant: the answer and the limiter afterwards *)
  Allow : Z -> Limiter -> bool * Limiter;
  (** [lim.Limit()], [lim.Burst()], [lim.Tokens()] *)
  Limit : Limiter -> Q;
  Burst : Limiter -> Z;
  Tokens : Z -> Limiter -> Q;
}.

(** [int(x)] for a float [x]: truncation toward zero. *)
Definition intOf (q : Q) : Z := Z.quot (Qnum q) (Z.pos (Qden q)).

(** The configuration fields NewRateLimiter reads. *)
Record Config := {
  RateLimitRPS : Z;
  RateLimitBurst : Z;
}.

Definition Minute : Z := 60 * 1000000000.

Section WithRate.
Context `{RateLib}.

Record TokenBucket := {
  limiter : Limiter;
  lastAccess : Z;
}.

Record RateLimiter := {
  userBuckets : gmap UUID TokenBucket;
  orgBuckets : gmap UUID TokenBucket;
  userRPS : Z;
  userBurst : Z;
  orgRPS : Z;
  orgBurst : Z;
  cleanupInterval : Z;
  maxIdleTime : Z;
}.

Definition NewRateLimiter (cfg : Config) : RateLimiter :=
  {| userBuckets := ∅;
     orgBuckets := ∅;
     userRPS := RateLimitRPS cfg;
     userBurst := RateLimitBurst cfg;
     orgRPS := RateLimitRPS cfg * 10;
     orgBurst := RateLimitBurst cfg * 10;
     cleanupInterval := 5 * Minute;
     maxIdleTime := 30 * Minute |}.

Definition withUserBuckets (m : gmap UUID TokenBucket) (rl : RateLimiter) : RateLimiter :=
  {| userBuckets := m;
     orgBuckets := orgBuckets rl;
     userRPS := userRPS rl; userBurst := userBurst rl;
     orgRPS := orgRPS rl; orgBurst := orgBurst rl;
     cleanupInterval := cleanupInterval rl; maxIdleTime := maxIdleTime rl |}.

Definition withOrgBuckets (m : gmap UUID TokenBucket) (rl : RateLimiter) : RateLimiter :=
  {| userBuckets := userBuckets rl;
     orgBuckets := m;
     userRPS := userRPS rl; userBurst := userBurst rl;
     orgRPS := orgRPS rl; orgBurst := orgBurst rl;
     cleanupInterval := cleanupInterval rl; maxIdleTime := maxIdleTime rl |}.

(** GetUserLimiter: get or create the bucket, stamp its last access. *)
Definition GetUserLimiter (rl : RateLimiter) (now : Z) (userID : UUID)
    : RateLimiter * Limiter :=
  let bucket :=
    match userBuckets rl !! userID with
    | None => {| limiter := NewLimiter (userRPS rl) (userBurst rl); lastAccess := now |}
    | Some bucket => {| limiter := limiter bucket; lastAccess := now |}
    end in
  (withUserBuckets (<[userID := bucket]> (userBuckets rl)) rl, limiter bucket).

(** GetOrgLimiter *)
Definition GetOrgLimiter (rl : RateLimiter) (now : Z) (orgID : UUID)
    : RateLimiter * Limiter :=
  let bucket :=
    match orgBuckets rl !! orgID with
    | None => {| limiter := NewLimiter (orgRPS rl) (orgBurst rl); lastAccess := now |}
    | Some bucket => {| limiter := limiter bucket; lastAccess := now |}
    end in
  (withOrgBuckets (<[orgID := bucket]> (orgBuckets rl)) rl, limiter bucket).

(** The limiter is shared by pointer: its new state is the bucket's. *)
Definition storeUserLimiter (rl : RateLimiter) (userID : UUID) (lim : Limiter)
    : RateLimiter :=
  withUserBuckets
    (alter (fun b => {| limiter := lim; lastAccess := lastAccess b |}) userID
       (userBuckets rl)) rl.

Definition storeOrgLimiter (rl : RateLimiter) (orgID : UUID) (lim : Limiter)
    : RateLimiter :=
  withOrgBuckets
    (alter (fun b => {| limiter := lim; lastAccess := lastAccess b |}) orgID
       (orgBuckets rl)) rl.

(** What [c.Get("userID")] finds. *)
Inductive CtxValue :=
| Missing
| UserIDValue (userID : UUID)
| OtherValue.

(** How the middleware leaves the request. *)
Inductive Outcome :=
| Next (headers : list (string * string))
| Abort (code : Z) (error : string).

Definition admitted (o : Outcome) : bool :=
  match o with
  | Next _ => true
  | Abort _ _ => false
  end.

(** The handler returned by RateLimitMiddleware, run at instant [now]. *)
Definition RateLimitMiddleware (rl : RateLimiter) (now : Z) (c : CtxValue)
    : RateLimiter * Outcome :=
  match c with
  | Missing => (rl, Next [])
  | OtherValue => (rl, Abort 500 "Invalid user ID format")
  | UserIDValue userID =>
      let '(rl, userLimiter) := GetUserLimiter rl now userID in
      let '(ok, userLimiter) := Allow now userLimiter in
      let rl := storeUserLimiter rl userID userLimiter in
      if negb ok then (rl, Abort 429 "Rate limit exceeded")
      else
        let remainingTokens :=
          if Qlt_le_dec (Tokens now userLimiter) (inject_Z (Burst userLimiter))
          then intOf (Tokens now userLimiter)
          else Burst userLimiter in
        (rl, Next [("X-RateLimit-Limit", Itoa (intOf (Limit userLimiter)));
                   ("X-RateLimit-Remaining", Itoa remainingTokens)])
  end.

(** cleanup: drop the buckets idle for longer than [maxIdleTime]. *)
Definition cleanup (rl : RateLimiter) (now : Z) : RateLimiter :=
  let fresh (b : TokenBucket) := negb (now - lastAccess b >? maxIdleTime rl) in
  {| userBuckets := filter (fun kv => fresh kv.2 = true) (userBuckets rl);
     orgBuckets := filter (fun kv => fresh kv.2 = true) (orgBuckets rl);
     userRPS := userRPS rl; userBurst := userBurst rl;
     orgRPS := orgRPS rl; orgBurst := orgBurst rl;
     cleanupInterval := cleanupInterval rl; maxIdleTime := maxIdleTime rl |}.

(** One authenticated request: the principal, its organization, the instant. *)
Record Request := {
  principal : UUID;
  organization : UUID;
  at_ : Z;
}.

(** The middleware over a sequence of authenticated requests. *)
Fixpoint serve (rl : RateLimiter) (reqs : list Request) : RateLimiter * list bool :=
  match reqs with
  | [] => (rl, [])
  | r :: rest =>
      let '(rl1, o) := RateLimitMiddleware rl (at_ r) (UserIDValue (principal r)) in
      let '(rl2, os) := serve rl1 rest in
      (rl2, admitted o :: os)
  end.

(** The admission rule of the specification, for comparison with the
    middleware: one token is taken from the principal's bucket and one from
    the organization's bucket; the request is admitted when both had one. *)
Definition admitSpec (rl : RateLimiter) (r : Request) : RateLimiter * bool :=
  let '(rl, userLimiter) := GetUserLimiter rl (at_ r) (principal r) in
  let '(okUser, userLimiter) := Allow (at_ r) userLimiter in
  let rl := storeUserLimiter rl (principal r) userLimiter in
  let '(rl, orgLimiter) := GetOrgLimiter rl (at_ r) (organization r) in
  let '(okOrg, orgLimiter) := Allow (at_ r) orgLimiter in
  let rl := storeOrgLimiter rl (organization r) orgLimiter in
  (rl, okUser && okOrg).

Fixpoint serveSpec (rl : RateLimiter) (reqs : list Request) : RateLimiter * list bool :=
  match reqs with
  | [] => (rl, [])
  | r :: rest =>
      let '(rl1, ok) := admitSpec rl r in
      let '(rl2, oks) := serveSpec rl1 rest in
      (rl2, ok :: oks)
  end.

End WithRate.

(** A token bucket after [rate.Limiter], in exact arithmetic: [tokens] counts
    billionths of a token, so that a rate of [limit] tokens per second adds
    [limit] units per nanosecond. *)
Record Bucket := {
  limit : Z;
  burst : Z;
  tokens : Z;
  last : Z;
}.

Definition Giga : Z := 1000000000.

Definition advance (now : Z) (b : Bucket) : Z :=
  let last := if now <? last b then now else last b in
  Z.min (burst b * Giga) (tokens b + limit b * (now - last)).

Definition Bucket_Allow (now : Z) (b : Bucket) : bool * Bucket :=
  let t := advance now b in
  if (Giga <=? t) && (1 <=? burst b)
  then (true, {| limit := limit b; burst := burst b; tokens := t - Giga; last := now |})
  else (false, b).

#[export] Instance BucketLib : RateLib :=
  {| Limiter := Bucket;
     NewLimiter := fun r b => {| limit := r; burst := b; tokens := b * Giga; last := 0 |};
     Allow := Bucket_Allow;
     Limit := fun b => inject_Z (limit b);
     Burst := burst;
     Tokens := fun now b => Qmake (advance now b) 1000000000 |}.

End Middleware.

(** ** An implementation of the library interface

    Used to run the code on concrete inputs.  Unicode-aware trimming leaves
    its argument alone (right for a string without Unicode blanks), lower-casing
    is the ASCII one, and the digest is a stand-in: 64 hexadecimal digits that
    encode the sum of the bytes. *)
Module Instances.
Import Go Services.

Definition asciiLower (c : ascii) : ascii :=
  let v := byte_of c in
  if (65 <=? v)%N && (v <=? 90)%N then Ascii.ascii_of_N (v + 32) else c.

Fixpoint mapBytes (f : ascii -> ascii) (s : string) : string :=
  match s with
  | EmptyString => EmptyString
  | String c r => String (f c) (mapBytes f r)
  end.

Fixpoint byteSum (s : string) : N :=
  match s with
  | EmptyString => 0%N
  | String c r => (byte_of c + byteSum r)%N
  end.

Definition standInDigest (s : string) : string :=
  padZero 64 (FormatUint 16 (byteSum s)).

#[export] Instance asciiLib : Lib :=
  {| sha256_hex := standInDigest;
     TrimFunc_IsSpace := fun s => s;
     TrimRightFunc_IsSpace := fun s => s;
     ToLower := mapBytes asciiLower |}.

(** A sniffer that knows plain text only. *)
#[export] Instance plainSniffer : Sniffer :=
  {| detectMimeType := fun _ content =>
       if isTextContent content then "text/plain" else "application/octet-stream" |}.

End Instances.

(** ** Concrete inputs on which the code is run *)
Module Scenario.
Import Go Models Repository Services Instances.

Definition emptyWorld : World :=
  {| meta := {| files := []; user_files := [] |}; objects := ∅ |}.

(** A reader that yields [helloworld] in one read and then end of file. *)
Definition hello : Reader :=
  [ {| data := "helloworld"; err := NoErr |}; {| data := EmptyString; err := EOF |} ].

(** The request the upload handler builds for principal [p]. *)
Definition uploadBy (p : UUID) (name : string) : UploadFileRequest :=
  {| reqUserID := p;
     reqSessionToken := Some 500%N;
     reqFilename := name;
     reqUserFilename := name;
     reqMimeType := "application/octet-stream";
     reqFolderPath := "/";
     reqContent := hello;
     reqFileSize := 10;
     reqOwnerID := Some p;
     reqPrimaryGroupID := None;
     reqFilePermissions := 644 |}.

(** No fault; the database draws [fileID] and [refID]. *)
Definition draws (fileID refID : UUID) : UploadEnv :=
  {| lookupFault := None; putFault := None; createFault := None;
     referenceFault := None; fileUUID := fileID; referenceUUID := refID |}.

(** A store with the file and the two references of the uploads above. *)
Definition twoReferences : Store :=
  meta (fst (UploadFile (fst (UploadFile emptyWorld (draws 100%N 200%N)
                                 (uploadBy 1%N "x.bin")))
                        (draws 101%N 201%N) (uploadBy 2%N "y.bin"))).

(** Eleven principals of organization 50, one request each, all at the
    same instant. *)
Definition elevenPrincipals : list Middleware.Request :=
  map (fun p => {| Middleware.principal := p; Middleware.organization := 50%N;
                   Middleware.at_ := 0 |})
    [1%N; 2%N; 3%N; 4%N; 5%N; 6%N; 7%N; 8%N; 9%N; 10%N; 11%N].

End Scenario.

(** ** Vocabulary of the statements *)
Module Statements.
Import Go Models Repository Services.

(** Between two stores: one live reference [refID] of [userID] to the file
    [fileID] was appended, under an identifier no earlier reference has. *)
Definition referenceAdded (st st' : Store) (userID fileID refID : UUID) : Prop :=
  exists u,
    user_files st' = user_files st ++ [u]
    /\ UserFile_ID u = refID /\ UserID u = userID /\ FileID u = fileID
    /\ IsDeleted u = false
    /\ forall x, In x (user_files st) -> UserFile_ID x <> refID.

(** The store holds a live reference [refID] of [userID] to [fileID]. *)
Definition hasReference (st : Store) (userID fileID refID : UUID) : Prop :=
  exists u,
    In u (user_files st)
    /\ UserFile_ID u = refID /\ UserID u = userID /\ FileID u = fileID
    /\ IsDeleted u = false.

End Statements.

(** ** internal/models/user.go: roles *)
Module Roles.

Definition UserRole := string.

Definition RoleAdmin : UserRole := "ADMIN".
Definition RoleMember : UserRole := "MEMBER".
Definition RoleViewer : UserRole := "VIEWER".

(** UserRole.IsValid *)
Definition IsValid (r : UserRole) : bool :=
  String.eqb r RoleAdmin || String.eqb r RoleMember || String.eqb r RoleViewer.

(** The map [roleLevels] with its comma-ok lookup. *)
Definition roleLevels (r : UserRole) : option Z :=
  if String.eqb r RoleAdmin then Some 3
  else if String.eqb r RoleMember then Some 2
  else if String.eqb r RoleViewer then Some 1
  else None.

(** UserRole.HasPermission *)
Definition HasPermission (r required : UserRole) : bool :=
  match roleLevels r with
  | None => false
  | Some userLevel =>
      match roleLevels required with
      | None => false
      | Some requiredLevel => userLevel >=? requiredLevel
      end
  end.

Definition CanManageOrganization (r : UserRole) : bool := String.eqb r RoleAdmin.

Definition CanUploadFiles (r : UserRole) : bool :=
  String.eqb r RoleAdmin || String.eqb r RoleMember.

Definition CanViewFiles (r : UserRole) : bool :=
  String.eqb r RoleAdmin || String.eqb r RoleMember || String.eqb r RoleViewer.

Record AuthContext := {
  Auth_UserID : Models.UUID;
  Auth_OrganizationID : Models.UUID;
  Role : UserRole;
  IsAuthenticated : bool;
}.

(** What [c.Get(AuthContextKey)] finds: nothing, a value of another type,
    or an [*models.AuthContext]; the pointer is never nil, AuthMiddleware and
    OptionalAuthMiddleware store the address of a struct they have just
    built. *)
Inductive AuthValue :=
| NoAuth
| NotAnAuthContext
| Auth (a : AuthContext).

(** How RequireRole leaves the request: on, or aborted with a status. *)
Inductive Gate :=
| Pass
| Refuse (code : Z) (error : string).

(** The handler returned by RequireRole (middleware/auth.go). *)
Definition RequireRole (requiredRole : UserRole) (c : AuthValue) : Gate :=
  match c with
  | NoAuth => Refuse 401 "Authentication required"
  | NotAnAuthContext => Refuse 401 "Authentication required"
  | Auth auth =>
      if negb (IsAuthenticated auth) then Refuse 401 "Authentication required"
      else if negb (HasPermission (Role auth) requiredRole)
      then Refuse 403 "Insufficient permissions"
      else Pass
  end.

Definition RequireAdmin : AuthValue -> Gate := RequireRole RoleAdmin.
Definition RequireMember : AuthValue -> Gate := RequireRole RoleMember.
Definition RequireViewer : AuthValue -> Gate := RequireRole RoleViewer.

End Roles.

(** ** internal/repository/file.go, further operations *)
Module RepositoryMore.
Import Go Models Repository.

(** [Where("user_id = ? AND user_filename = ? AND folder_path = ? AND
    is_deleted = false", ...)] *)
Definition nameTaken (userFile r : UserFile) : bool :=
  (UserID r =? UserID userFile)%N
  && String.eqb (UserFilename r) (UserFilename userFile)
  && String.eqb (FolderPath r) (FolderPath userFile)
  && negb (IsDeleted r).

(** CreateUserFileReference.  [checkFault] and [createFault] are the faults
    of its two statements; [statsFault] is the outcome of
    [UpdateUserStorageStats], a call of the database function
    [update_user_storage_stats], which touches neither [files] nor
    [user_files].  The result is the Go error, [None] for nil. *)
Definition CreateUserFileReference (st : Store)
    (checkFault createFault statsFault : Fault) (newID : UUID) (userFile : UserFile)
    : Store * option string :=
  match checkFault with
  | Some e => (st, Some ("error checking existing file: " +:+ e))
  | None =>
      match find (nameTaken userFile) (user_files st) with
      | Some _ =>
          (st, Some ("file with name '" +:+ UserFilename userFile
                     +:+ "' already exists in folder '" +:+ FolderPath userFile +:+ "'"))
      | None =>
          match CreateUserFile st createFault newID userFile with
          | (st', Ok _) => (st', statsFault)
          | (st', Err e) => (st', Some ("failed to create user file reference: " +:+ e))
          | (st', Panic) => (st', Some "failed to create user file reference: ")
          end
      end
  end.

(** [Where("id = ? AND user_id = ?", userFileID, userID)] *)
Definition rowOf (userID userFileID : UUID) (r : UserFile) : bool :=
  (UserFile_ID r =? userFileID)%N && (UserID r =? userID)%N.

Definition markDeletedOf (userID userFileID : UUID) (r : UserFile) : UserFile :=
  if rowOf userID userFileID r
  then {| UserFile_ID := UserFile_ID r;
          UserID := UserID r;
          FileID := FileID r;
          UserFilename := UserFilename r;
          FolderPath := FolderPath r;
          IsDeleted := true;
          DownloadCount := DownloadCount r;
          AccessPermissions := AccessPermissions r |}
  else r.

(** [result.RowsAffected]: the rows the [UPDATE] matched. *)
Definition rowsAffected (userID userFileID : UUID) (st : Store) : nat :=
  List.length (List.filter (rowOf userID userFileID) (user_files st)).

(** DeleteUserFile: the update does not look at [is_deleted]. *)
Definition DeleteUserFile (st : Store) (updateFault statsFault : Fault)
    (userID userFileID : UUID) : Store * option string :=
  match updateFault with
  | Some e => (st, Some ("failed to delete user file: " +:+ e))
  | None =>
      let st' := {| files := files st;
                    user_files := map (markDeletedOf userID userFileID) (user_files st) |} in
      if (rowsAffected userID userFileID st =? 0)%nat
      then (st', Some "user file not found")
      else (st', statsFault)
  end.

(** GetByID: [First(&file, "id = ?", id)] *)
Definition GetByID (st : Store) (fault : Fault) (id : UUID) : result File :=
  match fault with
  | Some e => Err e
  | None =>
      match find (fun f => (File_ID f =? id)%N) (files st) with
      | Some f => Ok f
      | None => Err ErrRecordNotFound
      end
  end.

(** *** The repository's own validation (ValidateFileUpload) *)

(** [mime.TypeByExtension], which reads the MIME database of the host; the
    empty string when the extension is unknown. *)
Class MimeTable := {
  TypeByExtension : string -> string;
}.

(** CalculateContentHash: the digest and the number of the bytes the reader
    yields, and the reader afterwards. *)
Definition CalculateContentHash `{Lib} (reader : Services.Reader)
    : result (string * Z) * Services.Reader :=
  let '(written, e, reader') := Services.ioCopy reader in
  match e with
  | Some msg => (Err ("failed to calculate hash: " +:+ msg), reader')
  | None => (Ok (sha256_hex written, Services.len written), reader')
  end.

(** The package-level detectMimeType of the repository. *)
Definition detectMimeType `{MimeTable} (filename declaredMimeType : string) : string :=
  let mimeType := TypeByExtension (Ext filename) in
  if negb (String.eqb mimeType EmptyString) then mimeType
  else if negb (String.eqb declaredMimeType EmptyString) then declaredMimeType
  else "application/octet-stream".

Definition dangerousExts : list string :=
  [".exe"; ".bat"; ".cmd"; ".com"; ".pif"; ".scr"; ".vbs"; ".js"; ".jar"; ".sh"; ".ps1"].

(** ValidateFileUpload; the Go function always returns a nil error. *)
Definition ValidateFileUpload `{Lib} `{MimeTable}
    (filename declaredMimeType : string) (content : Services.Reader)
    : FileValidationResult * Services.Reader :=
  let result :=
    {| IsValid := true; DetectedMimeType := EmptyString; FVR_ContentHash := EmptyString;
       FileSize := 0; Errors := []; Warnings := [] |} in
  match CalculateContentHash content with
  | (Ok (contentHash, fileSize), content') =>
      let result :=
        {| IsValid := IsValid result;
           DetectedMimeType := DetectedMimeType result;
           FVR_ContentHash := contentHash;
           FileSize := fileSize;
           Errors := Errors result;
           Warnings := Warnings result |} in
      let result :=
        if fileSize >? MaxFileSize
        then Services.addError
               ("File size (" +:+ Sprintf_d fileSize
                +:+ " bytes) exceeds maximum allowed size ("
                +:+ Sprintf_d MaxFileSize +:+ " bytes)") result
        else result in
      let result :=
        if fileSize =? 0 then Services.addError "File is empty" result else result in
      let result :=
        if String.eqb (TrimSpace filename) EmptyString
        then Services.addError "Filename cannot be empty" result
        else result in
      let ext := ToLower (Ext filename) in
      let result :=
        if existsb (String.eqb ext) dangerousExts
        then Services.addError
               ("File type '" +:+ ext +:+ "' is not allowed for security reasons") result
        else result in
      let detectedMimeType := detectMimeType filename declaredMimeType in
      let result := Services.setDetectedMimeType detectedMimeType result in
      let result :=
        if negb (String.eqb declaredMimeType EmptyString)
           && negb (String.eqb detectedMimeType declaredMimeType)
        then Services.addWarning
               ("Declared MIME type (" +:+ declaredMimeType
                +:+ ") differs from detected type (" +:+ detectedMimeType +:+ ")") result
        else result in
      (result, content')
  | (Err e, content') =>
      (Services.addError ("Failed to process file content: " +:+ e) result, content')
  | (Panic, content') => (result, content')
  end.

End RepositoryMore.

(** ** internal/services, further operations *)
Module ServicesMore.
Import Go Models Repository Services.

(** *** CreateUploadSession (file_upload.go) *)

Record FileInput := {
  fiFilename : string;
  fiMimeType : string;
  fiFileSize : Z;
  fiFolderPath : string;
  fiContentHash : string;
}.

Record CreateUploadSessionRequest := {
  csUserID : UUID;
  csFiles : list FileInput;
  csTotalBytes : Z;
}.

Record CreateUploadSessionResponse := {
  SessionToken : UUID;
  TotalFiles : Z;
  TotalBytes : Z;
  DuplicateFiles : Z;
}.

(** The loop over [req.Files]; [faults] holds the fault of each lookup in
    turn (none once the list is used up).  The error of the lookup is
    dropped: [existing, _ := s.fileRepo.GetByContentHash(...)]. *)
Fixpoint countDuplicates (st : Store) (faults : list Fault) (inputs : list FileInput)
    : Z :=
  match inputs with
  | [] => 0
  | fileInput :: rest =>
      let fault := match faults with f :: _ => f | [] => None end in
      let hit :=
        match GetByContentHash st fault (fiContentHash fileInput) with
        | Ok _ => 1
        | _ => 0
        end in
      hit + countDuplicates st (List.tl faults) rest
  end.

(** CreateUploadSession; [token] is the value of [uuid.New()].  The session
    record is built and dropped: nothing is written to the store. *)
Definition CreateUploadSession (st : Store) (faults : list Fault) (token : UUID)
    (req : CreateUploadSessionRequest) : CreateUploadSessionResponse :=
  {| SessionToken := token;
     TotalFiles := Z.of_nat (List.length (csFiles req));
     TotalBytes := csTotalBytes req;
     DuplicateFiles := countDuplicates st faults (csFiles req) |}.

(** *** The panic of detectMimeTypeByContent (file_validation.go)

    ValidateFile passes [buf.Bytes()] to detectMimeType, which first calls
    detectMimeTypeByContent.  That function returns at an empty content and
    at a content that starts with one of its signatures; otherwise, for a
    content of more than five bytes that starts like markup, it evaluates
    [content[:100]], which panics when the capacity of the slice is below
    100.  The capacity is what [io.Copy] left in the buffer: at least 512
    when the buffer was filled through [Read] calls, as little as 64 when
    the reader wrote itself into the buffer ([io.WriterTo]).  It is an input
    here. *)

(** The keys of the map [signatures]. *)
Definition signatures : list string :=
  [ bytes [255%N; 216%N; 255%N];
    bytes [137%N] +:+ "PNG" +:+ bytes [13%N; 10%N; 26%N; 10%N];
    "GIF87a"; "GIF89a"; "RIFF";
    bytes [0%N; 0%N; 1%N; 0%N];
    "PK" +:+ bytes [3%N; 4%N];
    "%PDF-";
    bytes [208%N; 207%N; 17%N; 224%N; 161%N; 177%N; 26%N; 225%N];
    "Rar!" +:+ bytes [26%N; 7%N; 0%N];
    bytes [31%N; 139%N];
    "7z" +:+ bytes [188%N; 175%N; 39%N; 28%N];
    "ID3";
    bytes [255%N; 251%N];
    "OggS";
    bytes [26%N; 69%N; 223%N; 163%N];
    bytes [239%N; 187%N; 191%N] ].

(** [len(content) >= len(signature) && string(content[:len(signature)]) ==
    signature], for some signature: the loop returns. *)
Definition matchesSignature (content : string) : bool :=
  existsb (HasPrefix content) signatures.

(** The guard of the markup branch. *)
Definition looksLikeMarkup (content : string) : bool :=
  (len content >? 5)
  && (HasPrefix content "<?xml" || HasPrefix content "<html"
      || HasPrefix content "<!DOCTYPE").

(** detectMimeTypeByContent panics: it reaches [content[:100]] with a
    capacity below 100. *)
Definition detectMimeTypeByContent_panics (capacity : Z) (content : string) : bool :=
  negb (len content =? 0)
  && negb (matchesSignature content)
  && looksLikeMarkup content
  && (capacity <? 100).

(** ValidateFile panics: [io.Copy] succeeded, so detectMimeType is called,
    and the detection panics. *)
Definition ValidateFile_panics (capacity : Z) (content : Reader) : bool :=
  match ioCopy content with
  | (contentBytes, None, _) => detectMimeTypeByContent_panics capacity contentBytes
  | (_, Some _, _) => false
  end.

Section Run.
Context `{Lib} `{Sniffer} `{StorageInterface}.

(** ValidateFile with its panic; [capacity] is [cap(buf.Bytes())] after
    [io.Copy]. *)
Definition ValidateFile_run (capacity : Z) (filename declaredMimeType : string)
    (content : Reader) : result (FileValidationResult * Reader) :=
  if ValidateFile_panics capacity content then Panic
  else Ok (ValidateFile filename declaredMimeType content).

(** UploadFile with the panic of its first step, which leaves before
    anything is written. *)
Definition UploadFile_run (capacity : Z) (w : World) (env : UploadEnv)
    (req : UploadFileRequest) : World * result UploadFileResponse :=
  match ValidateFile_run capacity (reqFilename req) (reqMimeType req) (reqContent req) with
  | Panic => (w, Panic)
  | _ => UploadFile w env req
  end.

End Run.

(** *** ValidateFileWithVirusScan (file_validation.go)

    [seeker] tells whether the reader implements [io.Seeker]; after
    [Seek(0, io.SeekStart)] such a reader returns its results again.  The
    answer is the validation result, the scan result stored in it (if a
    scan completed) and the bytes sent to the scanner. *)
Section Scan.
Context `{Lib} `{Sniffer}.

Definition ValidateFileWithVirusScan (s : FileValidationService) (net : ClamAV)
    (now : Z) (filename declaredMimeType : string) (content : Reader) (seeker : bool)
    : FileValidationResult * option VirusScanResult * string :=
  let '(result, drained) := ValidateFile filename declaredMimeType content in
  if virusScanningEnabled s && IsValid result then
    let content := if seeker then content else drained in
    let '(wire, virusScanResult, e) := scanForViruses s net now content in
    match e with
    | Some _ => (addWarning "Virus scan could not be completed" result, None, wire)
    | None =>
        if negb (Clean virusScanResult)
        then (addError ("Virus detected: " +:+ ThreatName virusScanResult) result,
              Some virusScanResult, wire)
        else (result, Some virusScanResult, wire)
    end
  else (result, None, EmptyString).

End Scan.

End ServicesMore.

(** ** internal/handlers/files.go: GetFiles *)
Module HandlersMore.
Import Go Models Handlers.

(** Go's [int] on the server: 64 bits, wrapping. *)
Definition wrap64 (z : Z) : Z := (z + 2 ^ 63) mod 2 ^ 64 - 2 ^ 63.

(** [page := 1; if p := c.Query("page"); p != "" { if parsed, err :=
    strconv.Atoi(p); err == nil && parsed > 0 { page = parsed } }].
    The argument is what [Atoi] returned, [None] for an absent or
    unparsable parameter. *)
Definition pageOf (parsed : option Z) : Z :=
  match parsed with
  | Some parsed => if parsed >? 0 then parsed else 1
  | None => 1
  end.

Definition limitOf (parsed : option Z) : Z :=
  match parsed with
  | Some parsed => if (parsed >? 0) && (parsed <=? 100) then parsed else 20
  | None => 20
  end.

(** The slice expression [s[low:high]], which panics unless
    [0 <= low <= high <= cap(s)].  The bound used here is [len(s)]: GetFiles
    never passes a [high] above it, having clamped [end] to [total]. *)
Definition slice {A} (s : list A) (low high : Z) : result (list A) :=
  if (0 <=? low) && (low <=? high) && (high <=? Z.of_nat (List.length s))
  then Ok (firstn (Z.to_nat (high - low)) (skipn (Z.to_nat low) s))
  else Panic.

(** The "simple pagination" of GetFiles. *)
Definition paginate {A} (files : list A) (page limit : Z) : result (list A) :=
  let total := Z.of_nat (List.length files) in
  let start := wrap64 ((page - 1) * limit) in
  let end_ := wrap64 (start + limit) in
  let start := if start >? total then total else start in
  let end_ := if end_ >? total then total else end_ in
  slice files start end_.

(** ["totalPages": (total + limit - 1) / limit] *)
Definition totalPages (total limit : Z) : Z :=
  Z.quot (wrap64 (total + limit - 1)) limit.

Record Page (A : Type) := {
  pageFiles : list A;
  pageNumber : Z;
  pageLimit : Z;
  pageTotal : Z;
  pageTotalPages : Z;
}.
Arguments pageFiles {A} _.
Arguments pageNumber {A} _.
Arguments pageLimit {A} _.
Arguments pageTotal {A} _.
Arguments pageTotalPages {A} _.

(** What GetFiles answers: an error status, a page, or a panic (which gin's
    recovery turns into a 500). *)
Inductive Listing (A : Type) :=
| ListingError (code : Z) (error : string)
| ListingPage (p : Page A)
| ListingPanic.
Arguments ListingError {A} code error.
Arguments ListingPage {A} p.
Arguments ListingPanic {A}.

(** GetFiles.  [user] is the outcome of [userRepo.GetByID], [files] that of
    [fileRepo.GetUserFilesWithPermissions]. *)
Definition GetFiles {A} (ctxUserID : option UUID) (pageQuery limitQuery : option Z)
    (user : bool) (files : list A + string) : Listing A :=
  match ctxUserID with
  | None => ListingError StatusUnauthorized "User not authenticated"
  | Some _ =>
      let page := pageOf pageQuery in
      let limit := limitOf limitQuery in
      if negb user then ListingError StatusNotFound "User not found"
      else
        match files with
        | inr _ => ListingError StatusInternalServerError "Failed to retrieve files"
        | inl files =>
            match paginate files page limit with
            | Ok paginatedFiles =>
                ListingPage {| pageFiles := paginatedFiles;
                               pageNumber := page;
                               pageLimit := limit;
                               pageTotal := Z.of_nat (List.length files);
                               pageTotalPages :=
                                 totalPages (Z.of_nat (List.length files)) limit |}
            | _ => ListingPanic
            end
        end
  end.

End HandlersMore.

(** ** internal/handlers/files.go: GetFileMetadata and DownloadFile *)
Module HandlersRead.
Import Go Models Repository RepositoryMore Handlers.

(** [models.FileMetadata], without its timestamps, the preloaded owner and
    the fields the handler leaves empty (group name, related files, tags). *)
Record FileMetadata := {
  FM_ID : UUID;
  FM_UserFilename : string;
  OriginalName : string;
  FM_FileSize : Z;
  ContentType : string;
  FM_DownloadCount : Z;
  FM_FolderPath : string;
  IsDeduped : bool;
  Permissions : FilePermissionCheck;
  Hash : string;
  DuplicateCount : Z;
  IsOriginal : bool;
}.

(** The body DownloadFile answers with. *)
Record DownloadInfo := {
  downloadMessage : string;
  downloadFilename : string;
  downloadContentType : string;
  downloadFileSize : Z;
  downloadStoragePath : string;
}.

(** [c.JSON(code, gin.H{"error": ...})] or [c.JSON(http.StatusOK, body)]. *)
Inductive Answer (A : Type) :=
| Failure (code : Z) (error : string)
| Success (body : A).
Arguments Failure {A} code error.
Arguments Success {A} body.

(** The faults of the two lookups of one call. *)
Record ReadEnv := {
  userFileFault : Fault;
  fileFault : Fault;
}.

(** FileHandler.GetFileMetadata; the request has the shape of a delete
    request: the principal of the context and the parsed path parameter. *)
Definition GetFileMetadata (st : Store) (env : ReadEnv) (req : DeleteRequest)
    : Answer FileMetadata :=
  match ctxUserID req with
  | None => Failure StatusUnauthorized "User not authenticated"
  | Some userID =>
      match fileId req with
      | None => Failure StatusBadRequest "Invalid file ID"
      | Some fileID =>
          match GetUserFile st (userFileFault env) userID fileID with
          | Ok userFile =>
              if negb (UserID userFile =? userID)%N
              then Failure StatusForbidden "Access denied"
              else
                match GetByID st (fileFault env) (FileID userFile) with
                | Ok file =>
                    Success
                      {| FM_ID := UserFile_ID userFile;
                         FM_UserFilename := UserFilename userFile;
                         OriginalName := Filename file;
                         FM_FileSize := File_FileSize file;
                         ContentType := File_DetectedMimeType file;
                         FM_DownloadCount := DownloadCount userFile;
                         FM_FolderPath := FolderPath userFile;
                         IsDeduped := false;
                         Permissions :=
                           ParseLinuxPermissions (FilePermissions file) userID
                             (OwnerID file) (PrimaryGroupID file) [];
                         Hash := ContentHash file;
                         DuplicateCount := 0;
                         IsOriginal := true |}
                | _ => Failure StatusInternalServerError "Failed to retrieve file details"
                end
          | _ => Failure StatusNotFound "File not found"
          end
      end
  end.

(** FileHandler.DownloadFile.  The second component is the reference whose
    download count the handler asks to be bumped in a goroutine of its own
    ([go h.fileRepo.UpdateDownloadCount(...)]), if it got that far. *)
Definition DownloadFile (st : Store) (env : ReadEnv) (req : DeleteRequest)
    : Answer DownloadInfo * option UUID :=
  match ctxUserID req with
  | None => (Failure StatusUnauthorized "User not authenticated", None)
  | Some userID =>
      match fileId req with
      | None => (Failure StatusBadRequest "Invalid file ID", None)
      | Some fileID =>
          match GetUserFile st (userFileFault env) userID fileID with
          | Ok userFile =>
              if negb (UserID userFile =? userID)%N
              then (Failure StatusForbidden "Access denied", None)
              else
                match GetByID st (fileFault env) (FileID userFile) with
                | Ok file =>
                    (Success
                       {| downloadMessage := "Download would start here";
                          downloadFilename := UserFilename userFile;
                          downloadContentType := File_DetectedMimeType file;
                          downloadFileSize := File_FileSize file;
                          downloadStoragePath := StoragePath file |},
                     Some (UserFile_ID userFile))
                | _ =>
                    (Failure StatusInternalServerError "Failed to retrieve file details",
                     None)
                end
          | _ => (Failure StatusNotFound "File not found", None)
          end
      end
  end.

End HandlersRead.

(** ** Invariants of the metadata store *)
Module Invariants.
Import Go Models Repository.

(** No two files share a fingerprint or an identifier, no two references
    share an identifier, and every reference names a stored file. *)
Record wellFormed (st : Store) : Prop := {
  uniqueHashes : NoDup (map ContentHash (files st));
  uniqueFileIDs : NoDup (map File_ID (files st));
  uniqueReferenceIDs : NoDup (map UserFile_ID (user_files st));
  referencesResolve :
    forall u, In u (user_files st) -> In (FileID u) (map File_ID (files st));
}.

End Invariants.

(** ** Vocabulary of the further statements *)
Module StatementsMore.
Import Go Models Repository Services.

(** What decides acceptance: the validity flag and the list of errors. *)
Definition verdictOf (r : FileValidationResult) : bool * list string :=
  (IsValid r, Errors r).

(** The magic numbers checkMaliciousContent looks for. *)
Definition elfMagic : string := bytes [127%N] +:+ "ELF".
Definition machO32Magic : string := bytes [254%N; 237%N; 250%N; 206%N].
Definition machO64Magic : string := bytes [254%N; 237%N; 250%N; 207%N].
Definition peMarker : string := "PE" +:+ bytes [0%N; 0%N].

(** The content carries one of the executable signatures. *)
Definition executableMagic (bs : string) : Prop :=
  HasPrefix bs elfMagic = true
  \/ HasPrefix bs machO32Magic = true
  \/ HasPrefix bs machO64Magic = true
  \/ (2 < len bs /\ Contains bs "MZ" = true /\ Contains bs peMarker = true).

Definition isOk {A} (r : result A) : bool :=
  match r with Ok _ => true | _ => false end.

(** What UploadFile may do to the two tables: append at most one row to
    each, and a reference only when it succeeds. *)
Definition grows (w w' : World) (succeeded : bool) : Prop :=
  (exists fs, files (meta w') = files (meta w) ++ fs /\ (List.length fs <= 1)%nat)
  /\ (exists us, user_files (meta w') = user_files (meta w) ++ us
                 /\ (List.length us <= 1)%nat
                 /\ (succeeded = false -> us = [])).

(** The files of the pages 1 to [n] of a listing, one after the other. *)
Definition pagesUpTo {A} (fs : list A) (limit : Z) (n : nat) : list A :=
  flat_map (fun k => match HandlersMore.paginate fs (Z.of_nat k) limit with
                     | Ok l => l
                     | _ => []
                     end) (seq 1 n).

(** No byte of [s] is [c]. *)
Definition without (c : ascii) (s : string) : Prop :=
  ~ In c (String.list_ascii_of_string s).

End StatementsMore.

(** ** Further concrete inputs *)
Module ScenarioMore.
Import Go Models Repository Services Instances StatementsMore.

(** A reader that yields [bs] and end of file in one read. *)
Definition oneRead (bs : string) : Reader := [ {| data := bs; err := EOF |} ].

(** The request the upload handler builds for principal [p], file name
    [name] and content [bs]. *)
Definition uploadOf (p : UUID) (name bs : string) : UploadFileRequest :=
  {| reqUserID := p;
     reqSessionToken := None;
     reqFilename := name;
     reqUserFilename := name;
     reqMimeType := "application/octet-stream";
     reqFolderPath := "/";
     reqContent := oneRead bs;
     reqFileSize := len bs;
     reqOwnerID := Some p;
     reqPrimaryGroupID := None;
     reqFilePermissions := 644 |}.

(** [n] copies of the byte [c]. *)
Fixpoint filler (n : nat) (c : ascii) : string :=
  match n with
  | O => EmptyString
  | S k => String c (filler k c)
  end.

(** A scanner service that is switched on, and a daemon that answers
    [line] without any fault. *)
Definition scanning : FileValidationService :=
  {| virusScanningEnabled := true; clamAVHost := "localhost"; clamAVPort := "3310" |}.

(** A host whose MIME database knows no extension. *)
Definition noMimeTable : RepositoryMore.MimeTable :=
  {| RepositoryMore.TypeByExtension := fun _ => EmptyString |}.

Definition answering (line : string) : ClamAV :=
  {| dialErr := None; commandWriteErr := None; response := inl line |}.

End ScenarioMore.

(** * Properties *)

(** ** The library functions on sample inputs *)
Module GoProps.
Import Go Instances.

Example Sprintf_03o_644 : Sprintf_03o 420 = "644".
Proof. reflexivity. Qed.

Example Sprintf_03o_negative : Sprintf_03o (-5) = "-05".
Proof. reflexivity. Qed.

Example Sprintf_08x_8192 : Sprintf_08x 8192 = "00002000".
Proof. reflexivity. Qed.

Example Sprintf_d_MaxFileSize : Sprintf_d Models.MaxFileSize = "107374182400".
Proof. reflexivity. Qed.

Example Ext_samples :
  Ext "a.b/c.tar.gz" = ".gz" /\ Ext "a.b/c" = EmptyString /\ Ext ".bashrc" = ".bashrc".
Proof. repeat split; reflexivity. Qed.

Example Split_samples :
  Split "stream: Eicar FOUND" ": " = ["stream"; "Eicar FOUND"]
  /\ Split "a: b: c" ": " = ["a"; "b"; "c"]
  /\ Split "abc" ": " = ["abc"].
Proof. repeat split; reflexivity. Qed.

Example TrimSpace_samples :
  TrimSpace "  report.txt " = "report.txt" /\ TrimSpace "   " = EmptyString
  /\ TrimSpace "a b" = "a b".
Proof. repeat split; reflexivity. Qed.

Example Contains_samples :
  Contains "..\evil" "..\" = true /\ Contains "evil" "../" = false
  /\ Contains "abc" EmptyString = true.
Proof. repeat split; reflexivity. Qed.

End GoProps.

(** ** Permission resolution *)
Module PermissionProps.
Import Go Models Repository.

(** ParseLinuxPermissions applies the owner set to the owner. *)
Lemma ParseLinuxPermissions_owner permissions userID groupID userGroupIDs :
  let r := ParseLinuxPermissions permissions userID (Some userID) groupID userGroupIDs in
  CanRead r = Read (Owner r) /\ CanWrite r = Write (Owner r).
Proof.
  cbn. unfold userPermsOf, ptrIs. rewrite N.eqb_refl. split; reflexivity.
Qed.

Lemma inGroups_In userGroupIDs g : inGroups userGroupIDs g = true <-> In g userGroupIDs.
Proof.
  induction userGroupIDs as [|x l IH]; cbn.
  - split; [discriminate | tauto].
  - destruct (N.eqb_spec x g) as [->|Hne].
    + split; auto.
    + rewrite IH. split; [auto | intros [Heq|Hin]; [congruence | exact Hin]].
Qed.

(** ParseLinuxPermissions applies the group set to a member of the primary
    group who is not the owner, whatever that set is. *)
Lemma ParseLinuxPermissions_group permissions userID fileOwnerID g userGroupIDs :
  ptrIs fileOwnerID userID = false ->
  In g userGroupIDs ->
  let r := ParseLinuxPermissions permissions userID fileOwnerID (Some g) userGroupIDs in
  CanRead r = Read (Group r) /\ CanWrite r = Write (Group r).
Proof.
  intros Hown Hin. cbn. unfold userPermsOf. rewrite Hown.
  apply inGroups_In in Hin. rewrite Hin. split; reflexivity.
Qed.

(** ParseLinuxPermissions applies the others set to everybody else. *)
Lemma ParseLinuxPermissions_others permissions userID fileOwnerID groupID userGroupIDs :
  ptrIs fileOwnerID userID = false ->
  (forall g, groupID = Some g -> ~ In g userGroupIDs) ->
  let r := ParseLinuxPermissions permissions userID fileOwnerID groupID userGroupIDs in
  CanRead r = Read (Others r) /\ CanWrite r = Write (Others r).
Proof.
  intros Hown Hout. cbn. unfold userPermsOf. rewrite Hown.
  destruct groupID as [g|]; [|split; reflexivity].
  destruct (inGroups userGroupIDs g) eqn:E; [|split; reflexivity].
  apply inGroups_In in E. exfalso. exact (Hout g eq_refl E).
Qed.

Lemma groupMatch_In userGroupIDs g perm :
  In g userGroupIDs -> groupMatch userGroupIDs g perm = GetGroupPermissions perm.
Proof.
  induction userGroupIDs as [|x l IH]; cbn; [tauto|].
  intros [->|Hin].
  - rewrite N.eqb_refl. reflexivity.
  - destruct (x =? g)%N; [reflexivity | auto].
Qed.

Lemma groupMatch_not_In userGroupIDs g perm :
  ~ In g userGroupIDs -> groupMatch userGroupIDs g perm = 0.
Proof.
  induction userGroupIDs as [|x l IH]; cbn; [reflexivity|].
  intros Hn. destruct (N.eqb_spec x g) as [->|Hne]; [tauto|].
  apply IH. tauto.
Qed.

(** calculateUserFilePermissions uses the owner digit for the owner. *)
Lemma effectivePermissionOf_owner userID userGroupIDs g perm :
  effectivePermissionOf userID userGroupIDs (Some userID) g perm
  = GetOwnerPermissions perm.
Proof.
  unfold effectivePermissionOf, ptrIs. rewrite N.eqb_refl. reflexivity.
Qed.

(** It uses the group digit for a member of the primary group, as long as
    that digit is not zero. *)
Lemma effectivePermissionOf_group userID userGroupIDs fileOwnerID g perm :
  ptrIs fileOwnerID userID = false ->
  In g userGroupIDs ->
  GetGroupPermissions perm <> 0 ->
  effectivePermissionOf userID userGroupIDs fileOwnerID (Some g) perm
  = GetGroupPermissions perm.
Proof.
  intros Hown Hin Hnz. unfold effectivePermissionOf. rewrite Hown.
  rewrite (groupMatch_In _ _ _ Hin).
  destruct (Z.eqb_spec (GetGroupPermissions perm) 0); [contradiction | reflexivity].
Qed.

(** A member whose group digit is zero falls through to the others digit:
    the test [effectivePermission == 0] cannot tell "no group matched" from
    "the group grants nothing". *)
Lemma effectivePermissionOf_group_zero userID userGroupIDs fileOwnerID g perm :
  ptrIs fileOwnerID userID = false ->
  In g userGroupIDs ->
  GetGroupPermissions perm = 0 ->
  effectivePermissionOf userID userGroupIDs fileOwnerID (Some g) perm
  = GetOtherPermissions perm.
Proof.
  intros Hown Hin Hz. unfold effectivePermissionOf. rewrite Hown.
  rewrite (groupMatch_In _ _ _ Hin), Hz. reflexivity.
Qed.

Lemma effectivePermissionOf_others userID userGroupIDs fileOwnerID groupID perm :
  ptrIs fileOwnerID userID = false ->
  (forall g, groupID = Some g -> ~ In g userGroupIDs) ->
  effectivePermissionOf userID userGroupIDs fileOwnerID groupID perm
  = GetOtherPermissions perm.
Proof.
  intros Hown Hout. unfold effectivePermissionOf. rewrite Hown.
  destruct groupID as [g|]; [|reflexivity].
  rewrite groupMatch_not_In by (apply Hout; reflexivity). reflexivity.
Qed.

(** C3, at the input where the code departs from the claim.  The file has
    owner 1, primary group 7 and permissions 604; principal 2 is a member of
    group 7 and not the owner.  The group digit is 0, yet
    calculateUserFilePermissions answers with the others digit 4: the
    principal may read.  ParseLinuxPermissions, on the same file (604 octal
    is 388), applies the group set and denies. *)
Theorem calculateUserFilePermissions_group_zero_uses_others :
  let r := calculateUserFilePermissions 2%N [7%N] (Some 1%N) (Some 7%N) 604 in
  let p := ParseLinuxPermissions 388 2%N (Some 1%N) (Some 7%N) [7%N] in
  GetGroupPermissions 604 = 0
  /\ Permission_CanRead (GetGroupPermissions 604) = false
  /\ CanRead r = true /\ CanDownload r = true /\ CanShare r = true
  /\ CanRead r = Permission_CanRead (GetOtherPermissions 604)
  /\ Octal p = "604" /\ CanRead p = false /\ CanRead p = Read (Group p).
Proof. vm_compute. repeat split; reflexivity. Qed.

(** C10, at the input where the two decoders part.  644 is the value the
    upload handler stores.  The decimal-digit decoder reads it as 6, 4, 4;
    the bit-shift decoder of ParseLinuxPermissions reads it as 2, 0, 4, so
    the owner of a 644 file may read on the listing path and may not on the
    metadata path. *)
Theorem decoders_disagree_on_644 :
  let p := ParseLinuxPermissions 644 1%N (Some 1%N) None [] in
  let c := calculateUserFilePermissions 1%N [] (Some 1%N) None 644 in
  (GetOwnerPermissions 644, GetGroupPermissions 644, GetOtherPermissions 644) = (6, 4, 4)
  /\ (Z.land (Z.shiftr 644 6) 7, Z.land (Z.shiftr 644 3) 7, Z.land 644 7) = (2, 0, 4)
  /\ Owner p = {| Read := false; Write := true; Execute := false |}
  /\ Group p = {| Read := false; Write := false; Execute := false |}
  /\ Others p = {| Read := true; Write := false; Execute := false |}
  /\ Octal p = "1204"
  /\ CanRead p = false /\ CanRead c = true.
Proof. vm_compute. repeat split; reflexivity. Qed.

(** The decoders do agree on the values below 8, where only the others
    digit is set. *)
Lemma decoders_agree_below_8 (v : Z) :
  0 <= v < 8 ->
  (Z.land (Z.shiftr v 6) 7, Z.land (Z.shiftr v 3) 7, Z.land v 7)
  = (GetOwnerPermissions v, GetGroupPermissions v, GetOtherPermissions v).
Proof.
  intros Hv.
  assert (Hcases : v = 0 \/ v = 1 \/ v = 2 \/ v = 3 \/ v = 4 \/ v = 5 \/ v = 6 \/ v = 7) by lia.
  repeat (destruct Hcases as [->|Hcases]; [reflexivity|]). subst. reflexivity.
Qed.

(** C4.  The admin override is missing.  Principal 2 belongs to the admin
    group 9 only; the file has owner 1, primary group 7 and grants nothing
    to others.  A member of the admin group is to get read and write on
    every object; both resolvers deny read and write (640 as the listing
    path decodes it, 416 = 0640 as the metadata path decodes it). *)
Lemma admin_member_is_denied :
  let c := calculateUserFilePermissions 2%N [9%N] (Some 1%N) (Some 7%N) 640 in
  let p := ParseLinuxPermissions 416 2%N (Some 1%N) (Some 7%N) [9%N] in
  In 9%N [9%N]
  /\ CanRead c = false /\ CanWrite c = false
  /\ CanRead p = false /\ CanWrite p = false.
Proof. vm_compute. repeat split; auto. Qed.

Lemma inGroups_skip gs1 adm gs2 g :
  g <> adm -> inGroups (gs1 ++ adm :: gs2) g = inGroups (gs1 ++ gs2) g.
Proof.
  intros Hne. induction gs1 as [|x l IH]; cbn.
  - destruct (N.eqb_spec adm g); [congruence | reflexivity].
  - rewrite IH. reflexivity.
Qed.

Lemma groupMatch_skip gs1 adm gs2 g perm :
  g <> adm -> groupMatch (gs1 ++ adm :: gs2) g perm = groupMatch (gs1 ++ gs2) g perm.
Proof.
  intros Hne. induction gs1 as [|x l IH]; cbn.
  - destruct (N.eqb_spec adm g); [congruence | reflexivity].
  - rewrite IH. reflexivity.
Qed.

(** The denial above is no accident of one input: membership in the admin
    group, like membership in any group that is not the primary group of
    the file, leaves the answer of both resolvers unchanged. *)
Theorem admin_membership_changes_nothing
    (adminGroup userID : UUID) (gs1 gs2 : list UUID)
    (fileOwnerID filePrimaryGroupID : option UUID) (permissions : Z) :
  filePrimaryGroupID <> Some adminGroup ->
  calculateUserFilePermissions userID (gs1 ++ adminGroup :: gs2)
    fileOwnerID filePrimaryGroupID permissions
  = calculateUserFilePermissions userID (gs1 ++ gs2)
      fileOwnerID filePrimaryGroupID permissions
  /\ ParseLinuxPermissions permissions userID fileOwnerID filePrimaryGroupID
       (gs1 ++ adminGroup :: gs2)
     = ParseLinuxPermissions permissions userID fileOwnerID filePrimaryGroupID
         (gs1 ++ gs2).
Proof.
  intros Hne. split.
  - unfold calculateUserFilePermissions, effectivePermissionOf.
    destruct filePrimaryGroupID as [g|]; [|reflexivity].
    rewrite groupMatch_skip by congruence. reflexivity.
  - unfold ParseLinuxPermissions, userPermsOf.
    destruct filePrimaryGroupID as [g|]; [|reflexivity].
    rewrite inGroups_skip by congruence. reflexivity.
Qed.

Lemma admin_membership_changes_nothing_witness :
  Some 7%N <> Some 9%N
  /\ calculateUserFilePermissions 2%N ([] ++ 9%N :: [3%N]) (Some 1%N) (Some 7%N) 640
     = calculateUserFilePermissions 2%N ([] ++ [3%N]) (Some 1%N) (Some 7%N) 640.
Proof.
  assert (Hne : Some 7%N <> Some 9%N) by discriminate.
  split; [exact Hne|].
  exact (proj1 (admin_membership_changes_nothing 9%N 2%N [] [3%N] (Some 1%N) (Some 7%N) 640 Hne)).
Defined.

End PermissionProps.

(** ** Content validation *)
Module ValidationProps.
Import Go Models Repository Services.

Lemma append_cons_ne {A} (l : list A) (x : A) : l ++ [x] <> l.
Proof.
  intros Heq. apply (f_equal (@List.length A)) in Heq.
  rewrite length_app in Heq. cbn in Heq. lia.
Qed.

(** The size check sets [IsValid] to false exactly in the two cases. *)
Lemma validateFileSize_fails_iff_any (size : Z) (r : FileValidationResult) :
  IsValid r = true ->
  (size = 0 \/ size > MaxFileSize) <-> IsValid (validateFileSize size r) = false.
Proof.
  intros Hvalid. unfold validateFileSize.
  destruct (Z.eqb_spec size 0) as [->|Hnz].
  - change (0 >? MaxFileSize) with false. simpl. split; auto.
  - destruct (Z.gtb_spec size MaxFileSize) as [Hgt|Hle]; simpl.
    + split; [reflexivity | right; lia].
    + rewrite Hvalid. split; [lia | discriminate].
Qed.

(** C5.  On a result that is still valid, validateFileSize fails exactly
    when the size is zero or exceeds [MaxFileSize], the upload cap; it then
    records one error, and otherwise records none.  In particular the empty
    content is rejected, a content of exactly [MaxFileSize] bytes passes and
    one byte more is rejected. *)
Theorem validateFileSize_fails_iff (size : Z) (r : FileValidationResult) :
  IsValid r = true ->
  (IsValid (validateFileSize size r) = false <-> (size = 0 \/ size > MaxFileSize))
  /\ (Errors (validateFileSize size r) = Errors r <-> ~ (size = 0 \/ size > MaxFileSize))
  /\ IsValid (validateFileSize 0 r) = false
  /\ validateFileSize MaxFileSize r = r
  /\ IsValid (validateFileSize (MaxFileSize + 1) r) = false.
Proof.
  intros Hvalid.
  assert (Hmax : MaxFileSize = 107374182400) by reflexivity.
  split; [|split; [|split; [|split]]].
  - unfold validateFileSize.
    destruct (Z.eqb_spec size 0) as [->|Hnz].
    + rewrite Hmax. cbn. split; auto.
    + destruct (Z.gtb_spec size MaxFileSize) as [Hgt|Hle]; cbn.
      * split; [right; lia | reflexivity].
      * rewrite Hvalid. split; [discriminate | lia].
  - unfold validateFileSize.
    destruct (Z.eqb_spec size 0) as [->|Hnz].
    + rewrite Hmax. cbn. split.
      * intros Heq. exfalso. exact (append_cons_ne _ _ Heq).
      * intros Hn. exfalso. apply Hn. left. reflexivity.
    + destruct (Z.gtb_spec size MaxFileSize) as [Hgt|Hle]; cbn.
      * split.
        -- intros Heq. exfalso. exact (append_cons_ne _ _ Heq).
        -- intros Hn. exfalso. apply Hn. right. lia.
      * split; [lia | reflexivity].
  - reflexivity.
  - reflexivity.
  - reflexivity.
Qed.

Lemma validateFileSize_fails_iff_witness :
  let r := {| IsValid := true; DetectedMimeType := EmptyString;
              FVR_ContentHash := EmptyString; FileSize := 0;
              Errors := []; Warnings := [] |} in
  IsValid r = true
  /\ Errors (validateFileSize 0 r) = ["File is empty"]
  /\ (IsValid (validateFileSize 0 r) = false <-> (0 = 0 \/ 0 > MaxFileSize)).
Proof.
  split; [reflexivity|]. split; [reflexivity|].
  exact (proj1 (validateFileSize_fails_iff 0
           {| IsValid := true; DetectedMimeType := EmptyString;
              FVR_ContentHash := EmptyString; FileSize := 0;
              Errors := []; Warnings := [] |} eq_refl)).
Defined.

(** *** Filenames *)

Lemma HasPrefix_app (pre rest : string) : HasPrefix (pre +:+ rest) pre = true.
Proof.
  induction pre as [|c pre IH]; [reflexivity|].
  simpl. rewrite Ascii.eqb_refl. exact IH.
Qed.

Lemma Contains_app (pre sub post : string) :
  Contains (pre +:+ sub +:+ post) sub = true.
Proof.
  induction pre as [|c pre IH].
  - change (EmptyString +:+ sub +:+ post) with (sub +:+ post).
    destruct (sub +:+ post) eqn:E; cbn [Contains];
      rewrite <- E, HasPrefix_app; reflexivity.
  - change (String c pre +:+ sub +:+ post) with (String c (pre +:+ sub +:+ post)).
    cbn [Contains]. rewrite IH. apply orb_true_r.
Qed.

Lemma keeps_refl r : keeps r r.
Proof. split; auto. Qed.

Lemma rejects_addError msg r : rejects r (addError msg r).
Proof. split; cbn; [reflexivity|]. rewrite length_app. cbn. lia. Qed.

Lemma keeps_rejects r1 r2 r3 : keeps r1 r2 -> rejects r2 r3 -> rejects r1 r3.
Proof. intros [_ H1] [H2 H3]. split; [exact H2 | lia]. Qed.

Lemma rejects_keeps r1 r2 r3 : rejects r1 r2 -> keeps r2 r3 -> rejects r1 r3.
Proof. intros [H1 H2] [H3 H4]. split; [auto | lia]. Qed.

Lemma rejects_is_keeps r1 r2 : rejects r1 r2 -> keeps r1 r2.
Proof. intros [H1 H2]. split; [auto | lia]. Qed.

Lemma keeps_trans r1 r2 r3 : keeps r1 r2 -> keeps r2 r3 -> keeps r1 r3.
Proof. intros [H1 H2] [H3 H4]. split; [auto | lia]. Qed.

Lemma keeps_addError_if (b : bool) msg r : keeps r (if b then addError msg r else r).
Proof.
  destruct b; [apply rejects_is_keeps, rejects_addError | apply keeps_refl].
Qed.

Lemma checkDangerousChars_keeps chars filename r :
  keeps r (checkDangerousChars chars filename r).
Proof.
  revert r. induction chars as [|d chars IH]; intros r; cbn.
  - apply keeps_refl.
  - eapply keeps_trans; [apply keeps_addError_if | apply IH].
Qed.

Lemma checkDangerousChars_rejects chars filename d r :
  In d chars -> Contains filename d = true ->
  rejects r (checkDangerousChars chars filename r).
Proof.
  revert r. induction chars as [|x chars IH]; intros r Hin Hc; cbn; [destruct Hin|].
  destruct Hin as [->|Hin].
  - rewrite Hc. eapply rejects_keeps;
      [apply rejects_addError | apply checkDangerousChars_keeps].
  - eapply keeps_rejects; [apply keeps_addError_if | apply IH; assumption].
Qed.

Lemma asciiSpace_is_ASCII c : asciiSpace c = true -> nonASCII c = false.
Proof.
  destruct c as [[] [] [] [] [] [] [] []]; vm_compute; congruence.
Qed.

Section Filename.
Context `{Lib}.

(** A filename made of ASCII blanks only trims to the empty string. *)
Lemma TrimSpace_blank (s : string) :
  (forall c, In c (String.list_ascii_of_string s) -> asciiSpace c = true) ->
  TrimSpace s = EmptyString.
Proof.
  induction s as [|c s IH]; cbn; [reflexivity|].
  intros Hall.
  rewrite (asciiSpace_is_ASCII c) by (apply Hall; left; reflexivity).
  rewrite (Hall c) by (left; reflexivity).
  apply IH. intros c' Hin. apply Hall. right. exact Hin.
Qed.

Lemma validateFilename_blank filename r :
  TrimSpace filename = EmptyString -> rejects r (validateFilename filename r).
Proof.
  intros Ht. unfold validateFilename. rewrite Ht. cbn. apply rejects_addError.
Qed.

Lemma validateFilename_dangerous filename d r :
  In d dangerousChars -> Contains filename d = true ->
  rejects r (validateFilename filename r).
Proof.
  intros Hin Hc. unfold validateFilename.
  destruct (String.eqb (TrimSpace filename) EmptyString); [apply rejects_addError|].
  pose proof (checkDangerousChars_rejects dangerousChars filename d r Hin Hc) as Hrej.
  eapply rejects_keeps; [exact Hrej|].
  eapply keeps_trans; apply keeps_addError_if.
Qed.

Lemma validateFilename_long filename r :
  (255 < String.length filename)%nat -> rejects r (validateFilename filename r).
Proof.
  intros Hlen. unfold validateFilename.
  destruct (String.eqb (TrimSpace filename) EmptyString); [apply rejects_addError|].
  eapply keeps_rejects; [apply checkDangerousChars_keeps|].
  assert (Hgt : (len filename >? 255) = true).
  { unfold len. apply Z.gtb_lt. lia. }
  rewrite Hgt.
  eapply rejects_keeps; [apply rejects_addError | apply keeps_addError_if].
Qed.

Lemma validateFilename_nul filename r :
  Contains filename (bytes [0%N]) = true -> rejects r (validateFilename filename r).
Proof.
  intros Hc. unfold validateFilename.
  destruct (String.eqb (TrimSpace filename) EmptyString); [apply rejects_addError|].
  rewrite Hc.
  eapply keeps_rejects; [|apply rejects_addError].
  eapply keeps_trans; [apply checkDangerousChars_keeps | apply keeps_addError_if].
Qed.

(** C6.  validateFilename marks the result invalid and records at least one
    error for every filename that is empty, consists of blanks only (ASCII
    blanks, or anything else [strings.TrimSpace] trims to nothing), holds
    one of the listed sequences or a NUL byte anywhere, or is longer than
    255 bytes (so also every filename of more than 255 characters). *)
Theorem validateFilename_rejects (filename : string) (r : FileValidationResult) :
  filename = EmptyString
  \/ (forall c, In c (String.list_ascii_of_string filename) -> asciiSpace c = true)
  \/ TrimSpace filename = EmptyString
  \/ (exists d pre post,
        In d ["../"; "..\"; "<"; ">"; ":"; String (Ascii.ascii_of_N 34) EmptyString;
              "|"; "?"; "*"; String (Ascii.ascii_of_N 0) EmptyString]
        /\ filename = pre +:+ d +:+ post)
  \/ (255 < String.length filename)%nat ->
  IsValid (validateFilename filename r) = false
  /\ (List.length (Errors r) < List.length (Errors (validateFilename filename r)))%nat.
Proof.
  intros [-> | [Hblank | [Htrim | [(d & pre & post & Hin & ->) | Hlong]]]].
  - apply validateFilename_blank. reflexivity.
  - apply validateFilename_blank, TrimSpace_blank, Hblank.
  - apply validateFilename_blank, Htrim.
  - cbn [In] in Hin.
    assert (Hc : Contains (pre +:+ d +:+ post) d = true) by apply Contains_app.
    destruct Hin as [<-|[<-|[<-|[<-|[<-|[<-|[<-|[<-|[<-|[<-|[]]]]]]]]]]];
      try (eapply validateFilename_dangerous; [|exact Hc]; cbn; tauto).
    apply validateFilename_nul. exact Hc.
  - apply validateFilename_long. exact Hlong.
Qed.

End Filename.

(** The filename [..\evil] is rejected. *)
Lemma validateFilename_rejects_witness :
  let r := {| IsValid := true; DetectedMimeType := EmptyString;
              FVR_ContentHash := EmptyString; FileSize := 5;
              Errors := []; Warnings := [] |} in
  "..\evil" = EmptyString +:+ "..\" +:+ "evil"
  /\ Errors (validateFilename (H := Instances.asciiLib) "..\evil" r)
     = ["Filename contains dangerous character: ..\"]
  /\ IsValid (validateFilename (H := Instances.asciiLib) "..\evil" r) = false.
Proof.
  split; [reflexivity|]. split; [reflexivity|].
  refine (proj1 (validateFilename_rejects (H := Instances.asciiLib) "..\evil" _ _)).
  right. right. right. left. exists "..\", EmptyString, "evil".
  split; [cbn; tauto | reflexivity].
Defined.

(** *** A rejected content is not stored *)

Lemma keeps_addError msg r : keeps r (addError msg r).
Proof. apply rejects_is_keeps, rejects_addError. Qed.

Lemma keeps_addWarning msg r : keeps r (addWarning msg r).
Proof. split; auto. Qed.

Lemma keeps_setDetectedMimeType m r : keeps r (setDetectedMimeType m r).
Proof. split; auto. Qed.

Lemma keeps_warnEach prefix patterns text r : keeps r (warnEach prefix patterns text r).
Proof.
  revert r. induction patterns as [|d patterns IH]; intros r; simpl.
  - apply keeps_refl.
  - eapply keeps_trans; [|apply IH].
    destruct (Contains text d); [apply keeps_addWarning | apply keeps_refl].
Qed.

Ltac keeps_steps :=
  repeat match goal with
         | |- keeps ?r ?r => apply keeps_refl
         | |- keeps _ (if ?b then _ else _) => destruct b
         | |- keeps _ (addError _ _) => eapply keeps_trans; [|apply keeps_addError]
         | |- keeps _ (addWarning _ _) => eapply keeps_trans; [|apply keeps_addWarning]
         | |- keeps _ (setDetectedMimeType _ _) =>
             eapply keeps_trans; [|apply keeps_setDetectedMimeType]
         | |- keeps _ (warnEach _ _ _ _) => eapply keeps_trans; [|apply keeps_warnEach]
         | |- keeps _ (checkDangerousChars _ _ _) =>
             eapply keeps_trans; [|apply checkDangerousChars_keeps]
         end.

Lemma keeps_validateFileSize size r : keeps r (validateFileSize size r).
Proof. unfold validateFileSize. keeps_steps. Qed.

Section Rejection.
Context `{Lib} `{Sniffer} `{StorageInterface}.

Lemma keeps_validateFilename filename r : keeps r (validateFilename filename r).
Proof. unfold validateFilename. keeps_steps. Qed.

Lemma keeps_validateMimeTypeConsistency declared detected r :
  keeps r (validateMimeTypeConsistency declared detected r).
Proof. unfold validateMimeTypeConsistency. keeps_steps. Qed.

Lemma keeps_checkMaliciousContent filename content r :
  keeps r (checkMaliciousContent filename content r).
Proof. unfold checkMaliciousContent. keeps_steps. Qed.

Lemma keeps_validateFileExtension filename r : keeps r (validateFileExtension filename r).
Proof. unfold validateFileExtension. keeps_steps. Qed.

Lemma keeps_validateFileSignature content detected r :
  keeps r (validateFileSignature content detected r).
Proof. unfold validateFileSignature. keeps_steps. Qed.

(** The checks that follow the size and name checks do not revive a
    rejected result. *)
Lemma later_checks_keep filename declared contentBytes r :
  keeps r
    (validateFileSignature contentBytes (detectMimeType filename contentBytes)
       (validateFileExtension filename
          (checkMaliciousContent filename contentBytes
             (validateMimeTypeConsistency declared (detectMimeType filename contentBytes)
                (setDetectedMimeType (detectMimeType filename contentBytes) r))))).
Proof.
  eapply keeps_trans; [|apply keeps_validateFileSignature].
  eapply keeps_trans; [|apply keeps_validateFileExtension].
  eapply keeps_trans; [|apply keeps_checkMaliciousContent].
  eapply keeps_trans; [|apply keeps_validateMimeTypeConsistency].
  apply keeps_setDetectedMimeType.
Qed.

(** ValidateFile rejects an empty content and a content above the cap. *)
Lemma ValidateFile_rejects_size filename declared content :
  len (contentBytes content) = 0 \/ len (contentBytes content) > MaxFileSize ->
  IsValid (fst (ValidateFile filename declared content)) = false.
Proof.
  intros Hsize. unfold ValidateFile, contentBytes in *.
  destruct (ioCopy content) as [[bs e] rest]. simpl in Hsize.
  destruct e as [msg|]; [reflexivity|]. simpl.
  apply later_checks_keep. apply keeps_validateFilename.
  apply validateFileSize_fails_iff_any; [reflexivity | exact Hsize].
Qed.

(** ValidateFile rejects a filename that validateFilename rejects. *)
Lemma ValidateFile_rejects_name filename declared content :
  (forall r, IsValid (validateFilename filename r) = false) ->
  IsValid (fst (ValidateFile filename declared content)) = false.
Proof.
  intros Hname. unfold ValidateFile.
  destruct (ioCopy content) as [[bs e] rest].
  destruct e as [msg|]; [reflexivity|]. simpl.
  apply later_checks_keep. apply Hname.
Qed.

(** UploadFile stops at a rejected validation: no row and no object is
    written. *)
Lemma UploadFile_rejected w env req :
  IsValid (fst (ValidateFile (reqFilename req) (reqMimeType req) (reqContent req))) = false ->
  exists msg, UploadFile w env req = (w, Err msg).
Proof.
  intros Hinvalid. unfold UploadFile.
  destruct (ValidateFile _ _ _) as [validation content]. simpl in Hinvalid.
  rewrite Hinvalid. simpl. eexists. reflexivity.
Qed.

End Rejection.

(** *** Storage keys *)

(** C7.  For a fingerprint of 64 characters, whose first four are [a], [b],
    [c], [d], both path generators answer [files/ab/cd/<fingerprint>]. *)
Theorem generateStoragePath_layout (fp : string) :
  String.length fp = 64%nat ->
  exists a b c d rest,
    fp = String a (String b (String c (String d rest)))
    /\ Service_generateStoragePath fp
       = Ok ("files/" +:+ String a (String b EmptyString) +:+ "/"
             +:+ String c (String d EmptyString) +:+ "/" +:+ fp)
    /\ generateStoragePath fp = Service_generateStoragePath fp.
Proof.
  intros Hlen.
  destruct fp as [|a [|b [|c [|d rest]]]]; try discriminate.
  exists a, b, c, d, rest. split; [reflexivity|]. split; [|reflexivity].
  unfold Service_generateStoragePath.
  replace (String.length (String a (String b (String c (String d rest)))) <? 4)%nat
    with false by (symmetry; apply Nat.ltb_ge; cbn; lia).
  cbn. destruct rest; reflexivity.
Qed.

Lemma generateStoragePath_layout_witness :
  Service_generateStoragePath
    "936a185caaa266bb9cbe981e9e05cb78cd732b0b3280eb944412bb6f8f8f07af"
  = Ok "files/93/6a/936a185caaa266bb9cbe981e9e05cb78cd732b0b3280eb944412bb6f8f8f07af"
  /\ exists a b c d rest,
       "936a185caaa266bb9cbe981e9e05cb78cd732b0b3280eb944412bb6f8f8f07af"
       = String a (String b (String c (String d rest)))
       /\ Service_generateStoragePath
            "936a185caaa266bb9cbe981e9e05cb78cd732b0b3280eb944412bb6f8f8f07af"
          = Ok ("files/" +:+ String a (String b EmptyString) +:+ "/"
                +:+ String c (String d EmptyString) +:+ "/"
                +:+ "936a185caaa266bb9cbe981e9e05cb78cd732b0b3280eb944412bb6f8f8f07af")
       /\ generateStoragePath
            "936a185caaa266bb9cbe981e9e05cb78cd732b0b3280eb944412bb6f8f8f07af"
          = Service_generateStoragePath
              "936a185caaa266bb9cbe981e9e05cb78cd732b0b3280eb944412bb6f8f8f07af".
Proof.
  split; [reflexivity|].
  exact (generateStoragePath_layout
           "936a185caaa266bb9cbe981e9e05cb78cd732b0b3280eb944412bb6f8f8f07af" eq_refl).
Defined.

End ValidationProps.

(** ** Virus scan *)
Module ScanProps.
Import Go Models Services.

Lemma length_append (a b : string) :
  String.length (a +:+ b) = (String.length a + String.length b)%nat.
Proof. induction a as [|c a IH]; simpl; [reflexivity | rewrite IH; reflexivity]. Qed.

Lemma length_zeros k : String.length (zeros k) = k.
Proof. induction k as [|k IH]; simpl; [reflexivity | rewrite IH; reflexivity]. Qed.

Lemma length_padZero width s : (width <= String.length (padZero width s))%nat.
Proof. unfold padZero. rewrite length_append, length_zeros. lia. Qed.

(** The [%08x] prefix is at least eight bytes long. *)
Lemma length_Sprintf_08x z : (8 <= String.length (Sprintf_08x z))%nat.
Proof.
  unfold Sprintf_08x, formatInt. destruct (z <? 0).
  - simpl. pose proof (length_padZero 7 (FormatUint 16 (Z.abs_N z))). lia.
  - apply length_padZero.
Qed.

Lemma length_bigEndian32 z : String.length (bigEndian32 z) = 4%nat.
Proof. reflexivity. Qed.

Lemma chunkFrame_longer chunk :
  (String.length (chunkFrameSpec chunk) <= String.length (chunkFrame chunk))%nat.
Proof.
  unfold chunkFrameSpec, chunkFrame. destruct (len chunk >? 0); [|lia].
  rewrite !length_append, length_bigEndian32.
  pose proof (length_Sprintf_08x (len chunk)). lia.
Qed.

Lemma streamChunks_longer content :
  (String.length (streamChunksSpec content)
   <= String.length (fst (streamChunks content)))%nat.
Proof.
  induction content as [|r rest IH]; simpl; [lia|].
  pose proof (chunkFrame_longer (data r)).
  destruct (err r); simpl; try lia.
  destruct (streamChunks rest) as [sent e]. simpl in *.
  rewrite !length_append. lia.
Qed.

(** Whatever the content, a scan that runs to the end never puts the
    specified frames on the wire: the code sends eight ASCII digits where
    four binary bytes are specified, so its output is always longer. *)
Lemma scanForViruses_wire_differs s net now content wire res e :
  virusScanningEnabled s = true ->
  dialErr net = None -> commandWriteErr net = None ->
  snd (streamChunks content) = None ->
  scanForViruses s net now content = (wire, res, e) ->
  wire <> instreamWireSpec content.
Proof.
  intros Hen Hdial Hcmd Hread Hscan Heq.
  unfold scanForViruses in Hscan. rewrite Hen, Hdial, Hcmd in Hscan. simpl in Hscan.
  pose proof (streamChunks_longer content) as Hlen.
  destruct (streamChunks content) as [sent re]. simpl in Hread, Hlen. subst re.
  assert (Hwire : wire = instreamCommand +:+ sent +:+ endOfStream).
  { destruct (response net); inversion Hscan; reflexivity. }
  rewrite Hwire in Heq. apply (f_equal String.length) in Heq.
  unfold instreamWireSpec in Heq. rewrite !length_append in Heq.
  simpl in Heq. lia.
Qed.

(** The three-way reading of the response. *)
Lemma parseResponse_found responseStr r :
  Contains responseStr "FOUND" = true ->
  Clean (parseResponse responseStr r) = false
  /\ Status (parseResponse responseStr r) = "infected".
Proof. intros Hc. unfold parseResponse. rewrite Hc. split; reflexivity. Qed.

Lemma parseResponse_ok responseStr r :
  Contains responseStr "FOUND" = false -> Contains responseStr "OK" = true ->
  Clean (parseResponse responseStr r) = Clean r
  /\ Status (parseResponse responseStr r) = "clean".
Proof. intros Hf Hc. unfold parseResponse. rewrite Hf, Hc. split; reflexivity. Qed.

Lemma parseResponse_other responseStr r :
  Contains responseStr "FOUND" = false -> Contains responseStr "OK" = false ->
  Status (parseResponse responseStr r) = "error"
  /\ Error (parseResponse responseStr r) = "Unexpected ClamAV response: " +:+ responseStr.
Proof. intros Hf Hc. unfold parseResponse. rewrite Hf, Hc. split; reflexivity. Qed.

(** C8, at a one-byte content.  The scan of the single byte [A] (one read
    that returns the byte, one that returns end of file) sends the command,
    then the length as the eight ASCII characters [00000001], the byte, and
    the eight ASCII characters [00000000].  The specified stream has the
    four bytes 0 0 0 1 and 0 0 0 0 in those places.  The response is read
    once and classified as specified. *)
Theorem scanForViruses_sends_ascii_lengths :
  let s := {| virusScanningEnabled := true; clamAVHost := "localhost";
              clamAVPort := "3310" |} in
  let content := [ {| data := "A"; err := NoErr |};
                   {| data := EmptyString; err := EOF |} ] in
  let answer (line : string) :=
    scanForViruses s {| dialErr := None; commandWriteErr := None;
                        response := inl line |} 0 content in
  fst (fst (answer "stream: OK"))
    = "nINSTREAM" +:+ bytes [10%N] +:+ "00000001" +:+ "A" +:+ "00000000"
  /\ instreamWireSpec content
     = "nINSTREAM" +:+ bytes [10%N] +:+ bytes [0%N; 0%N; 0%N; 1%N] +:+ "A"
       +:+ bytes [0%N; 0%N; 0%N; 0%N]
  /\ fst (fst (answer "stream: OK")) <> instreamWireSpec content
  /\ snd (fst (answer "stream: OK"))
     = {| Clean := true; Engine := "ClamAV"; ScannedAt := 0; Status := "clean";
          ThreatName := EmptyString; Error := EmptyString |}
  /\ snd (fst (answer "stream: Eicar-Test-Signature FOUND"))
     = {| Clean := false; Engine := "ClamAV"; ScannedAt := 0; Status := "infected";
          ThreatName := "Eicar-Test-Signature"; Error := EmptyString |}
  /\ Status (snd (fst (answer "INSTREAM size limit exceeded. ERROR"))) = "error".
Proof.
  vm_compute. repeat split; try reflexivity. discriminate.
Qed.

End ScanProps.

(** ** Upload and deduplication *)
Module UploadProps.
Import Go Models Repository Services.

(** *** The validation steps leave fingerprint and size alone *)

Lemma digestOf_addError msg r : digestOf (addError msg r) = digestOf r.
Proof. reflexivity. Qed.

Lemma digestOf_addWarning msg r : digestOf (addWarning msg r) = digestOf r.
Proof. reflexivity. Qed.

Lemma digestOf_setDetectedMimeType m r : digestOf (setDetectedMimeType m r) = digestOf r.
Proof. reflexivity. Qed.

Lemma digestOf_checkDangerousChars chars filename r :
  digestOf (checkDangerousChars chars filename r) = digestOf r.
Proof.
  revert r. induction chars as [|d chars IH]; intros r; simpl; [reflexivity|].
  rewrite IH. destruct (Contains filename d); reflexivity.
Qed.

Lemma digestOf_warnEach prefix patterns text r :
  digestOf (warnEach prefix patterns text r) = digestOf r.
Proof.
  revert r. induction patterns as [|d patterns IH]; intros r; simpl; [reflexivity|].
  rewrite IH. destruct (Contains text d); reflexivity.
Qed.

Create Rewrite HintDb digest.
#[export] Hint Rewrite digestOf_addError digestOf_addWarning digestOf_setDetectedMimeType
  digestOf_checkDangerousChars digestOf_warnEach : digest.

Ltac split_ifs :=
  repeat match goal with
         | |- context [if ?b then _ else _] => destruct b
         end.

Ltac digest := split_ifs; autorewrite with digest; reflexivity.

Lemma digestOf_validateFileSize size r : digestOf (validateFileSize size r) = digestOf r.
Proof. unfold validateFileSize. digest. Qed.

Section Steps.
Context `{Lib} `{Sniffer}.

Lemma digestOf_validateFilename filename r :
  digestOf (validateFilename filename r) = digestOf r.
Proof. unfold validateFilename. digest. Qed.

Lemma digestOf_validateMimeTypeConsistency declared detected r :
  digestOf (validateMimeTypeConsistency declared detected r) = digestOf r.
Proof. unfold validateMimeTypeConsistency. digest. Qed.

Lemma digestOf_checkMaliciousContent filename content r :
  digestOf (checkMaliciousContent filename content r) = digestOf r.
Proof. unfold checkMaliciousContent. digest. Qed.

Lemma digestOf_validateFileExtension filename r :
  digestOf (validateFileExtension filename r) = digestOf r.
Proof. unfold validateFileExtension. digest. Qed.

Lemma digestOf_validateFileSignature content detected r :
  digestOf (validateFileSignature content detected r) = digestOf r.
Proof. unfold validateFileSignature. digest. Qed.

(** A read error makes the result invalid; otherwise the result carries the
    digest of the bytes read and their number. *)
Lemma ValidateFile_digest filename declared content :
  let '(bs, e, _) := ioCopy content in
  let validation := fst (ValidateFile filename declared content) in
  match e with
  | Some _ => IsValid validation = false
  | None => digestOf validation = (sha256_hex bs, len bs)
  end.
Proof.
  unfold ValidateFile.
  destruct (ioCopy content) as [[bs e] rest]. destruct e as [msg|]; simpl.
  - reflexivity.
  - rewrite digestOf_validateFileSignature, digestOf_validateFileExtension,
      digestOf_checkMaliciousContent, digestOf_validateMimeTypeConsistency,
      digestOf_setDetectedMimeType, digestOf_validateFilename,
      digestOf_validateFileSize.
    reflexivity.
Qed.

Lemma ValidateFile_valid filename declared content :
  IsValid (fst (ValidateFile filename declared content)) = true ->
  FVR_ContentHash (fst (ValidateFile filename declared content))
    = sha256_hex (contentBytes content)
  /\ FileSize (fst (ValidateFile filename declared content)) = len (contentBytes content).
Proof.
  intros Hvalid. pose proof (ValidateFile_digest filename declared content) as Hd.
  unfold contentBytes. destruct (ioCopy content) as [[bs e] rest]. simpl in *.
  destruct e as [msg|].
  - rewrite Hd in Hvalid. discriminate.
  - unfold digestOf in Hd. inversion Hd. split; reflexivity.
Qed.

End Steps.

(** *** The two inserts *)

Lemma existsb_false {A} (f : A -> bool) (l : list A) :
  existsb f l = false -> forall x, In x l -> f x = false.
Proof.
  intros Hex x Hin. destruct (f x) eqn:E; [|reflexivity].
  assert (Ht : existsb f l = true) by (apply existsb_exists; eauto).
  congruence.
Qed.

Lemma Create_Ok st fault newID file st' f :
  Create st fault newID file = (st', Ok f) ->
  files st' = files st ++ [f]
  /\ user_files st' = user_files st
  /\ ContentHash f = ContentHash file
  /\ StoragePath f = StoragePath file
  /\ (forall x, In x (files st) -> hashIs (ContentHash file) x = false).
Proof.
  unfold Create. destruct fault as [e|]; [intros Heq; inversion Heq|].
  destruct (existsb _ (files st) || existsb _ (files st)) eqn:E;
    intros Heq; inversion Heq; subst; clear Heq.
  apply orb_false_iff in E. destruct E as [_ Ehash].
  simpl. repeat split; try reflexivity.
  exact (existsb_false _ _ Ehash).
Qed.

Lemma CreateUserFile_Ok st fault newID uf st' u :
  IsDeleted uf = false ->
  CreateUserFile st fault newID uf = (st', Ok u) ->
  files st' = files st
  /\ Statements.referenceAdded st st' (UserID uf) (FileID uf) (UserFile_ID u).
Proof.
  intros Hlive. unfold CreateUserFile. destruct fault as [e|]; [intros Heq; inversion Heq|].
  destruct (existsb _ (user_files st) || existsb _ (user_files st)) eqn:E;
    [intros Heq; inversion Heq|].
  destruct (negb (existsb _ (files st))); intros Heq; inversion Heq; subst; clear Heq.
  apply orb_false_iff in E. destruct E as [Eid _].
  split; [reflexivity|].
  exists (userFileRow newID uf). simpl. repeat split; try reflexivity; try exact Hlive.
  intros x Hin Heq. pose proof (existsb_false _ _ Eid x Hin) as Hne.
  simpl in Hne. apply N.eqb_neq in Hne. contradiction.
Qed.

Section Upload.
Context `{Lib} `{Sniffer} `{StorageInterface}.

Lemma createReference_Ok w env req validation file isExisting savingsBytes w' r :
  createReference w env req validation file isExisting savingsBytes = (w', Ok r) ->
  respFileID r = File_ID file
  /\ IsExisting r = isExisting
  /\ SavingsBytes r = savingsBytes
  /\ files (meta w') = files (meta w)
  /\ objects w' = objects w
  /\ Statements.referenceAdded (meta w) (meta w') (reqUserID req) (File_ID file)
       (respUserFileID r).
Proof.
  unfold createReference.
  destruct (CreateUserFile _ _ _ _) as [st res] eqn:E.
  destruct res as [u|e|]; intros Heq; inversion Heq; subst; clear Heq. simpl.
  apply CreateUserFile_Ok in E; [|reflexivity]. destruct E as [Hfiles Hadd].
  simpl in Hadd. repeat split; assumption.
Qed.

(** What a successful UploadFile did: either it found a stored file with
    the fingerprint of the content and only added a reference to it (a hit),
    or no file had that fingerprint, and it added the file and then the
    reference (a miss). *)
Lemma UploadFile_Ok w env req w' r :
  UploadFile w env req = (w', Ok r) ->
  let bs := contentBytes (reqContent req) in
  let h := sha256_hex bs in
  (exists f,
      find (hashIs h) (files (meta w)) = Some f
      /\ IsExisting r = true /\ SavingsBytes r = len bs
      /\ respFileID r = File_ID f
      /\ files (meta w') = files (meta w)
      /\ Statements.referenceAdded (meta w) (meta w') (reqUserID req) (File_ID f)
           (respUserFileID r))
  \/ (exists f path,
      (forall x, In x (files (meta w)) -> hashIs h x = false)
      /\ IsExisting r = false /\ SavingsBytes r = 0
      /\ respFileID r = File_ID f
      /\ files (meta w') = files (meta w) ++ [f]
      /\ ContentHash f = h
      /\ Service_generateStoragePath h = Ok path
      /\ StoragePath f = path
      /\ Statements.referenceAdded (meta w) (meta w') (reqUserID req) (File_ID f)
           (respUserFileID r)).
Proof.
  unfold UploadFile.
  pose proof (ValidateFile_valid (reqFilename req) (reqMimeType req) (reqContent req))
    as Hv.
  destruct (ValidateFile (reqFilename req) (reqMimeType req) (reqContent req))
    as [validation content] eqn:EV.
  simpl in Hv.
  destruct (IsValid validation) eqn:Evalid; simpl; [|intros Heq; inversion Heq].
  destruct (Hv eq_refl) as [Hhash Hsize]. clear Hv.
  rewrite Hhash, Hsize.
  set (bs := contentBytes (reqContent req)). set (h := sha256_hex bs).
  assert (Hmiss :
    (match Service_generateStoragePath h with
     | Ok storagePath =>
         let '(objs, _, e) :=
           Storage_UploadFile (objects w) (putFault env) storagePath content
             (len bs) (DetectedMimeType validation) in
         let w0 := {| meta := meta w; objects := objs |} in
         match e with
         | Some msg => (w0, Err ("failed to upload file to storage: " +:+ msg))
         | None =>
             let file :=
               {| File_ID := 0%N; ContentHash := h; Filename := reqFilename req;
                  OriginalMimeType := reqMimeType req;
                  File_DetectedMimeType := DetectedMimeType validation;
                  File_FileSize := len bs; StoragePath := storagePath;
                  IsEncrypted := false; OwnerID := reqOwnerID req;
                  PrimaryGroupID := reqPrimaryGroupID req;
                  FilePermissions := reqFilePermissions req |} in
             let '(st, r0) := Create (meta w0) (createFault env) (fileUUID env) file in
             let w1 := {| meta := st; objects := Services.objects w0 |} in
             match r0 with
             | Ok file0 => createReference w1 env req validation file0 false 0
             | Err msg => (w1, Err ("failed to create file record: " +:+ msg))
             | Panic => (w1, Panic)
             end
         end
     | Err msg => (w, Err msg)
     | Panic => (w, Panic)
     end) = (w', Ok r) ->
    exists f path,
      (forall x, In x (files (meta w)) -> hashIs h x = false)
      /\ IsExisting r = false /\ SavingsBytes r = 0
      /\ respFileID r = File_ID f
      /\ files (meta w') = files (meta w) ++ [f]
      /\ ContentHash f = h
      /\ Service_generateStoragePath h = Ok path
      /\ StoragePath f = path
      /\ Statements.referenceAdded (meta w) (meta w') (reqUserID req) (File_ID f)
           (respUserFileID r)).
  { destruct (Service_generateStoragePath h) as [path|e|] eqn:Epath;
      [|intros Heq; inversion Heq|intros Heq; inversion Heq].
    destruct (Storage_UploadFile _ _ _ _ _ _) as [[objs content'] e].
    destruct e as [msg|]; [intros Heq; inversion Heq|].
    simpl.
    destruct (Create _ _ _ _) as [st r0] eqn:Ecreate.
    destruct r0 as [f|msg|]; [|intros Heq; inversion Heq|intros Heq; inversion Heq].
    intros Href. apply createReference_Ok in Href.
    destruct Href as (Hid & Hex & Hsav & Hfiles & _ & Hadd).
    apply Create_Ok in Ecreate. simpl in Ecreate, Hfiles, Hadd.
    destruct Ecreate as (Hf & Hu & Hch & Hsp & Hfresh).
    exists f, path. repeat split; try assumption.
    - congruence.
    - destruct Hadd as (u & Hu1 & Hrest). exists u. split; [congruence|].
      destruct Hrest as (? & ? & ? & ? & Hnew). repeat split; try assumption.
      intros x Hin. apply Hnew. rewrite Hu. exact Hin. }
  unfold GetByContentHash.
  destruct (lookupFault env) as [e|]; [intros Heq; right; exact (Hmiss Heq)|].
  destruct (find (hashIs h) (files (meta w))) as [f|] eqn:Efind.
  - intros Href. left. apply createReference_Ok in Href.
    destruct Href as (Hid & Hex & Hsav & Hfiles & _ & Hadd).
    exists f. repeat split; assumption.
  - intros Heq. right. exact (Hmiss Heq).
Qed.

End Upload.

Lemma find_none_app {A} (p : A -> bool) (l : list A) (x : A) :
  find p l = None -> p x = true -> find p (l ++ [x]) = Some x.
Proof.
  induction l as [|y l IH]; simpl; intros Hnone Hp.
  - rewrite Hp. reflexivity.
  - destruct (p y); [discriminate | auto].
Qed.

Lemma filter_none_app {A} (p : A -> bool) (l : list A) (x : A) :
  find p l = None -> p x = true -> List.filter p (l ++ [x]) = [x].
Proof.
  induction l as [|y l IH]; simpl; intros Hnone Hp.
  - rewrite Hp. reflexivity.
  - destruct (p y); [discriminate | auto].
Qed.

Lemma referenceAdded_has (st st' : Store) (userID fileID refID : UUID) :
  Statements.referenceAdded st st' userID fileID refID ->
  Statements.hasReference st' userID fileID refID.
Proof.
  intros (u & Hu & Hrest). exists u. split; [|tauto].
  rewrite Hu. apply in_or_app. right. left. reflexivity.
Qed.

Lemma hasReference_later (st' st'' : Store)
    (userID fileID refID userID' fileID' refID' : UUID) :
  Statements.hasReference st' userID fileID refID ->
  Statements.referenceAdded st' st'' userID' fileID' refID' ->
  Statements.hasReference st'' userID fileID refID /\ refID <> refID'.
Proof.
  intros (u & Hin & Hid & Hrest) (u' & Hu' & _ & _ & _ & _ & Hnew). split.
  - exists u. split; [|tauto]. rewrite Hu'. apply in_or_app. left. exact Hin.
  - rewrite <- Hid. apply Hnew. exact Hin.
Qed.

Section Dedup.
Context `{Lib} `{Sniffer} `{StorageInterface}.

(** An upload of content that is already stored is a hit, whoever stored
    it: this is why the first of two uploads saves nothing only when the
    content is new. *)
Lemma upload_of_stored_content_saves
    (w w' : World) (env : UploadEnv) (req : UploadFileRequest)
    (r : UploadFileResponse) (f : File) :
  find (hashIs (sha256_hex (contentBytes (reqContent req)))) (files (meta w)) = Some f ->
  UploadFile w env req = (w', Ok r) ->
  IsExisting r = true
  /\ SavingsBytes r = len (contentBytes (reqContent req))
  /\ respFileID r = File_ID f
  /\ files (meta w') = files (meta w).
Proof.
  intros Hfind Hup. apply UploadFile_Ok in Hup. simpl in Hup.
  destruct Hup as [(f' & Hfind' & Hex & Hsav & Hid & Hfiles & _)
                  | (f' & path & Hnone & _)].
  - rewrite Hfind in Hfind'. inversion Hfind'; subst f'. tauto.
  - exfalso. apply find_some in Hfind. destruct Hfind as [Hin Hp].
    rewrite (Hnone f Hin) in Hp. discriminate.
Qed.

(** A new content is stored under the key made from its fingerprint. *)
Lemma new_file_is_keyed_by_fingerprint
    (w w' : World) (env : UploadEnv) (req : UploadFileRequest) (r : UploadFileResponse) :
  UploadFile w env req = (w', Ok r) ->
  IsExisting r = false ->
  exists f,
    In f (files (meta w')) /\ File_ID f = respFileID r
    /\ ContentHash f = sha256_hex (contentBytes (reqContent req))
    /\ Service_generateStoragePath (ContentHash f) = Ok (StoragePath f).
Proof.
  intros Hup Hnew. apply UploadFile_Ok in Hup. simpl in Hup.
  destruct Hup as [(f & _ & Hex & _) | (f & path & _ & _ & _ & Hid & Hfiles & Hhash
                                        & Hpath & Hsp & _)];
    [congruence|].
  exists f. split; [rewrite Hfiles; apply in_or_app; right; left; reflexivity|].
  split; [congruence|]. split; [exact Hhash|]. rewrite Hhash, Hsp. exact Hpath.
Qed.

(** C1.  Two uploads of the same bytes, by [p1] and then by [p2], the
    content being new to the store before the first: if both calls succeed,
    the first reports a new file and zero bytes saved, the second reports an
    existing file and as many bytes saved as the content has; both answers
    name the same file, the only one with that fingerprint, and two
    different live references, one of each principal, point at it.
    CheckDeduplication agrees: before the first upload it reports nothing
    saved, after it the size. *)
Theorem second_upload_is_deduplicated
    (w w1 w2 : World) (env1 env2 : UploadEnv) (req1 req2 : UploadFileRequest)
    (r1 r2 : UploadFileResponse) (bs : string) :
  contentBytes (reqContent req1) = bs ->
  contentBytes (reqContent req2) = bs ->
  find (hashIs (sha256_hex bs)) (files (meta w)) = None ->
  UploadFile w env1 req1 = (w1, Ok r1) ->
  UploadFile w1 env2 req2 = (w2, Ok r2) ->
  IsExisting r1 = false /\ SavingsBytes r1 = 0
  /\ IsExisting r2 = true /\ SavingsBytes r2 = len bs
  /\ respFileID r2 = respFileID r1
  /\ respUserFileID r2 <> respUserFileID r1
  /\ (exists f, List.filter (hashIs (sha256_hex bs)) (files (meta w2)) = [f]
                /\ File_ID f = respFileID r1)
  /\ Statements.hasReference (meta w2) (reqUserID req1) (respFileID r1) (respUserFileID r1)
  /\ Statements.hasReference (meta w2) (reqUserID req2) (respFileID r1) (respUserFileID r2)
  /\ (exists d, CheckDeduplication (meta w) None (sha256_hex bs) (len bs) = Ok d
                /\ DR_IsExisting d = false /\ DR_SavingsBytes d = 0)
  /\ (exists d, CheckDeduplication (meta w1) None (sha256_hex bs) (len bs) = Ok d
                /\ DR_IsExisting d = true /\ DR_SavingsBytes d = len bs
                /\ ExistingFileID d = Some (respFileID r1)).
Proof.
  intros Hc1 Hc2 Hfresh Hup1 Hup2.
  apply UploadFile_Ok in Hup1. apply UploadFile_Ok in Hup2.
  rewrite Hc1 in Hup1. rewrite Hc2 in Hup2. simpl in Hup1, Hup2.
  set (h := sha256_hex bs) in *.
  destruct Hup1 as [(f & Hfind & _) | (f & path & _ & Hex1 & Hsav1 & Hid1 & Hfiles1
                                       & Hhash & Hpath & _ & Hadd1)];
    [congruence|].
  assert (Hisf : hashIs h f = true).
  { unfold hashIs. rewrite Hhash. apply String.eqb_refl. }
  assert (Hfind1 : find (hashIs h) (files (meta w1)) = Some f).
  { rewrite Hfiles1. apply find_none_app; assumption. }
  destruct Hup2 as [(f' & Hfind2 & Hex2 & Hsav2 & Hid2 & Hfiles2 & Hadd2)
                   | (f' & path' & Hnone & _)].
  2:{ exfalso. assert (Hin : In f (files (meta w1))).
      { rewrite Hfiles1. apply in_or_app. right. left. reflexivity. }
      rewrite (Hnone f Hin) in Hisf. discriminate. }
  rewrite Hfind1 in Hfind2. inversion Hfind2; subst f'. clear Hfind2.
  rewrite <- Hid1 in Hadd1, Hadd2.
  pose proof (referenceAdded_has _ _ _ _ _ Hadd1) as Hhas1.
  destruct (hasReference_later _ _ _ _ _ _ _ _ Hhas1 Hadd2) as [Hhas1' Hne].
  split; [exact Hex1|]. split; [exact Hsav1|]. split; [exact Hex2|].
  split; [exact Hsav2|]. split; [congruence|]. split; [congruence|].
  split.
  { exists f. split; [|congruence].
    rewrite Hfiles2, Hfiles1. apply filter_none_app; assumption. }
  split; [exact Hhas1'|]. split; [exact (referenceAdded_has _ _ _ _ _ Hadd2)|].
  split.
  - unfold CheckDeduplication, CheckFileExists. fold h. rewrite Hfresh.
    unfold generateStoragePath. unfold Service_generateStoragePath in Hpath.
    destruct (String.length h <? 4)%nat; [discriminate|].
    eexists. split; [reflexivity|]. split; reflexivity.
  - unfold CheckDeduplication, CheckFileExists. fold h. rewrite Hfind1.
    eexists. split; [reflexivity|]. simpl. rewrite Hid1. repeat split; reflexivity.
Qed.

End Dedup.

Import Instances.

(** The scenario of two principals uploading [helloworld]. *)
Lemma second_upload_is_deduplicated_witness :
  let w := Scenario.emptyWorld in
  let req1 := Scenario.uploadBy 1%N "x.bin" in
  let req2 := Scenario.uploadBy 2%N "y.bin" in
  let env1 := Scenario.draws 100%N 200%N in
  let env2 := Scenario.draws 101%N 201%N in
  let w1 := fst (UploadFile w env1 req1) in
  let w2 := fst (UploadFile w1 env2 req2) in
  let r1 := {| respFileID := 100%N; respUserFileID := 200%N; IsExisting := false;
               SavingsBytes := 0; respWarnings := [] |} in
  let r2 := {| respFileID := 100%N; respUserFileID := 201%N; IsExisting := true;
               SavingsBytes := 10; respWarnings := [] |} in
  UploadFile w env1 req1 = (w1, Ok r1)
  /\ UploadFile w1 env2 req2 = (w2, Ok r2)
  /\ List.length (files (meta w2)) = 1%nat
  /\ List.length (user_files (meta w2)) = 2%nat
  /\ IsExisting r2 = true /\ SavingsBytes r2 = len "helloworld"
  /\ respUserFileID r2 <> respUserFileID r1.
Proof.
  intros w req1 req2 env1 env2 w1 w2 r1 r2.
  assert (H1 : UploadFile w env1 req1 = (w1, Ok r1)) by (vm_compute; reflexivity).
  assert (H2 : UploadFile w1 env2 req2 = (w2, Ok r2)) by (vm_compute; reflexivity).
  assert (Hfresh : find (hashIs (sha256_hex "helloworld")) (files (meta w)) = None)
    by reflexivity.
  pose proof (second_upload_is_deduplicated w w1 w2 env1 env2 req1 req2 r1 r2
                "helloworld" eq_refl eq_refl Hfresh H1 H2) as Hthm.
  split; [exact H1|]. split; [exact H2|].
  split; [vm_compute; reflexivity|]. split; [vm_compute; reflexivity|].
  split; [exact (proj1 (proj2 (proj2 Hthm)))|].
  split; [exact (proj1 (proj2 (proj2 (proj2 Hthm))))|].
  exact (proj1 (proj2 (proj2 (proj2 (proj2 (proj2 Hthm)))))).
Defined.

(** In the same scenario the object written for the new content is empty:
    ValidateFile has read the request's reader to its end, and the storage
    upload is handed that same reader. *)
Remark stored_object_after_validation :
  let w1 := fst (UploadFile Scenario.emptyWorld (Scenario.draws 100%N 200%N)
                   (Scenario.uploadBy 1%N "x.bin")) in
  map_to_list (objects w1)
  = [("files/00/00/000000000000000000000000000000000000000000000000000000000000043c",
      EmptyString)].
Proof. vm_compute. reflexivity. Qed.

End UploadProps.

(** ** Deleting a reference *)
Module DeleteProps.
Import Go Models Repository Handlers.

Lemma find_all_false {A} (p : A -> bool) (l : list A) :
  (forall x, In x l -> p x = false) -> find p l = None.
Proof.
  induction l as [|y l IH]; simpl; intros Hall; [reflexivity|].
  rewrite (Hall y) by (left; reflexivity). apply IH. intros x Hin. apply Hall. right. exact Hin.
Qed.

Lemma markDeleted_deletes (id : UUID) (rows : list UserFile) (x : UserFile) :
  In x (map (markDeleted id) rows) -> UserFile_ID x = id -> IsDeleted x = true.
Proof.
  intros Hin Hid. apply in_map_iff in Hin. destruct Hin as (y & <- & _).
  unfold markDeleted in *. destruct (N.eqb_spec (UserFile_ID y) id) as [E|E].
  - reflexivity.
  - contradiction.
Qed.

(** Once every row with that identifier is deleted, DeleteFile answers
    not-found and leaves the store as it is, faults or not. *)
Lemma DeleteFile_gone (st : Store) (env : DeleteEnv) (req : DeleteRequest) (id : UUID) :
  fileId req = Some id ->
  ctxUserID req <> None ->
  (forall x, In x (user_files st) -> UserFile_ID x = id -> IsDeleted x = true) ->
  DeleteFile st env req = (st, fileNotFound).
Proof.
  intros Hid Hctx Hgone. unfold DeleteFile.
  destruct (ctxUserID req) as [u|]; [|contradiction]. rewrite Hid.
  unfold GetUserFile. destruct (getFault env); [reflexivity|].
  rewrite find_all_false; [reflexivity|].
  intros x Hin. unfold liveRowOf.
  destruct (N.eqb_spec (UserFile_ID x) id) as [E|E]; [|reflexivity].
  rewrite (Hgone x Hin E). simpl. apply andb_false_r.
Qed.

(** C9.  After a DeleteFile call has answered 200, the reference is marked
    deleted, and every further DeleteFile call of the same request, whatever
    faults the store shows, answers 404 "File not found" (never 500) and
    changes nothing. *)
Theorem delete_again_is_not_found
    (st st1 : Store) (env : DeleteEnv) (req : DeleteRequest) (resp : Response) :
  DeleteFile st env req = (st1, resp) ->
  code resp = StatusOK ->
  (exists userID id,
      ctxUserID req = Some userID /\ fileId req = Some id
      /\ forall x, In x (user_files st1) -> UserFile_ID x = id -> IsDeleted x = true)
  /\ forall envs : list DeleteEnv,
       DeleteFileMany st1 envs req = (st1, List.repeat fileNotFound (List.length envs)).
Proof.
  intros Hdel Hok.
  assert (Hfirst : exists userID id,
      ctxUserID req = Some userID /\ fileId req = Some id
      /\ forall x, In x (user_files st1) -> UserFile_ID x = id -> IsDeleted x = true).
  { unfold DeleteFile in Hdel.
    destruct (ctxUserID req) as [u|];
      [|inversion Hdel; subst; discriminate].
    destruct (fileId req) as [id|];
      [|inversion Hdel; subst; discriminate].
    exists u, id. split; [reflexivity|]. split; [reflexivity|].
    unfold GetUserFile in Hdel.
    destruct (getFault env); [inversion Hdel; subst; discriminate|].
    destruct (find (liveRowOf u id) (user_files st)) as [row|] eqn:Efind;
      [|inversion Hdel; subst; discriminate].
    apply find_some in Efind. destruct Efind as [_ Hlive].
    unfold liveRowOf in Hlive. apply andb_true_iff in Hlive. destruct Hlive as [Hlive _].
    apply andb_true_iff in Hlive. destruct Hlive as [Hrow Huser].
    apply N.eqb_eq in Hrow. rewrite Huser in Hdel. simpl in Hdel.
    unfold SoftDeleteUserFile in Hdel.
    destruct (updateFault env); [inversion Hdel; subst; discriminate|].
    inversion Hdel; subst st1 resp; clear Hdel. simpl.
    intros x Hin Hx. rewrite Hrow in Hin. exact (markDeleted_deletes id _ x Hin Hx). }
  split; [exact Hfirst|].
  destruct Hfirst as (u & id & Hctx & Hid & Hgone).
  induction envs as [|e envs IH]; simpl; [reflexivity|].
  rewrite (DeleteFile_gone st1 e req id Hid) by (congruence || exact Hgone).
  rewrite IH. reflexivity.
Qed.

(** Principal 1 deletes its reference 200, then tries three more times, the
    store failing on the second of them. *)
Lemma delete_again_is_not_found_witness :
  let req := {| ctxUserID := Some 1%N; fileId := Some 200%N |} in
  let calm := {| getFault := None; updateFault := None |} in
  let broken := {| getFault := Some "connection refused"; updateFault := None |} in
  let st1 := fst (DeleteFile Scenario.twoReferences calm req) in
  code (snd (DeleteFile Scenario.twoReferences calm req)) = StatusOK
  /\ DeleteFileMany st1 [calm; broken; calm] req
     = (st1, [fileNotFound; fileNotFound; fileNotFound]).
Proof.
  intros req calm broken st1.
  assert (Hok : code (snd (DeleteFile Scenario.twoReferences calm req)) = StatusOK)
    by (vm_compute; reflexivity).
  split; [exact Hok|].
  exact (proj2 (delete_again_is_not_found Scenario.twoReferences st1 calm req
                  (snd (DeleteFile Scenario.twoReferences calm req))
                  (surjective_pairing _) Hok) [calm; broken; calm]).
Defined.

End DeleteProps.

(** ** Rate limiting *)
Module RateProps.
Import Go Models Middleware.

Section AnyLimiter.
Context `{RateLib}.

(** A request without a principal passes, and no bucket is touched. *)
Lemma RateLimitMiddleware_unauthenticated (rl : RateLimiter) (now : Z) :
  RateLimitMiddleware rl now Missing = (rl, Next []).
Proof. reflexivity. Qed.

(** The principal's bucket decides: an authenticated request is admitted
    exactly when the principal's limiter allows it. *)
Lemma RateLimitMiddleware_user (rl : RateLimiter) (now : Z) (userID : UUID) :
  admitted (snd (RateLimitMiddleware rl now (UserIDValue userID)))
  = fst (Allow now (snd (GetUserLimiter rl now userID))).
Proof.
  unfold RateLimitMiddleware.
  destruct (GetUserLimiter rl now userID) as [rl' lim]. simpl.
  destruct (Allow now lim) as [ok lim']. simpl. destruct ok; reflexivity.
Qed.

(** The organization buckets play no part: the middleware neither reads
    nor writes them. *)
Lemma RateLimitMiddleware_ignores_orgBuckets
    (rl : RateLimiter) (m : gmap UUID TokenBucket) (now : Z) (c : CtxValue) :
  RateLimitMiddleware (withOrgBuckets m rl) now c
  = (withOrgBuckets m (fst (RateLimitMiddleware rl now c)),
     snd (RateLimitMiddleware rl now c)).
Proof.
  unfold RateLimitMiddleware. destruct c as [|userID|]; try reflexivity.
  unfold GetUserLimiter. simpl.
  destruct (userBuckets rl !! userID) as [b|]; simpl;
    match goal with
    | |- context [Allow now ?l] => destruct (Allow now l) as [ok lim']
    end; destruct ok; reflexivity.
Qed.

Lemma RateLimitMiddleware_orgBuckets (rl : RateLimiter) (now : Z) (c : CtxValue) :
  orgBuckets (fst (RateLimitMiddleware rl now c)) = orgBuckets rl.
Proof.
  unfold RateLimitMiddleware. destruct c as [|userID|]; try reflexivity.
  unfold GetUserLimiter. simpl.
  destruct (userBuckets rl !! userID) as [b|]; simpl;
    match goal with
    | |- context [Allow now ?l] => destruct (Allow now l) as [ok lim']
    end; destruct ok; reflexivity.
Qed.

(** Serving any run of authenticated requests leaves the organization
    buckets as they were. *)
Lemma serve_orgBuckets (rl : RateLimiter) (reqs : list Request) :
  orgBuckets (fst (serve rl reqs)) = orgBuckets rl.
Proof.
  revert rl. induction reqs as [|r rest IH]; intros rl; [reflexivity|].
  cbn [serve].
  pose proof (RateLimitMiddleware_orgBuckets rl (at_ r) (UserIDValue (principal r))) as Hone.
  destruct (RateLimitMiddleware rl (at_ r) (UserIDValue (principal r))) as [rl1 o].
  pose proof (IH rl1) as Hrest.
  destruct (serve rl1 rest) as [rl2 os]. simpl in Hone, Hrest |- *.
  rewrite Hrest. exact Hone.
Qed.

End AnyLimiter.

(** C2, on a burst of eleven.  With [RATE_LIMIT_RPS=2] and
    [RATE_LIMIT_BURST=1] an organization bucket holds ten tokens.  Eleven
    principals of one organization send one request each at the same
    instant.  The middleware admits all eleven and has created no
    organization bucket; under the rule of the specification, which takes a
    token from the organization as well, the eleventh is denied. *)
Theorem RateLimitMiddleware_never_asks_the_organization :
  let rl := NewRateLimiter {| RateLimitRPS := 2; RateLimitBurst := 1 |} in
  orgBurst rl = 10
  /\ snd (serve rl Scenario.elevenPrincipals) = List.repeat true 11
  /\ orgBuckets (fst (serve rl Scenario.elevenPrincipals)) = ∅
  /\ snd (serveSpec rl Scenario.elevenPrincipals) = List.repeat true 10 ++ [false].
Proof.
  intros rl. split; [reflexivity|].
  split; [vm_compute; reflexivity|].
  split; [rewrite serve_orgBuckets; reflexivity|].
  vm_compute; reflexivity.
Qed.

End RateProps.

(** ** Permissions and roles, further properties *)
Module PermissionMore.
Import Go Models Repository.

Ltac digit8 o H :=
  let C := fresh "C" in
  assert (C : o = 0 \/ o = 1 \/ o = 2 \/ o = 3 \/ o = 4 \/ o = 5 \/ o = 6 \/ o = 7)
    by (clear - H; lia);
  clear H;
  repeat (destruct C as [C|C]; [subst o|]); [..|subst o].

(** X1.  ParseLinuxPermissions decodes an octal mask.  For octal digits [o], [g],
    [x] the mask [0ogx] yields exactly the bits of [o] as the owner set,
    those of [g] as the group set and those of [x] as the others set, and
    is printed back as the three digits. *)
Theorem ParseLinuxPermissions_decodes_octal
    (o g x : Z) (userID : UUID) (fileOwnerID groupID : option UUID)
    (userGroupIDs : list UUID) :
  0 <= o < 8 -> 0 <= g < 8 -> 0 <= x < 8 ->
  let r := ParseLinuxPermissions (64 * o + 8 * g + x) userID fileOwnerID groupID
             userGroupIDs in
  Owner r = {| Read := Z.testbit o 2; Write := Z.testbit o 1; Execute := Z.testbit o 0 |}
  /\ Group r = {| Read := Z.testbit g 2; Write := Z.testbit g 1; Execute := Z.testbit g 0 |}
  /\ Others r = {| Read := Z.testbit x 2; Write := Z.testbit x 1; Execute := Z.testbit x 0 |}
  /\ Octal r = String (digitChar (Z.to_N o))
                 (String (digitChar (Z.to_N g)) (String (digitChar (Z.to_N x)) EmptyString)).
Proof.
  intros Ho Hg Hx. cbn zeta. unfold ParseLinuxPermissions. cbn [Owner Group Others Octal].
  digit8 o Ho; digit8 g Hg; digit8 x Hx; repeat split; reflexivity.
Qed.

Lemma ParseLinuxPermissions_decodes_octal_witness :
  let r := ParseLinuxPermissions (64 * 6 + 8 * 4 + 0) 1%N (Some 1%N) None [] in
  Owner r = {| Read := true; Write := true; Execute := false |}
  /\ Octal r = "640".
Proof.
  assert (Ho : 0 <= 6 < 8) by lia. assert (Hg : 0 <= 4 < 8) by lia.
  assert (Hx : 0 <= 0 < 8) by lia.
  pose proof (ParseLinuxPermissions_decodes_octal 6 4 0 1%N (Some 1%N) None []
                Ho Hg Hx) as Hthm.
  cbn zeta in Hthm. split; [exact (proj1 Hthm) | exact (proj2 (proj2 (proj2 Hthm)))].
Defined.

Lemma flags_of_digit (d : Z) :
  0 <= d < 8 ->
  Permission_CanRead d = Read (permissionSetOf d)
  /\ Permission_CanWrite d = Write (permissionSetOf d).
Proof. intros Hd. digit8 d Hd; split; reflexivity. Qed.

Lemma decimal_digits (o g x : Z) :
  0 <= o < 8 -> 0 <= g < 8 -> 0 <= x < 8 ->
  GetOwnerPermissions (100 * o + 10 * g + x) = o
  /\ GetGroupPermissions (100 * o + 10 * g + x) = g
  /\ GetOtherPermissions (100 * o + 10 * g + x) = x.
Proof.
  intros Ho Hg Hx. digit8 o Ho; digit8 g Hg; digit8 x Hx; repeat split; reflexivity.
Qed.

Lemma octal_digits (o g x : Z) :
  0 <= o < 8 -> 0 <= g < 8 -> 0 <= x < 8 ->
  Z.land (Z.shiftr (64 * o + 8 * g + x) 6) 7 = o
  /\ Z.land (Z.shiftr (64 * o + 8 * g + x) 3) 7 = g
  /\ Z.land (64 * o + 8 * g + x) 7 = x.
Proof.
  intros Ho Hg Hx. digit8 o Ho; digit8 g Hg; digit8 x Hx; repeat split; reflexivity.
Qed.

(** X2.  The two resolvers agree when each is given its own encoding of the same
    three digits - the listing path the decimal one, the metadata path the
    octal one - except for a member of the primary group whose group digit
    is zero. *)
Theorem resolvers_agree_on_matching_encodings
    (o g x : Z) (userID : UUID) (userGroupIDs : list UUID)
    (fileOwnerID filePrimaryGroupID : option UUID) :
  0 <= o < 8 -> 0 <= g < 8 -> 0 <= x < 8 ->
  ptrIs fileOwnerID userID = true \/ g <> 0
  \/ (forall p, filePrimaryGroupID = Some p -> ~ In p userGroupIDs) ->
  let c := calculateUserFilePermissions userID userGroupIDs fileOwnerID
             filePrimaryGroupID (100 * o + 10 * g + x) in
  let p := ParseLinuxPermissions (64 * o + 8 * g + x) userID fileOwnerID
             filePrimaryGroupID userGroupIDs in
  CanRead c = CanRead p /\ CanWrite c = CanWrite p /\ CanDownload c = CanDownload p
  /\ CanDelete c = CanDelete p /\ CanShare c = CanShare p.
Proof.
  intros Ho Hg Hx Hcase. cbn zeta.
  destruct (decimal_digits o g x Ho Hg Hx) as (Ddo & Ddg & Ddx).
  destruct (octal_digits o g x Ho Hg Hx) as (Doo & Dog & Dox).
  destruct (flags_of_digit o Ho) as [Fro Fwo].
  destruct (flags_of_digit g Hg) as [Frg Fwg].
  destruct (flags_of_digit x Hx) as [Frx Fwx].
  unfold calculateUserFilePermissions, ParseLinuxPermissions, effectivePermissionOf,
    userPermsOf.
  cbn [CanRead CanWrite CanDownload CanDelete CanShare]. cbv zeta.
  rewrite ?Ddo, ?Ddx, ?Doo, ?Dog, ?Dox.
  destruct (ptrIs fileOwnerID userID) eqn:Eown.
  - rewrite Fro, Fwo. repeat split; reflexivity.
  - destruct filePrimaryGroupID as [pg|].
    + destruct (inGroups userGroupIDs pg) eqn:Ein.
      * apply PermissionProps.inGroups_In in Ein.
        rewrite (PermissionProps.groupMatch_In _ _ _ Ein), Ddg.
        destruct Hcase as [Hc | [Hc | Hc]]; [discriminate | | exfalso; exact (Hc pg eq_refl Ein)].
        destruct (Z.eqb_spec g 0) as [E|E]; [contradiction|].
        rewrite Frg, Fwg. repeat split; reflexivity.
      * assert (Hout : ~ In pg userGroupIDs).
        { intros Hin. apply PermissionProps.inGroups_In in Hin. congruence. }
        rewrite (PermissionProps.groupMatch_not_In _ _ _ Hout). simpl.
        rewrite Frx, Fwx. repeat split; reflexivity.
    + simpl. rewrite Frx, Fwx. repeat split; reflexivity.
Qed.

Lemma resolvers_agree_on_matching_encodings_witness :
  CanRead (calculateUserFilePermissions 2%N [7%N] (Some 1%N) (Some 7%N)
             (100 * 6 + 10 * 4 + 0))
  = CanRead (ParseLinuxPermissions (64 * 6 + 8 * 4 + 0) 2%N (Some 1%N) (Some 7%N) [7%N]).
Proof.
  assert (Ho : 0 <= 6 < 8) by lia. assert (Hg : 0 <= 4 < 8) by lia.
  assert (Hx : 0 <= 0 < 8) by lia.
  assert (Hcase : ptrIs (Some 1%N) 2%N = true \/ 4 <> 0
                  \/ (forall p, Some 7%N = Some p -> ~ In p [7%N]))
    by (right; left; discriminate).
  exact (proj1 (resolvers_agree_on_matching_encodings 6 4 0 2%N [7%N] (Some 1%N)
                  (Some 7%N) Ho Hg Hx Hcase)).
Defined.

(** Only membership counts: two lists of group identifiers that agree on
    whether they hold the primary group of the file give the same answer,
    in both resolvers, whatever their order, length or repetitions. *)
Theorem resolvers_see_membership_only
    (userID : UUID) (gs gs' : list UUID)
    (fileOwnerID filePrimaryGroupID : option UUID) (permissions : Z) :
  (forall p, filePrimaryGroupID = Some p -> (In p gs <-> In p gs')) ->
  calculateUserFilePermissions userID gs fileOwnerID filePrimaryGroupID permissions
  = calculateUserFilePermissions userID gs' fileOwnerID filePrimaryGroupID permissions
  /\ ParseLinuxPermissions permissions userID fileOwnerID filePrimaryGroupID gs
     = ParseLinuxPermissions permissions userID fileOwnerID filePrimaryGroupID gs'.
Proof.
  intros Hsame.
  destruct filePrimaryGroupID as [pg|]; [|split; reflexivity].
  specialize (Hsame pg eq_refl).
  assert (Hin : inGroups gs pg = inGroups gs' pg).
  { destruct (inGroups gs pg) eqn:E1, (inGroups gs' pg) eqn:E2; try reflexivity.
    - apply PermissionProps.inGroups_In in E1. apply Hsame in E1.
      apply PermissionProps.inGroups_In in E1. congruence.
    - apply PermissionProps.inGroups_In in E2. apply Hsame in E2.
      apply PermissionProps.inGroups_In in E2. congruence. }
  assert (Hgm : groupMatch gs pg permissions = groupMatch gs' pg permissions).
  { destruct (inGroups gs pg) eqn:E1.
    - symmetry in Hin.
      apply PermissionProps.inGroups_In in E1. apply PermissionProps.inGroups_In in Hin.
      rewrite !PermissionProps.groupMatch_In by assumption. reflexivity.
    - symmetry in Hin.
      rewrite !PermissionProps.groupMatch_not_In; [reflexivity| |].
      + intros Hc. apply PermissionProps.inGroups_In in Hc. congruence.
      + intros Hc. apply PermissionProps.inGroups_In in Hc. congruence. }
  split.
  - unfold calculateUserFilePermissions, effectivePermissionOf. rewrite Hgm. reflexivity.
  - unfold ParseLinuxPermissions, userPermsOf. rewrite Hin. reflexivity.
Qed.

Lemma resolvers_see_membership_only_witness :
  calculateUserFilePermissions 2%N [7%N; 3%N; 7%N] (Some 1%N) (Some 7%N) 640
  = calculateUserFilePermissions 2%N [3%N; 7%N] (Some 1%N) (Some 7%N) 640.
Proof.
  refine (proj1 (resolvers_see_membership_only 2%N [7%N; 3%N; 7%N] [3%N; 7%N]
                   (Some 1%N) (Some 7%N) 640 _)).
  intros p Hp. inversion Hp; subst p. simpl. tauto.
Defined.

End PermissionMore.

Module RoleProps.
Import Roles.

Ltac role_cases r :=
  destruct (String.eqb_spec r RoleAdmin) as [?|?];
  [subst r|
   destruct (String.eqb_spec r RoleMember) as [?|?];
   [subst r|
    destruct (String.eqb_spec r RoleViewer) as [?|?]; [subst r|]]].

Lemma roleLevels_unknown (r : UserRole) :
  r <> RoleAdmin -> r <> RoleMember -> r <> RoleViewer -> roleLevels r = None.
Proof.
  intros Ha Hm Hv. unfold roleLevels.
  destruct (String.eqb_spec r RoleAdmin); [contradiction|].
  destruct (String.eqb_spec r RoleMember); [contradiction|].
  destruct (String.eqb_spec r RoleViewer); [contradiction|]. reflexivity.
Qed.

Lemma IsValid_unknown (r : UserRole) :
  r <> RoleAdmin -> r <> RoleMember -> r <> RoleViewer -> IsValid r = false.
Proof.
  intros Ha Hm Hv. unfold IsValid.
  destruct (String.eqb_spec r RoleAdmin); [contradiction|].
  destruct (String.eqb_spec r RoleMember); [contradiction|].
  destruct (String.eqb_spec r RoleViewer); [contradiction|]. reflexivity.
Qed.

Lemma HasPermission_unknown_l (r q : UserRole) :
  r <> RoleAdmin -> r <> RoleMember -> r <> RoleViewer -> HasPermission r q = false.
Proof.
  intros Ha Hm Hv. unfold HasPermission. rewrite roleLevels_unknown by assumption.
  reflexivity.
Qed.

Lemma HasPermission_unknown_r (r q : UserRole) :
  q <> RoleAdmin -> q <> RoleMember -> q <> RoleViewer -> HasPermission r q = false.
Proof.
  intros Ha Hm Hv. unfold HasPermission. rewrite (roleLevels_unknown q) by assumption.
  destruct (roleLevels r); reflexivity.
Qed.

Lemma HasPermission_refl_iff_valid (r : UserRole) : HasPermission r r = IsValid r.
Proof.
  role_cases r; try reflexivity.
  rewrite HasPermission_unknown_l, IsValid_unknown by assumption. reflexivity.
Qed.

Lemma HasPermission_trans (r q s : UserRole) :
  HasPermission r q = true -> HasPermission q s = true -> HasPermission r s = true.
Proof.
  role_cases r; [| | |rewrite HasPermission_unknown_l by assumption; discriminate];
    (role_cases q; [| | |rewrite HasPermission_unknown_r by assumption; discriminate]);
    (role_cases s; [| | |rewrite (HasPermission_unknown_r _ s) by assumption; discriminate]);
    vm_compute; congruence.
Qed.

Lemma HasPermission_viewer (r : UserRole) : HasPermission r RoleViewer = IsValid r.
Proof.
  role_cases r; try reflexivity.
  rewrite HasPermission_unknown_l, IsValid_unknown by assumption. reflexivity.
Qed.

(** X3.  The role predicates are one hierarchy.  For every role string:
    HasPermission is reflexive exactly on the valid roles, it is transitive
    and antisymmetric, and the three named capabilities are HasPermission
    against ADMIN, MEMBER and VIEWER. *)
Theorem roles_form_one_hierarchy (r q s : UserRole) :
  HasPermission r r = IsValid r
  /\ (HasPermission r q = true -> HasPermission q s = true -> HasPermission r s = true)
  /\ (HasPermission r q = true -> HasPermission q r = true -> r = q)
  /\ CanManageOrganization r = HasPermission r RoleAdmin
  /\ CanUploadFiles r = HasPermission r RoleMember
  /\ CanViewFiles r = HasPermission r RoleViewer.
Proof.
  split; [apply HasPermission_refl_iff_valid|].
  split; [apply HasPermission_trans|].
  split; [|split; [|split]].
  - role_cases r; [| | |rewrite HasPermission_unknown_l by assumption; discriminate];
      (role_cases q; [| | |rewrite HasPermission_unknown_r by assumption; discriminate]);
      vm_compute; congruence.
  - role_cases r; try reflexivity.
    rewrite HasPermission_unknown_l by assumption. unfold CanManageOrganization.
    destruct (String.eqb_spec r RoleAdmin); [contradiction | reflexivity].
  - role_cases r; try reflexivity.
    rewrite HasPermission_unknown_l by assumption. unfold CanUploadFiles.
    destruct (String.eqb_spec r RoleAdmin); [contradiction|].
    destruct (String.eqb_spec r RoleMember); [contradiction | reflexivity].
  - rewrite HasPermission_viewer. reflexivity.
Qed.

(** X4.  The role gates are nested: whoever passes RequireAdmin passes
    RequireMember, whoever passes RequireMember passes RequireViewer, and
    RequireViewer passes exactly the authenticated contexts with a valid
    role; an unauthenticated context gets 401, never 403. *)
Theorem role_gates_are_nested (c : AuthValue) :
  (RequireAdmin c = Pass -> RequireMember c = Pass)
  /\ (RequireMember c = Pass -> RequireViewer c = Pass)
  /\ (RequireViewer c = Pass <->
      exists a, c = Auth a /\ IsAuthenticated a = true /\ IsValid (Role a) = true)
  /\ (forall required a,
        c = Auth a -> IsAuthenticated a = false ->
        RequireRole required c = Refuse 401 "Authentication required").
Proof.
  assert (Hpass : forall required,
             RequireRole required c = Pass <->
             exists a, c = Auth a /\ IsAuthenticated a = true
                       /\ HasPermission (Role a) required = true).
  { intros required. unfold RequireRole. destruct c as [| |a].
    - split; [discriminate | intros (a & Ha & _); discriminate].
    - split; [discriminate | intros (a & Ha & _); discriminate].
    - destruct (IsAuthenticated a) eqn:Ea; simpl.
      + destruct (HasPermission (Role a) required) eqn:Ep; simpl.
        * split; [intros _; exists a; auto | reflexivity].
        * split; [discriminate|]. intros (a' & Ha' & _ & Hp).
          inversion Ha'; subst a'. congruence.
      + split; [discriminate|]. intros (a' & Ha' & Hauth & _).
        inversion Ha'; subst a'. congruence. }
  split; [|split; [|split]].
  - unfold RequireAdmin, RequireMember. rewrite !Hpass.
    intros (a & Ha & Hauth & Hp). exists a. split; [exact Ha|]. split; [exact Hauth|].
    exact (HasPermission_trans _ RoleAdmin RoleMember Hp eq_refl).
  - unfold RequireMember, RequireViewer. rewrite !Hpass.
    intros (a & Ha & Hauth & Hp). exists a. split; [exact Ha|]. split; [exact Hauth|].
    exact (HasPermission_trans _ RoleMember RoleViewer Hp eq_refl).
  - unfold RequireViewer. rewrite Hpass.
    split; intros (a & Ha & Hauth & Hp); exists a; (split; [exact Ha|]);
      (split; [exact Hauth|]).
    + rewrite <- HasPermission_viewer. exact Hp.
    + rewrite HasPermission_viewer. exact Hp.
  - intros required a -> Hauth. unfold RequireRole. rewrite Hauth. reflexivity.
Qed.

End RoleProps.

(** ** Content validation, further properties *)
Module ValidationMore.
Import Go Models Repository Services ServicesMore StatementsMore.

Lemma verdictOf_addWarning msg r : verdictOf (addWarning msg r) = verdictOf r.
Proof. reflexivity. Qed.

Lemma verdictOf_setDetectedMimeType m r : verdictOf (setDetectedMimeType m r) = verdictOf r.
Proof. reflexivity. Qed.

Lemma verdictOf_addError msg r r' :
  verdictOf r = verdictOf r' -> verdictOf (addError msg r) = verdictOf (addError msg r').
Proof. unfold verdictOf. simpl. intros Heq. inversion Heq. reflexivity. Qed.

Lemma verdictOf_guarded_error (b : bool) msg r r' :
  verdictOf r = verdictOf r' ->
  verdictOf (if b then addError msg r else r)
  = verdictOf (if b then addError msg r' else r').
Proof. intros Heq. destruct b; [apply verdictOf_addError|]; exact Heq. Qed.

Lemma verdictOf_warnEach prefix patterns text r :
  verdictOf (warnEach prefix patterns text r) = verdictOf r.
Proof.
  revert r. induction patterns as [|d patterns IH]; intros r; simpl; [reflexivity|].
  rewrite IH. destruct (Contains text d); reflexivity.
Qed.

Lemma verdictOf_checkDangerousChars chars filename r r' :
  verdictOf r = verdictOf r' ->
  verdictOf (checkDangerousChars chars filename r)
  = verdictOf (checkDangerousChars chars filename r').
Proof.
  revert r r'. induction chars as [|d chars IH]; intros r r' Heq; simpl; [exact Heq|].
  apply IH. destruct (Contains filename d); [apply verdictOf_addError|]; exact Heq.
Qed.

Lemma verdictOf_validateFileSize size r r' :
  verdictOf r = verdictOf r' ->
  verdictOf (validateFileSize size r) = verdictOf (validateFileSize size r').
Proof.
  intros Heq. unfold validateFileSize.
  destruct (size =? 0), (size >? MaxFileSize);
    repeat apply verdictOf_addError; exact Heq.
Qed.

Section Verdict.
Context `{Lib}.

Lemma verdictOf_validateFilename filename r r' :
  verdictOf r = verdictOf r' ->
  verdictOf (validateFilename filename r) = verdictOf (validateFilename filename r').
Proof.
  intros Heq. unfold validateFilename.
  destruct (String.eqb (TrimSpace filename) EmptyString);
    [apply verdictOf_addError; exact Heq|].
  cbv zeta. do 2 apply verdictOf_guarded_error.
  apply verdictOf_checkDangerousChars, Heq.
Qed.

Lemma verdictOf_validateMimeTypeConsistency declared detected r :
  verdictOf (validateMimeTypeConsistency declared detected r) = verdictOf r.
Proof.
  unfold validateMimeTypeConsistency.
  repeat match goal with
         | |- context [if ?b then _ else _] => destruct b
         end; reflexivity.
Qed.

Lemma verdictOf_validateFileSignature content detected r :
  verdictOf (validateFileSignature content detected r) = verdictOf r.
Proof.
  unfold validateFileSignature.
  repeat match goal with
         | |- context [if ?b then _ else _] => destruct b
         end; reflexivity.
Qed.

Lemma verdictOf_checkMaliciousContent filename content r r' :
  verdictOf r = verdictOf r' ->
  verdictOf (checkMaliciousContent filename content r)
  = verdictOf (checkMaliciousContent filename content r').
Proof.
  intros Heq. unfold checkMaliciousContent. cbv zeta.
  destruct (isTextContent content); rewrite ?verdictOf_warnEach;
    (destruct (len content >? 2);
     [do 3 apply verdictOf_guarded_error|]; rewrite ?verdictOf_warnEach; exact Heq).
Qed.

Lemma verdictOf_validateFileExtension filename r r' :
  verdictOf r = verdictOf r' ->
  verdictOf (validateFileExtension filename r)
  = verdictOf (validateFileExtension filename r').
Proof.
  intros Heq. unfold validateFileExtension.
  repeat match goal with
         | |- context [if ?b then _ else _] => destruct b
         end;
    rewrite ?verdictOf_addWarning; try apply verdictOf_addError; exact Heq.
Qed.

(** X5.  Acceptance does not look at MIME types.  Whether ValidateFile accepts a
    file, and with which errors, is the same for every declared type and
    for every outcome of type detection; so are the fingerprint and the
    size.  Declared and detected types only produce warnings. *)
Theorem validation_verdict_ignores_mime_types
    (S1 S2 : Sniffer) (filename declared1 declared2 : string) (content : Reader) :
  let r1 := fst (ValidateFile (H0 := S1) filename declared1 content) in
  let r2 := fst (ValidateFile (H0 := S2) filename declared2 content) in
  IsValid r1 = IsValid r2 /\ Errors r1 = Errors r2
  /\ FVR_ContentHash r1 = FVR_ContentHash r2 /\ FileSize r1 = FileSize r2.
Proof.
  cbn zeta.
  assert (Hv : verdictOf (fst (ValidateFile (H0 := S1) filename declared1 content))
               = verdictOf (fst (ValidateFile (H0 := S2) filename declared2 content))).
  { unfold ValidateFile. destruct (ioCopy content) as [[bs e] rest].
    destruct e as [msg|]; [reflexivity|]. simpl.
    rewrite !verdictOf_validateFileSignature.
    apply verdictOf_validateFileExtension, verdictOf_checkMaliciousContent.
    rewrite !verdictOf_validateMimeTypeConsistency, !verdictOf_setDetectedMimeType.
    reflexivity. }
  pose proof (UploadProps.ValidateFile_digest (H0 := S1) filename declared1 content) as D1.
  pose proof (UploadProps.ValidateFile_digest (H0 := S2) filename declared2 content) as D2.
  unfold verdictOf in Hv. injection Hv as Hvalid Herrors.
  split; [exact Hvalid|]. split; [exact Herrors|].
  destruct (ioCopy content) as [[bs e] rest] eqn:Ecopy. destruct e as [msg|].
  - unfold ValidateFile. rewrite Ecopy. split; reflexivity.
  - unfold digestOf in D1, D2. inversion D1. inversion D2. split; congruence.
Qed.

End Verdict.

(** *** Executables and dangerous extensions *)

Lemma HasPrefix_substring (s pre : string) :
  HasPrefix s pre = true ->
  String.substring 0 (String.length pre) s = pre
  /\ (String.length pre <= String.length s)%nat.
Proof.
  revert s. induction pre as [|p pre IH]; intros s Hp.
  - destruct s; simpl; split; try reflexivity; lia.
  - destruct s as [|c s]; simpl in Hp; [discriminate|].
    destruct (Ascii.eqb c p) eqn:E; [|discriminate].
    apply Ascii.eqb_eq in E. subst c.
    destruct (IH s Hp) as [Hsub Hlen]. simpl. rewrite Hsub. split; [reflexivity | lia].
Qed.

Lemma magic_at_start (bs magic : string) :
  String.length magic = 4%nat ->
  HasPrefix bs magic = true ->
  (len bs >? 2) = true
  /\ ((len bs >=? 4) && String.eqb (String.substring 0 4 bs) magic) = true.
Proof.
  intros Hfour Hp. destruct (HasPrefix_substring bs magic Hp) as [Hsub Hlen].
  rewrite Hfour in Hsub, Hlen. rewrite Hsub, String.eqb_refl. unfold len. split.
  - apply Z.gtb_lt. lia.
  - apply andb_true_iff. split; [|reflexivity]. apply Z.geb_le. lia.
Qed.

Section Executables.
Context `{Lib}.

Lemma checkMaliciousContent_rejects filename content r :
  executableMagic content ->
  IsValid (checkMaliciousContent filename content r) = false.
Proof.
  intros Hexe. unfold checkMaliciousContent. cbv zeta.
  set (r0 := warnEach "Suspicious filename pattern detected: " suspiciousPatterns
               (ToLower filename) r).
  assert (Hgate : (len content >? 2) = true
          /\ (Contains content "MZ" && Contains content peMarker
              || (len content >=? 4) && String.eqb (String.substring 0 4 content) elfMagic
              || (len content >=? 4)
                 && (String.eqb (String.substring 0 4 content) machO32Magic
                     || String.eqb (String.substring 0 4 content) machO64Magic)) = true).
  { destruct Hexe as [He | [Hm | [Hm | (Hlen & Hmz & Hpe)]]].
    - destruct (magic_at_start content elfMagic eq_refl He) as [Hgt Hc].
      split; [exact Hgt|]. rewrite Hc. rewrite orb_true_r. reflexivity.
    - destruct (magic_at_start content machO32Magic eq_refl Hm) as [Hgt Hc].
      split; [exact Hgt|]. apply andb_true_iff in Hc. destruct Hc as [Hc1 Hc2].
      rewrite Hc1, Hc2. rewrite !orb_true_r. reflexivity.
    - destruct (magic_at_start content machO64Magic eq_refl Hm) as [Hgt Hc].
      split; [exact Hgt|]. apply andb_true_iff in Hc. destruct Hc as [Hc1 Hc2].
      rewrite Hc1, Hc2. rewrite !orb_true_r. reflexivity.
    - split; [apply Z.gtb_lt; lia|]. rewrite Hmz, Hpe. reflexivity. }
  destruct Hgate as [Hgt Hany]. rewrite Hgt.
  change ("PE" +:+ bytes [0%N; 0%N]) with peMarker.
  change (bytes [127%N] +:+ "ELF") with elfMagic.
  change (bytes [254%N; 237%N; 250%N; 206%N]) with machO32Magic.
  change (bytes [254%N; 237%N; 250%N; 207%N]) with machO64Magic.
  destruct (Contains content "MZ" && Contains content peMarker);
    destruct ((len content >=? 4) && String.eqb (String.substring 0 4 content) elfMagic);
    destruct ((len content >=? 4)
              && (String.eqb (String.substring 0 4 content) machO32Magic
                  || String.eqb (String.substring 0 4 content) machO64Magic));
    try discriminate Hany;
    (destruct (isTextContent content);
     [apply ValidationProps.keeps_warnEach; reflexivity | reflexivity]).
Qed.

Lemma validateFileExtension_rejects filename r :
  In (ToLower (Ext filename)) dangerousExts ->
  IsValid (validateFileExtension filename r) = false.
Proof.
  intros Hin. unfold validateFileExtension. cbv zeta.
  assert (Hex : existsb (String.eqb (ToLower (Ext filename))) dangerousExts = true).
  { apply existsb_exists. exists (ToLower (Ext filename)).
    split; [exact Hin | apply String.eqb_refl]. }
  rewrite Hex. reflexivity.
Qed.

Context `{Sniffer} `{StorageInterface}.

Lemma ValidateFile_rejects_executable filename declared content :
  executableMagic (contentBytes content) ->
  IsValid (fst (ValidateFile filename declared content)) = false.
Proof.
  intros Hexe. unfold ValidateFile, contentBytes in *.
  destruct (ioCopy content) as [[bs e] rest]. simpl in Hexe.
  destruct e as [msg|]; [reflexivity|]. simpl.
  apply ValidationProps.keeps_validateFileSignature.
  apply ValidationProps.keeps_validateFileExtension.
  apply checkMaliciousContent_rejects. exact Hexe.
Qed.

Lemma ValidateFile_rejects_extension filename declared content :
  In (ToLower (Ext filename)) dangerousExts ->
  IsValid (fst (ValidateFile filename declared content)) = false.
Proof.
  intros Hext. unfold ValidateFile.
  destruct (ioCopy content) as [[bs e] rest].
  destruct e as [msg|]; [reflexivity|]. simpl.
  apply ValidationProps.keeps_validateFileSignature.
  apply validateFileExtension_rejects. exact Hext.
Qed.

(** A capacity of 100 or more rules the panic out; so does a content that
    does not start like markup. *)
Lemma ValidateFile_panics_needs_small_buffer (capacity : Z) (content : Reader) :
  ValidateFile_panics capacity content = true ->
  capacity < 100 /\ looksLikeMarkup (contentBytes content) = true.
Proof.
  unfold ValidateFile_panics, contentBytes, detectMimeTypeByContent_panics.
  destruct (ioCopy content) as [[bs e] rest]. cbn [fst].
  destruct e as [msg|]; [discriminate|].
  intros Hp. apply andb_true_iff in Hp. destruct Hp as [Hp Hcap].
  apply andb_true_iff in Hp. destruct Hp as [_ Hmarkup].
  apply Z.ltb_lt in Hcap. split; assumption.
Qed.

(** X6.  Executables and dangerous names are never stored.  Take a content
    that carries an executable signature - the ELF or a Mach-O magic number
    at its start, or the bytes MZ and PE\0\0 anywhere in a content of more
    than two bytes - or a filename whose extension, lower-cased, is on the
    list of dangerous extensions.  When the MIME detection panics (a
    content that starts like markup, in a buffer of capacity below 100),
    UploadFile panics with it; otherwise ValidateFile rejects the file and
    UploadFile returns an error.  Either way no row and no object is
    written. *)
Theorem dangerous_uploads_are_never_stored
    (capacity : Z) (w : World) (env : UploadEnv) (req : UploadFileRequest) :
  executableMagic (contentBytes (reqContent req))
  \/ In (ToLower (Ext (reqFilename req))) dangerousExts ->
  if ValidateFile_panics capacity (reqContent req)
  then
    ValidateFile_run capacity (reqFilename req) (reqMimeType req) (reqContent req) = Panic
    /\ UploadFile_run capacity w env req = (w, Panic)
  else
    (exists validation rest,
        ValidateFile_run capacity (reqFilename req) (reqMimeType req) (reqContent req)
        = Ok (validation, rest)
        /\ IsValid validation = false)
    /\ exists msg, UploadFile_run capacity w env req = (w, Err msg).
Proof.
  intros Hbad. unfold UploadFile_run, ValidateFile_run.
  destruct (ValidateFile_panics capacity (reqContent req)); [split; reflexivity|].
  assert (Hinvalid :
    IsValid (fst (ValidateFile (reqFilename req) (reqMimeType req) (reqContent req)))
    = false).
  { destruct Hbad as [Hexe | Hext].
    - apply ValidateFile_rejects_executable. exact Hexe.
    - apply ValidateFile_rejects_extension. exact Hext. }
  split.
  - exists (fst (ValidateFile (reqFilename req) (reqMimeType req) (reqContent req))),
      (snd (ValidateFile (reqFilename req) (reqMimeType req) (reqContent req))).
    split; [rewrite <- surjective_pairing; reflexivity | exact Hinvalid].
  - apply ValidationProps.UploadFile_rejected. exact Hinvalid.
Qed.

End Executables.

(** The two outcomes on one request: the installer [a.exe] with the content
    [<html>x], once in a buffer of capacity 64 and once in one of 512; and a
    program that starts with the ELF magic, which is no markup. *)
Lemma dangerous_uploads_are_never_stored_witness :
  let installer := ScenarioMore.uploadOf 1%N "a.exe" "<html>x" in
  let program := ScenarioMore.uploadOf 1%N "tool.bin" (elfMagic +:+ "payload") in
  let w := Scenario.emptyWorld in
  let env := Scenario.draws 100%N 200%N in
  In (ToLower (Lib := Instances.asciiLib) (Ext (reqFilename installer))) dangerousExts
  /\ executableMagic (contentBytes (reqContent program))
  /\ UploadFile_run (H := Instances.asciiLib) (H0 := Instances.plainSniffer)
       (H1 := LocalStorageService) 64 w env installer = (w, Panic)
  /\ (exists msg,
        UploadFile_run (H := Instances.asciiLib) (H0 := Instances.plainSniffer)
          (H1 := LocalStorageService) 512 w env installer = (w, Err msg))
  /\ (exists msg,
        UploadFile_run (H := Instances.asciiLib) (H0 := Instances.plainSniffer)
          (H1 := LocalStorageService) 64 w env program = (w, Err msg)).
Proof.
  intros installer program w env.
  assert (Hext : In (ToLower (Lib := Instances.asciiLib) (Ext (reqFilename installer)))
                   dangerousExts) by (left; reflexivity).
  assert (Hexe : executableMagic (contentBytes (reqContent program)))
    by (left; reflexivity).
  split; [exact Hext|]. split; [exact Hexe|]. split; [|split].
  - exact (proj2 (dangerous_uploads_are_never_stored (H := Instances.asciiLib)
                    (H0 := Instances.plainSniffer) (H1 := LocalStorageService)
                    64 w env installer (or_intror Hext))).
  - exact (proj2 (dangerous_uploads_are_never_stored (H := Instances.asciiLib)
                    (H0 := Instances.plainSniffer) (H1 := LocalStorageService)
                    512 w env installer (or_intror Hext))).
  - exact (proj2 (dangerous_uploads_are_never_stored (H := Instances.asciiLib)
                    (H0 := Instances.plainSniffer) (H1 := LocalStorageService)
                    64 w env program (or_introl Hexe))).
Defined.

(** *** The text test *)

Lemma countNonPrintable_app (n : nat) (a b : string) :
  String.length a = n -> countNonPrintable n (a +:+ b) = countNonPrintable n a.
Proof.
  revert a. induction n as [|n IH]; intros a Hlen.
  - destruct a; [|discriminate]. destruct b; reflexivity.
  - destruct a as [|c a]; [discriminate|]. simpl. rewrite IH; [reflexivity|].
    simpl in Hlen. lia.
Qed.

(** isTextContent looks at the first 512 bytes only: two contents with the
    same first 512 bytes are both text or both not, so the scan for script
    fragments is switched on or off by those bytes alone. *)
Theorem isTextContent_reads_512_bytes (a b b' : string) :
  String.length a = 512%nat ->
  isTextContent (a +:+ b) = isTextContent (a +:+ b').
Proof.
  intros Hlen.
  assert (Hshape : forall t, isTextContent (a +:+ t)
                             = (10 * countNonPrintable 512 a <? 3 * 512)).
  { intros t. unfold isTextContent. cbv zeta.
    assert (Hl : 512 <= len (a +:+ t)).
    { unfold len. rewrite ScanProps.length_append. lia. }
    replace (len (a +:+ t) =? 0) with false by (symmetry; apply Z.eqb_neq; lia).
    replace (len (a +:+ t) <? 512) with false by (symmetry; apply Z.ltb_ge; lia).
    change (Z.to_nat 512) with 512%nat.
    rewrite (countNonPrintable_app 512 a t Hlen). reflexivity. }
  rewrite !Hshape. reflexivity.
Qed.

Lemma isTextContent_reads_512_bytes_witness :
  let a := ScenarioMore.filler 512 "a"%char in
  String.length a = 512%nat
  /\ isTextContent (a +:+ "<script") = isTextContent (a +:+ bytes [0%N; 1%N; 2%N]).
Proof.
  intros a.
  assert (Hlen : String.length a = 512%nat) by (vm_compute; reflexivity).
  split; [exact Hlen|].
  exact (isTextContent_reads_512_bytes a "<script" (bytes [0%N; 1%N; 2%N]) Hlen).
Defined.

End ValidationMore.

(** ** The virus scan, further properties *)
Module ScanMore.
Import Go Models Services ServicesMore StatementsMore.

Lemma append_empty_r (s : string) : s +:+ EmptyString = s.
Proof.
  induction s as [|c s IH]; [reflexivity|].
  change (String c (s +:+ EmptyString) = String c s). rewrite IH. reflexivity.
Qed.

Lemma append_assoc (a b c : string) : (a +:+ b) +:+ c = a +:+ (b +:+ c).
Proof.
  induction a as [|x a IH]; [reflexivity|].
  change (String x ((a +:+ b) +:+ c) = String x (a +:+ (b +:+ c))).
  rewrite IH. reflexivity.
Qed.

Lemma without_cons (c x : ascii) (s : string) :
  without c (String x s) -> x <> c /\ without c s.
Proof.
  unfold without. simpl. intros Hnot. split.
  - intros Heq. apply Hnot. left. exact Heq.
  - intros Hin. apply Hnot. right. exact Hin.
Qed.

(** Splitting runs over bytes that differ from the first byte of the
    separator. *)
Lemma splitFrom_skip (sep0 : ascii) (sep' a s cur : string) :
  without sep0 a ->
  splitFrom (String sep0 sep') (a +:+ s) 0 cur
  = splitFrom (String sep0 sep') s 0 (cur +:+ a).
Proof.
  revert cur. induction a as [|c a IH]; intros cur Hw.
  - rewrite append_empty_r. reflexivity.
  - apply without_cons in Hw. destruct Hw as [Hc Hw].
    change (String c a +:+ s) with (String c (a +:+ s)).
    cbn [splitFrom HasPrefix].
    destruct (Ascii.eqb c sep0) eqn:E; [apply Ascii.eqb_eq in E; contradiction|].
    rewrite (IH _ Hw). rewrite append_assoc. reflexivity.
Qed.

(** The first piece of a split extends the piece being collected. *)
Lemma splitFrom_head (sep s : string) (skip : nat) (cur : string) :
  exists t l, splitFrom sep s skip cur = (cur +:+ t) :: l.
Proof.
  revert skip cur. induction s as [|c s IH]; intros skip cur.
  - exists EmptyString, []. simpl. rewrite append_empty_r. reflexivity.
  - destruct skip as [|k]; cbn [splitFrom].
    + destruct (HasPrefix (String c s) sep).
      * exists EmptyString. eexists. rewrite append_empty_r. reflexivity.
      * destruct (IH 0%nat (cur +:+ String c EmptyString)) as (t & l & Heq).
        exists (String c t), l. rewrite Heq, append_assoc. reflexivity.
    + apply IH.
Qed.

(** X7.  The reply [<id>: <name> FOUND...] of the daemon is read as an infection
    by [name], when [id] holds no colon and [name] neither a colon nor a
    blank. *)
Theorem parseResponse_extracts_the_threat_name
    (id name rest : string) (r : VirusScanResult) :
  without ":"%char id -> without ":"%char name -> without " "%char name ->
  let reply := id +:+ ": " +:+ name +:+ " FOUND" +:+ rest in
  Clean (parseResponse reply r) = false
  /\ Status (parseResponse reply r) = "infected"
  /\ ThreatName (parseResponse reply r) = name.
Proof.
  intros Hid Hcolon Hblank reply.
  assert (Hfound : Contains reply "FOUND" = true).
  { unfold reply.
    replace (id +:+ ": " +:+ name +:+ " FOUND" +:+ rest)
      with ((id +:+ ": " +:+ name +:+ " ") +:+ "FOUND" +:+ rest)
      by (rewrite !append_assoc; reflexivity).
    apply ValidationProps.Contains_app. }
  assert (Hsplit : exists t l, Split reply ": " = id :: (name +:+ " " +:+ t) :: l).
  { unfold Split, reply.
    rewrite (splitFrom_skip ":"%char " " id _ EmptyString Hid).
    change (EmptyString +:+ id) with id.
    change (": " +:+ name +:+ " FOUND" +:+ rest)
      with (String ":"%char (String " "%char (name +:+ " FOUND" +:+ rest))).
    cbn [splitFrom HasPrefix String.length Nat.sub]. rewrite !Ascii.eqb_refl.
    cbn [splitFrom HasPrefix String.length Nat.sub].
    rewrite (splitFrom_skip ":"%char " " name _ EmptyString Hcolon).
    change (EmptyString +:+ name) with name.
    change (" FOUND" +:+ rest) with (String " "%char ("FOUND" +:+ rest)).
    cbn [splitFrom HasPrefix]. change (Ascii.eqb " " ":") with false. cbv iota.
    destruct (splitFrom_head ": " ("FOUND" +:+ rest) 0 (name +:+ " ")) as (t & l & Heq).
    exists t, l. rewrite Heq, append_assoc. reflexivity. }
  destruct Hsplit as (t & l & Hsplit).
  assert (Hname : exists l', Split (name +:+ " " +:+ t) " " = name :: l').
  { unfold Split.
    rewrite (splitFrom_skip " "%char EmptyString name _ EmptyString Hblank).
    change (EmptyString +:+ name) with name.
    change (" " +:+ t) with (String " "%char t).
    cbn [splitFrom HasPrefix]. rewrite Ascii.eqb_refl. eexists. reflexivity. }
  destruct Hname as (l' & Hname).
  unfold parseResponse. rewrite Hfound, Hsplit, Hname. repeat split; reflexivity.
Qed.

Lemma parseResponse_extracts_the_threat_name_witness :
  let r := newScanResult 0 in
  without ":"%char "stream" /\ without ":"%char "Eicar-Test-Signature"
  /\ without " "%char "Eicar-Test-Signature"
  /\ ThreatName (parseResponse ("stream: Eicar-Test-Signature FOUND" +:+ bytes [10%N]) r)
     = "Eicar-Test-Signature".
Proof.
  intros r.
  assert (Hid : without ":"%char "stream")
    by (unfold without; simpl; intros Hin; repeat destruct Hin as [Hin|Hin];
        try discriminate Hin; exact Hin).
  assert (Hcolon : without ":"%char "Eicar-Test-Signature")
    by (unfold without; simpl; intros Hin; repeat destruct Hin as [Hin|Hin];
        try discriminate Hin; exact Hin).
  assert (Hblank : without " "%char "Eicar-Test-Signature")
    by (unfold without; simpl; intros Hin; repeat destruct Hin as [Hin|Hin];
        try discriminate Hin; exact Hin).
  split; [exact Hid|]. split; [exact Hcolon|]. split; [exact Hblank|].
  exact (proj2 (proj2 (parseResponse_extracts_the_threat_name "stream"
                         "Eicar-Test-Signature" (bytes [10%N]) r Hid Hcolon Hblank))).
Defined.

(** The scan calls a content infected in one case only. *)
Lemma scanForViruses_infected (s : FileValidationService) (net : ClamAV) (now : Z)
    (content : Reader) :
  let '(_, scanResult, e) := scanForViruses s net now content in
  (e = None /\ Clean scanResult = false)
  <-> (virusScanningEnabled s = true /\ dialErr net = None
       /\ commandWriteErr net = None /\ snd (streamChunks content) = None
       /\ exists reply, response net = inl reply /\ Contains reply "FOUND" = true).
Proof.
  unfold scanForViruses.
  destruct (virusScanningEnabled s); simpl.
  2:{ split; [intros [_ Hc]; discriminate | intros [Hc _]; discriminate]. }
  destruct (dialErr net) as [e|].
  { split; [intros [Hc _]; discriminate | intros (_ & Hc & _); discriminate]. }
  destruct (commandWriteErr net) as [e|].
  { split; [intros [Hc _]; discriminate | intros (_ & _ & Hc & _); discriminate]. }
  destruct (streamChunks content) as [sent re]. destruct re as [e|]; simpl.
  { split; [intros [Hc _]; discriminate | intros (_ & _ & _ & Hc & _); discriminate]. }
  destruct (response net) as [reply|e].
  - unfold parseResponse. destruct (Contains reply "FOUND") eqn:Ef.
    + split; [|intros _; split; reflexivity].
      intros _. repeat split; try reflexivity. exists reply. split; [reflexivity | exact Ef].
    + split.
      * intros [_ Hc]. destruct (Contains reply "OK"); discriminate.
      * intros (_ & _ & _ & _ & reply' & Hr & Hf). inversion Hr; subst. congruence.
  - split; [intros [Hc _]; discriminate|].
    intros (_ & _ & _ & _ & reply' & Hr & _). discriminate.
Qed.

Section FailOpen.
Context `{Lib} `{Sniffer}.

(** X8.  ValidateFileWithVirusScan fails open.  It rejects a file exactly when
    ValidateFile rejects it, or when the scan ran to its end and the reply
    of the daemon contains FOUND.  A scanner that is switched off, cannot
    be reached, fails while the content is streamed, fails to answer, or
    answers anything else leaves the verdict of ValidateFile as it is. *)
Theorem virus_scan_fails_open
    (s : FileValidationService) (net : ClamAV) (now : Z)
    (filename declared : string) (content : Reader) (seeker : bool) :
  let validation := ValidateFile filename declared content in
  let scanned := if seeker then content else snd validation in
  let result := fst (fst (ValidateFileWithVirusScan s net now filename declared
                            content seeker)) in
  IsValid result = false
  <-> IsValid (fst validation) = false
      \/ (virusScanningEnabled s = true /\ dialErr net = None
          /\ commandWriteErr net = None /\ snd (streamChunks scanned) = None
          /\ exists reply, response net = inl reply /\ Contains reply "FOUND" = true).
Proof.
  cbv zeta. unfold ValidateFileWithVirusScan.
  destruct (ValidateFile filename declared content) as [result drained]. simpl.
  destruct (IsValid result) eqn:Evalid.
  2:{ rewrite andb_false_r. simpl. rewrite Evalid. split; [left; reflexivity | reflexivity]. }
  rewrite andb_true_r.
  destruct (virusScanningEnabled s) eqn:Eon.
  2:{ simpl. rewrite Evalid. split; [discriminate|].
      intros [Hc | (Hc & _)]; discriminate. }
  pose proof (scanForViruses_infected s net now (if seeker then content else drained))
    as Hscan.
  destruct (scanForViruses s net now (if seeker then content else drained))
    as [[wire scanResult] e].
  rewrite Eon in Hscan.
  destruct e as [msg|]; simpl.
  - rewrite Evalid. split; [discriminate|].
    intros [Hc | Hinf]; [discriminate|].
    apply Hscan in Hinf. destruct Hinf as [Hc _]. discriminate.
  - destruct (Clean scanResult) eqn:Eclean; simpl.
    + rewrite Evalid. split; [discriminate|].
      intros [Hc | Hinf]; [discriminate|].
      apply Hscan in Hinf. destruct Hinf as [_ Hc]. discriminate.
    + split; [|reflexivity]. intros _. right. apply Hscan. split; reflexivity.
Qed.

(** X9.  A reader that cannot seek reaches the scanner empty.  ValidateFile has
    read it to its end, so for a valid file the scanner is sent the command
    and the end-of-stream marker with no content between them, and the
    verdict is the one the daemon gives on an empty stream. *)
Theorem unseekable_content_is_scanned_empty
    (s : FileValidationService) (net : ClamAV) (now : Z)
    (filename declared : string) (content : Reader) :
  virusScanningEnabled s = true ->
  dialErr net = None -> commandWriteErr net = None ->
  snd (ioCopy content) = [] ->
  IsValid (fst (ValidateFile filename declared content)) = true ->
  snd (ValidateFileWithVirusScan s net now filename declared content false)
  = instreamCommand +:+ endOfStream.
Proof.
  intros Hon Hdial Hcmd Hdrained Hvalid. unfold ValidateFileWithVirusScan.
  assert (Hrest : snd (ValidateFile filename declared content) = []).
  { unfold ValidateFile. destruct (ioCopy content) as [[bs e] rest].
    simpl in Hdrained. subst rest. destruct e; reflexivity. }
  destruct (ValidateFile filename declared content) as [result drained].
  simpl in Hvalid, Hrest. subst drained. rewrite Hon, Hvalid. simpl.
  unfold scanForViruses. rewrite Hon, Hdial, Hcmd. simpl.
  destruct (response net) as [reply|e]; simpl.
  - destruct (Clean (parseResponse reply (newScanResult now))); reflexivity.
  - reflexivity.
Qed.

End FailOpen.

Lemma unseekable_content_is_scanned_empty_witness :
  let content := ScenarioMore.oneRead "helloworld" in
  IsValid (fst (ValidateFile (H := Instances.asciiLib) (H0 := Instances.plainSniffer)
                  "x.bin" "application/octet-stream" content)) = true
  /\ snd (ValidateFileWithVirusScan (H := Instances.asciiLib)
            (H0 := Instances.plainSniffer) ScenarioMore.scanning
            (ScenarioMore.answering "stream: OK") 0 "x.bin" "application/octet-stream"
            content false)
     = instreamCommand +:+ endOfStream.
Proof.
  intros content.
  assert (Hvalid :
    IsValid (fst (ValidateFile (H := Instances.asciiLib) (H0 := Instances.plainSniffer)
                    "x.bin" "application/octet-stream" content)) = true)
    by (vm_compute; reflexivity).
  split; [exact Hvalid|].
  exact (unseekable_content_is_scanned_empty (H := Instances.asciiLib)
           (H0 := Instances.plainSniffer) ScenarioMore.scanning
           (ScenarioMore.answering "stream: OK") 0 "x.bin" "application/octet-stream"
           content eq_refl eq_refl eq_refl eq_refl Hvalid).
Defined.

End ScanMore.

(** ** The metadata store, further properties *)
Module StoreProps.
Import Go Models Repository RepositoryMore Services Handlers Invariants StatementsMore.

Lemma NoDup_snoc {A} (l : list A) (x : A) : NoDup l -> ~ In x l -> NoDup (l ++ [x]).
Proof.
  intros Hnd Hnin. apply NoDup_app. split; [exact Hnd|]. split.
  - intros y Hy Hyx. apply list_elem_of_singleton in Hyx. subst y.
    apply Hnin, list_elem_of_In. exact Hy.
  - apply NoDup_singleton.
Qed.

(** A concrete list has no duplicates. *)
Ltac distinct :=
  repeat first
    [ apply NoDup_nil_2
    | apply NoDup_cons_2;
      [rewrite ?elem_of_cons, ?elem_of_nil; intuition discriminate|] ].

Lemma existsb_map_not_In {A B} (key : A -> B) (test : A -> bool) (b : B) (l : list A) :
  (forall x, key x = b -> test x = true) ->
  existsb test l = false -> ~ In b (map key l).
Proof.
  intros Hkey Hex Hin. apply in_map_iff in Hin. destruct Hin as (x & Hx & Hin).
  assert (Ht : existsb test l = true) by (apply existsb_exists; exists x; auto).
  congruence.
Qed.

Lemma Create_wellFormed (st : Store) (fault : Fault) (newID : UUID) (file : File) :
  wellFormed st -> wellFormed (fst (Create st fault newID file)).
Proof.
  intros Hwf. unfold Create. destruct fault as [e|]; [exact Hwf|]. cbv zeta.
  destruct (existsb _ (files st) || existsb _ (files st)) eqn:E; [exact Hwf|].
  apply orb_false_iff in E. destruct E as [Eid Ehash].
  destruct Hwf as [Hh Hi Hr Hres]. constructor; simpl.
  - rewrite map_app. apply NoDup_snoc; [exact Hh|].
    refine (existsb_map_not_In _ _ _ _ _ Ehash).
    intros x Hx. unfold hashIs. rewrite Hx. apply String.eqb_refl.
  - rewrite map_app. apply NoDup_snoc; [exact Hi|].
    refine (existsb_map_not_In _ _ _ _ _ Eid).
    intros x Hx. rewrite Hx. apply N.eqb_refl.
  - exact Hr.
  - intros u Hu. rewrite map_app. apply in_or_app. left. apply Hres. exact Hu.
Qed.

Lemma CreateUserFile_wellFormed (st : Store) (fault : Fault) (newID : UUID)
    (uf : UserFile) :
  wellFormed st -> wellFormed (fst (CreateUserFile st fault newID uf)).
Proof.
  intros Hwf. unfold CreateUserFile. destruct fault as [e|]; [exact Hwf|]. cbv zeta.
  destruct (existsb _ (user_files st) || existsb _ (user_files st)) eqn:E; [exact Hwf|].
  destruct (existsb _ (files st)) eqn:Efk; simpl; [|exact Hwf].
  apply orb_false_iff in E. destruct E as [Eid _].
  destruct Hwf as [Hh Hi Hr Hres]. constructor; simpl.
  - exact Hh.
  - exact Hi.
  - rewrite map_app. apply NoDup_snoc; [exact Hr|].
    refine (existsb_map_not_In _ _ _ _ _ Eid).
    intros x Hx. rewrite Hx. apply N.eqb_refl.
  - intros u Hu. apply in_app_or in Hu. destruct Hu as [Hu | [Hu | []]].
    + apply Hres. exact Hu.
    + subst u. apply existsb_exists in Efk. destruct Efk as (f & Hf & Heq).
      apply N.eqb_eq in Heq. rewrite <- Heq. apply in_map. exact Hf.
Qed.

Lemma map_markDeleted_ids (id : UUID) (rows : list UserFile) :
  map UserFile_ID (map (markDeleted id) rows) = map UserFile_ID rows
  /\ map FileID (map (markDeleted id) rows) = map FileID rows.
Proof.
  rewrite !map_map. split; apply map_ext; intros r; unfold markDeleted;
    destruct (UserFile_ID r =? id)%N; reflexivity.
Qed.

Lemma map_markDeletedOf_ids (userID id : UUID) (rows : list UserFile) :
  map UserFile_ID (map (markDeletedOf userID id) rows) = map UserFile_ID rows
  /\ map FileID (map (markDeletedOf userID id) rows) = map FileID rows.
Proof.
  rewrite !map_map. split; apply map_ext; intros r; unfold markDeletedOf;
    destruct (rowOf userID id r); reflexivity.
Qed.

(** Rewriting rows without touching their identifiers keeps the store well
    formed. *)
Lemma wellFormed_rewritten (st : Store) (rows : list UserFile) :
  map UserFile_ID rows = map UserFile_ID (user_files st) ->
  map FileID rows = map FileID (user_files st) ->
  wellFormed st ->
  wellFormed {| files := files st; user_files := rows |}.
Proof.
  intros Hids Hfiles [Hh Hi Hr Hres]. constructor; simpl.
  - exact Hh.
  - exact Hi.
  - rewrite Hids. exact Hr.
  - intros u Hu. apply (in_map FileID) in Hu. rewrite Hfiles in Hu.
    apply in_map_iff in Hu. destruct Hu as (u0 & Heq & Hu0).
    rewrite <- Heq. apply Hres. exact Hu0.
Qed.

Section Upload.
Context `{Lib} `{Sniffer} `{StorageInterface}.

Lemma createReference_wellFormed w env req validation file isExisting savingsBytes :
  wellFormed (meta w) ->
  wellFormed (meta (fst (createReference w env req validation file isExisting
                           savingsBytes))).
Proof.
  intros Hwf. unfold createReference.
  match goal with
  | |- context [CreateUserFile ?st ?fault ?id ?uf] =>
      pose proof (CreateUserFile_wellFormed st fault id uf Hwf) as Hst;
      destruct (CreateUserFile st fault id uf) as [st' r]
  end.
  destruct r; exact Hst.
Qed.

Lemma UploadFile_wellFormed (w : World) (env : UploadEnv) (req : UploadFileRequest) :
  wellFormed (meta w) -> wellFormed (meta (fst (UploadFile w env req))).
Proof.
  intros Hwf. unfold UploadFile.
  destruct (ValidateFile (reqFilename req) (reqMimeType req) (reqContent req))
    as [validation content].
  destruct (negb (IsValid validation)); [exact Hwf|].
  destruct (GetByContentHash _ _ _) as [f|e|];
    try (apply createReference_wellFormed; exact Hwf);
    (destruct (Service_generateStoragePath _) as [path|e'|]; [|exact Hwf|exact Hwf];
     destruct (Storage_UploadFile _ _ _ _ _ _) as [[objs c'] e2];
     destruct e2 as [msg|]; [exact Hwf|]; cbv zeta;
     match goal with
     | |- context [Create ?st ?fault ?id ?file] =>
         pose proof (Create_wellFormed st fault id file Hwf) as Hst;
         destruct (Create st fault id file) as [st' r]
     end;
     destruct r; try exact Hst; apply createReference_wellFormed; exact Hst).
Qed.

Lemma grows_refl (w : World) (b : bool) : grows w w b.
Proof.
  split; [exists [] | exists []]; rewrite app_nil_r; simpl; repeat split; auto.
Qed.

Lemma grows_objects (w : World) (objs : Objects) (b : bool) :
  grows w {| meta := meta w; objects := objs |} b.
Proof.
  split; [exists [] | exists []]; simpl; rewrite app_nil_r; repeat split; auto.
Qed.

Lemma createReference_grows w env req validation file isExisting savingsBytes :
  let out := createReference w env req validation file isExisting savingsBytes in
  files (meta (fst out)) = files (meta w)
  /\ exists us, user_files (meta (fst out)) = user_files (meta w) ++ us
                /\ (List.length us <= 1)%nat
                /\ (isOk (snd out) = false -> us = []).
Proof.
  cbv zeta. unfold createReference, CreateUserFile.
  destruct (referenceFault env) as [e|]; simpl.
  { split; [reflexivity|]. exists []. rewrite app_nil_r. auto. }
  destruct (existsb _ (user_files (meta w)) || existsb _ (user_files (meta w))); simpl.
  { split; [reflexivity|]. exists []. rewrite app_nil_r. auto. }
  destruct (existsb _ (files (meta w))); simpl.
  - split; [reflexivity|]. eexists [_]. split; [reflexivity|]. split; [simpl; lia|].
    discriminate.
  - split; [reflexivity|]. exists []. rewrite app_nil_r. auto.
Qed.

Lemma Create_grows (st : Store) (fault : Fault) (newID : UUID) (file : File) :
  user_files (fst (Create st fault newID file)) = user_files st
  /\ exists fs, files (fst (Create st fault newID file)) = files st ++ fs
                /\ (List.length fs <= 1)%nat.
Proof.
  unfold Create. destruct fault as [e|]; simpl.
  { split; [reflexivity|]. exists []. rewrite app_nil_r. auto. }
  destruct (existsb _ (files st) || existsb _ (files st)); simpl.
  - split; [reflexivity|]. exists []. rewrite app_nil_r. auto.
  - split; [reflexivity|]. eexists [_]. split; [reflexivity | simpl; lia].
Qed.

Lemma UploadFile_grows (w : World) (env : UploadEnv) (req : UploadFileRequest) :
  grows w (fst (UploadFile w env req)) (isOk (snd (UploadFile w env req))).
Proof.
  unfold UploadFile.
  destruct (ValidateFile (reqFilename req) (reqMimeType req) (reqContent req))
    as [validation content].
  destruct (negb (IsValid validation)); [apply grows_refl|].
  assert (Href : forall file isExisting savingsBytes,
    let out := createReference w env req validation file isExisting savingsBytes in
    grows w (fst out) (isOk (snd out))).
  { intros file isExisting savingsBytes out.
    destruct (createReference_grows w env req validation file isExisting savingsBytes)
      as [Hf Hu].
    split; [exists []; rewrite app_nil_r; auto | exact Hu]. }
  destruct (GetByContentHash _ _ _) as [f|e|]; try apply Href;
    (destruct (Service_generateStoragePath _) as [path|e'|];
     [|apply grows_refl|apply grows_refl];
     destruct (Storage_UploadFile _ _ _ _ _ _) as [[objs c'] e2];
     destruct e2 as [msg|]; [apply grows_objects|]; cbv zeta;
     match goal with
     | |- context [Create ?st ?fault ?id ?file] =>
         destruct (Create_grows st fault id file) as [Hu (fs & Hfs & Hlen)];
         destruct (Create st fault id file) as [st' r]
     end;
     simpl in Hu, Hfs;
     destruct r as [file0|msg|];
     [|split; [exists fs; auto | exists []; simpl; rewrite Hu, app_nil_r; auto]
      |split; [exists fs; auto | exists []; simpl; rewrite Hu, app_nil_r; auto]];
     match goal with
     | |- context [createReference ?w1 env req validation file0 false 0] =>
         destruct (createReference_grows w1 env req validation file0 false 0)
           as [Hf1 (us & Hus & Hlen1 & Hfail1)];
         cbv zeta in Hf1, Hus, Hfail1;
         split;
         [ exists fs; split; [rewrite Hf1; exact Hfs | exact Hlen]
         | exists us; split;
           [rewrite Hus; simpl; rewrite Hu; reflexivity | split; assumption] ]
     end).
Qed.

(** X10.  UploadFile keeps the metadata store well formed, whatever happens: no
    two files with one fingerprint or one identifier, no two references with
    one identifier, no reference to a file that is not stored.  It appends
    at most one row to each table and leaves the stored rows as they are.
    This holds for every request, every fault of the database or of the
    object store, and every storage backend. *)
Theorem UploadFile_keeps_the_store_well_formed
    (w : World) (env : UploadEnv) (req : UploadFileRequest) :
  wellFormed (meta w) ->
  let w' := fst (UploadFile w env req) in
  wellFormed (meta w')
  /\ (exists fs, files (meta w') = files (meta w) ++ fs /\ (List.length fs <= 1)%nat)
  /\ (exists us, user_files (meta w') = user_files (meta w) ++ us
                 /\ (List.length us <= 1)%nat).
Proof.
  intros Hwf w'. split; [apply UploadFile_wellFormed; exact Hwf|].
  destruct (UploadFile_grows w env req) as [Hfs (us & Hus & Hlen & _)].
  split; [exact Hfs|]. exists us. auto.
Qed.

(** X12.  UploadFile adds a reference exactly when it succeeds: a successful call
    appends one live reference of the requesting principal to the file it
    answers with, and a failed call leaves the references as they were. *)
Theorem UploadFile_adds_a_reference_iff_it_succeeds
    (w : World) (env : UploadEnv) (req : UploadFileRequest) :
  match UploadFile w env req with
  | (w', Ok r) =>
      Statements.referenceAdded (meta w) (meta w') (reqUserID req) (respFileID r)
        (respUserFileID r)
  | (w', _) => user_files (meta w') = user_files (meta w)
  end.
Proof.
  pose proof (UploadFile_grows w env req) as [_ (us & Hus & _ & Hfail)].
  pose proof (UploadProps.UploadFile_Ok w env req) as Hok.
  destruct (UploadFile w env req) as [w' r]. simpl in Hus, Hfail.
  destruct r as [r|msg|].
  - destruct (Hok w' r eq_refl) as [(f & _ & _ & _ & Hid & _ & Hadd)
                                   | (f & path & _ & _ & _ & Hid & _ & _ & _ & _ & Hadd)];
      rewrite Hid; exact Hadd.
  - rewrite Hus, (Hfail eq_refl), app_nil_r. reflexivity.
  - rewrite Hus, (Hfail eq_refl), app_nil_r. reflexivity.
Qed.

Lemma find_unique {A} (key : A -> UUID) (l : list A) (x : A) :
  NoDup (map key l) -> In x l ->
  find (fun y => (key y =? key x)%N) l = Some x.
Proof.
  induction l as [|y l IH]; intros Hnd Hin; [destruct Hin|].
  simpl in Hnd. apply NoDup_cons in Hnd. destruct Hnd as [Hy Hl].
  simpl. destruct Hin as [Heq | Hin].
  - subst y. rewrite N.eqb_refl. reflexivity.
  - destruct (key y =? key x)%N eqn:E; [|apply IH; assumption].
    apply N.eqb_eq in E. exfalso. apply Hy. rewrite E.
    apply list_elem_of_In, in_map. exact Hin.
Qed.

Lemma find_fresh_last (p : UserFile -> bool) (l : list UserFile) (u : UserFile) :
  (forall x, In x l -> p x = false) -> p u = true -> find p (l ++ [u]) = Some u.
Proof.
  intros Hnone Hu. apply UploadProps.find_none_app; [|exact Hu].
  apply DeleteProps.find_all_false. exact Hnone.
Qed.

(** After a successful upload into a well-formed store, the identifiers of
    the answer lead back to what was uploaded. *)
Lemma upload_lookup
    (w w' : World) (env : UploadEnv) (req : UploadFileRequest) (r : UploadFileResponse) :
  wellFormed (meta w) ->
  UploadFile w env req = (w', Ok r) ->
  exists f u,
    GetByID (meta w') None (respFileID r) = Ok f
    /\ ContentHash f = sha256_hex (contentBytes (reqContent req))
    /\ GetUserFile (meta w') None (reqUserID req) (respUserFileID r) = Ok u
    /\ FileID u = File_ID f /\ IsDeleted u = false.
Proof.
  intros Hwf Hup.
  assert (Hwf' : wellFormed (meta w')).
  { pose proof (UploadFile_wellFormed w env req Hwf) as Hw. rewrite Hup in Hw. exact Hw. }
  pose proof (UploadProps.UploadFile_Ok w env req w' r Hup) as Hok. cbv zeta in Hok.
  assert (Hfile : exists f, In f (files (meta w')) /\ File_ID f = respFileID r
                            /\ ContentHash f = sha256_hex (contentBytes (reqContent req))
                            /\ Statements.referenceAdded (meta w) (meta w') (reqUserID req)
                                 (File_ID f) (respUserFileID r)).
  { destruct Hok as [(f & Hfind & _ & _ & Hid & Hfiles & Hadd)
                    | (f & path & _ & _ & _ & Hid & Hfiles & Hhash & _ & _ & Hadd)].
    - exists f. apply find_some in Hfind. destruct Hfind as [Hin Hh].
      unfold hashIs in Hh. apply String.eqb_eq in Hh.
      rewrite Hfiles. repeat split; auto.
    - exists f. rewrite Hfiles. repeat split; auto.
      apply in_or_app. right. left. reflexivity. }
  destruct Hfile as (f & Hin & Hid & Hhash & (u & Hus & Huid & Huser & Hufile & Hlive & Hnew)).
  exists f, u. split.
  { unfold GetByID. rewrite <- Hid.
    rewrite (find_unique File_ID _ f (uniqueFileIDs _ Hwf') Hin). reflexivity. }
  split; [exact Hhash|]. split.
  { unfold GetUserFile. rewrite Hus.
    rewrite (find_fresh_last _ _ u); [reflexivity| |].
    - intros x Hx. unfold liveRowOf.
      destruct (UserFile_ID x =? respUserFileID r)%N eqn:E; [|reflexivity].
      apply N.eqb_eq in E. exfalso. exact (Hnew x Hx E).
    - unfold liveRowOf. rewrite Huid, Huser, Hlive, !N.eqb_refl. reflexivity. }
  split; [exact Hufile | exact Hlive].
Qed.

End Upload.

Lemma UploadFile_keeps_the_store_well_formed_witness :
  let w := Scenario.emptyWorld in
  wellFormed (meta w)
  /\ wellFormed (meta (fst (UploadFile (H := Instances.asciiLib)
                              (H0 := Instances.plainSniffer) (H1 := LocalStorageService)
                              w (Scenario.draws 100%N 200%N)
                              (Scenario.uploadBy 1%N "x.bin")))).
Proof.
  intros w.
  assert (Hwf : wellFormed (meta w)).
  { constructor; simpl; try apply NoDup_nil_2. intros u []. }
  split; [exact Hwf|].
  exact (proj1 (UploadFile_keeps_the_store_well_formed (H := Instances.asciiLib)
                  (H0 := Instances.plainSniffer) (H1 := LocalStorageService)
                  w (Scenario.draws 100%N 200%N) (Scenario.uploadBy 1%N "x.bin") Hwf)).
Defined.

(** X11.  Deleting keeps the metadata store well formed too: the handler
    DeleteFile and the repository's DeleteUserFile only flip the deletion
    flag of rows, under every fault. *)
Theorem deleting_keeps_the_store_well_formed (st : Store) :
  wellFormed st ->
  (forall env req, wellFormed (fst (DeleteFile st env req)))
  /\ (forall updateFault statsFault userID userFileID,
        wellFormed (fst (DeleteUserFile st updateFault statsFault userID userFileID))).
Proof.
  intros Hwf. split.
  - intros env req. unfold DeleteFile.
    destruct (ctxUserID req) as [userID|]; [|exact Hwf].
    destruct (fileId req) as [fileID|]; [|exact Hwf].
    destruct (GetUserFile st (getFault env) userID fileID) as [userFile|e|];
      [|exact Hwf|exact Hwf].
    destruct (negb (UserID userFile =? userID)%N); [exact Hwf|].
    unfold SoftDeleteUserFile. destruct (Handlers.updateFault env) as [e|]; [exact Hwf|].
    simpl. destruct (map_markDeleted_ids (UserFile_ID userFile) (user_files st)).
    apply wellFormed_rewritten; assumption.
  - intros updateFault statsFault userID userFileID. unfold DeleteUserFile.
    destruct updateFault as [e|]; [exact Hwf|]. cbv zeta.
    assert (Hst : wellFormed
                    {| files := files st;
                       user_files := map (markDeletedOf userID userFileID)
                                       (user_files st) |}).
    { destruct (map_markDeletedOf_ids userID userFileID (user_files st)).
      apply wellFormed_rewritten; assumption. }
    destruct (rowsAffected userID userFileID st =? 0)%nat; exact Hst.
Qed.

Lemma deleting_keeps_the_store_well_formed_witness :
  wellFormed Scenario.twoReferences
  /\ wellFormed (fst (DeleteFile Scenario.twoReferences
                        {| getFault := None; Handlers.updateFault := None |}
                        {| ctxUserID := Some 1%N; fileId := Some 200%N |})).
Proof.
  assert (Hwf : wellFormed Scenario.twoReferences).
  { constructor.
    - vm_compute. distinct.
    - vm_compute. distinct.
    - vm_compute. distinct.
    - vm_compute. intros u [Hu | [Hu | []]]; subst u; left; reflexivity. }
  split; [exact Hwf|].
  exact (proj1 (deleting_keeps_the_store_well_formed Scenario.twoReferences Hwf) _ _).
Defined.

End StoreProps.

(** ** Uploads, further properties *)
Module UploadMore.
Import Go Models Repository RepositoryMore Services ServicesMore StatementsMore.

(** *** Storage keys *)

Lemma length_substring (n m : nat) (s : string) :
  (n + m <= String.length s)%nat -> String.length (String.substring n m s) = m.
Proof.
  revert n m. induction s as [|c s IH]; intros [|n] [|m] Hlen; simpl in *;
    try reflexivity; try lia.
  - f_equal. apply IH. lia.
  - apply IH. lia.
  - apply IH. lia.
Qed.

Lemma append_inj_same_length (a1 a2 x1 x2 : string) :
  String.length a1 = String.length a2 -> a1 +:+ x1 = a2 +:+ x2 -> x1 = x2.
Proof.
  revert a2. induction a1 as [|c a1 IH]; intros [|d a2] Hlen Heq;
    try discriminate Hlen.
  - exact Heq.
  - change (String c (a1 +:+ x1) = String d (a2 +:+ x2)) in Heq.
    injection Heq as _ Heq. apply (IH a2); [simpl in Hlen; lia | exact Heq].
Qed.

(** X13.  The storage key determines the fingerprint: the key under which the
    service stores a content and the key the repository predicts for a
    content are equal only for one and the same fingerprint, so two files
    with different fingerprints never share an object. *)
Theorem storage_keys_are_injective (h1 h2 path : string) :
  Service_generateStoragePath h1 = Ok path ->
  generateStoragePath h2 = Ok path ->
  h1 = h2.
Proof.
  unfold Service_generateStoragePath, generateStoragePath.
  destruct (String.length h1 <? 4)%nat eqn:E1; [discriminate|].
  destruct (String.length h2 <? 4)%nat eqn:E2; [discriminate|].
  apply Nat.ltb_ge in E1, E2.
  intros H1 H2. injection H1 as H1. injection H2 as H2. rewrite <- H2 in H1. clear H2.
  apply (append_inj_same_length "files/" "files/") in H1; [|reflexivity].
  apply append_inj_same_length in H1;
    [|rewrite !length_substring by lia; reflexivity].
  apply (append_inj_same_length "/" "/") in H1; [|reflexivity].
  apply append_inj_same_length in H1;
    [|rewrite !length_substring by lia; reflexivity].
  apply (append_inj_same_length "/" "/") in H1; [|reflexivity].
  exact H1.
Qed.

Lemma storage_keys_are_injective_witness :
  Service_generateStoragePath "abcdef" = Ok "files/ab/cd/abcdef"
  /\ generateStoragePath "abcdef" = Ok "files/ab/cd/abcdef"
  /\ "abcdef" = "abcdef".
Proof.
  assert (H1 : Service_generateStoragePath "abcdef" = Ok "files/ab/cd/abcdef")
    by reflexivity.
  assert (H2 : generateStoragePath "abcdef" = Ok "files/ab/cd/abcdef") by reflexivity.
  split; [exact H1|]. split; [exact H2|].
  exact (storage_keys_are_injective "abcdef" "abcdef" "files/ab/cd/abcdef" H1 H2).
Defined.

(** *** What reaches the object store *)

Section Local.
Context `{Lib} `{Sniffer}.

Lemma ValidateFile_rest filename declared content :
  snd (ValidateFile filename declared content) = snd (ioCopy content).
Proof.
  unfold ValidateFile. destruct (ioCopy content) as [[bs e] rest].
  destruct e; reflexivity.
Qed.

(** With the local backend, what UploadFile does when it takes the path of
    a new content and the reader has been read to its end. *)
Lemma UploadFile_miss_local (w : World) (env : UploadEnv) (req : UploadFileRequest)
    (path : string) :
  let h := sha256_hex (contentBytes (reqContent req)) in
  IsValid (fst (ValidateFile (reqFilename req) (reqMimeType req) (reqContent req))) = true ->
  snd (ioCopy (reqContent req)) = [] ->
  (forall f, GetByContentHash (meta w) (lookupFault env) h <> Ok f) ->
  Service_generateStoragePath h = Ok path ->
  putFault env = None ->
  exists validation file,
    let w0 := {| meta := meta w; objects := <[path := EmptyString]> (objects w) |} in
    ContentHash file = h /\ StoragePath file = path /\
    UploadFile (H1 := LocalStorageService) w env req
    = match Create (meta w) (createFault env) (fileUUID env) file with
      | (st, Ok file0) =>
          createReference {| meta := st; objects := objects w0 |} env req validation
            file0 false 0
      | (st, Err msg) =>
          ({| meta := st; objects := objects w0 |},
           Err ("failed to create file record: " +:+ msg))
      | (st, Panic) => ({| meta := st; objects := objects w0 |}, Panic)
      end.
Proof.
  intros h Hvalid Hdrained Hmiss Hpath Hput.
  destruct (UploadProps.ValidateFile_valid _ _ _ Hvalid) as [Hhash Hsize].
  pose proof (ValidateFile_rest (reqFilename req) (reqMimeType req) (reqContent req))
    as Hrest.
  rewrite Hdrained in Hrest. unfold UploadFile.
  destruct (ValidateFile (reqFilename req) (reqMimeType req) (reqContent req))
    as [validation content].
  simpl in Hvalid, Hhash, Hsize, Hrest. subst content. rewrite Hvalid, Hhash.
  fold h. cbn [negb].
  exists validation,
    {| File_ID := 0%N; ContentHash := h; Filename := reqFilename req;
       OriginalMimeType := reqMimeType req;
       File_DetectedMimeType := DetectedMimeType validation;
       File_FileSize := FileSize validation; StoragePath := path;
       IsEncrypted := false; OwnerID := reqOwnerID req;
       PrimaryGroupID := reqPrimaryGroupID req;
       FilePermissions := reqFilePermissions req |}.
  split; [|split]; cycle 2.
  - destruct (GetByContentHash (meta w) (lookupFault env) h) as [f|e|] eqn:Eget;
      [exfalso; exact (Hmiss f eq_refl)| |];
      rewrite Hpath; cbn [Storage_UploadFile LocalStorageService
                            LocalStorageService_UploadFile];
      rewrite Hput; cbn [ioCopy]; cbv zeta; cbn [meta objects];
      destruct (Create _ _ _ _) as [st r]; destruct r; reflexivity.
  - reflexivity.
  - reflexivity.
Qed.

(** X14.  The object of a new file is empty.  ValidateFile reads the content to
    its end and UploadFile hands the same reader to the storage backend: when
    an upload of new content succeeds with the local backend, the object
    written under the key of the fingerprint holds no byte, whatever the
    content was. *)
Theorem new_upload_stores_an_empty_object
    (w w' : World) (env : UploadEnv) (req : UploadFileRequest) (r : UploadFileResponse) :
  snd (ioCopy (reqContent req)) = [] ->
  UploadFile (H1 := LocalStorageService) w env req = (w', Ok r) ->
  IsExisting r = false ->
  exists path,
    Service_generateStoragePath (sha256_hex (contentBytes (reqContent req))) = Ok path
    /\ objects w' = <[path := EmptyString]> (objects w).
Proof.
  intros Hdrained Hup Hnew.
  pose proof (UploadProps.UploadFile_Ok w env req w' r Hup) as Hok. cbv zeta in Hok.
  destruct Hok as [(f & _ & Hex & _) | (f & path & Hnone & _ & _ & _ & _ & _ & Hpath & _)];
    [congruence|].
  exists path. split; [exact Hpath|].
  assert (Hvalid : IsValid (fst (ValidateFile (reqFilename req) (reqMimeType req)
                                   (reqContent req))) = true).
  { destruct (IsValid (fst (ValidateFile (reqFilename req) (reqMimeType req)
                              (reqContent req)))) eqn:E; [reflexivity|].
    destruct (ValidationProps.UploadFile_rejected (H1 := LocalStorageService)
                w env req E) as [msg Hrej].
    rewrite Hrej in Hup. discriminate. }
  assert (Hmiss : forall f0,
    GetByContentHash (meta w) (lookupFault env)
      (sha256_hex (contentBytes (reqContent req))) <> Ok f0).
  { intros f0. unfold GetByContentHash. destruct (lookupFault env); [discriminate|].
    rewrite (DeleteProps.find_all_false _ _ Hnone). discriminate. }
  assert (Hput : putFault env = None).
  { destruct (putFault env) as [e|] eqn:E; [exfalso | reflexivity].
    revert Hup. unfold UploadFile.
    destruct (ValidateFile (reqFilename req) (reqMimeType req) (reqContent req))
      as [validation content] eqn:EV.
    simpl in Hvalid. rewrite Hvalid. cbn [negb].
    destruct (UploadProps.ValidateFile_valid (reqFilename req) (reqMimeType req)
                (reqContent req)) as [Hhash _];
      [rewrite EV; exact Hvalid|].
    rewrite EV in Hhash. simpl in Hhash. rewrite Hhash.
    destruct (GetByContentHash _ _ _) as [f0|e0|] eqn:Eget;
      [exfalso; exact (Hmiss f0 eq_refl)| |];
      rewrite Hpath; cbn [Storage_UploadFile LocalStorageService
                            LocalStorageService_UploadFile];
      rewrite E; discriminate. }
  destruct (UploadFile_miss_local w env req path Hvalid Hdrained Hmiss Hpath Hput)
    as (validation & file & _ & _ & Heq).
  cbv zeta in Heq. rewrite Heq in Hup.
  destruct (Create (meta w) (createFault env) (fileUUID env) file) as [st r0].
  destruct r0 as [file0|msg|]; [|discriminate|discriminate].
  apply UploadProps.createReference_Ok in Hup.
  destruct Hup as (_ & _ & _ & _ & Hobjs & _). exact Hobjs.
Qed.

(** X15.  A failed insert leaves the object behind.  When the content is new,
    the object is written first; if the insert of the file row then fails,
    UploadFile returns the error and does not remove the object: the object
    store holds a key that no row names. *)
Theorem failed_insert_leaves_the_object_behind
    (w : World) (env : UploadEnv) (req : UploadFileRequest) (path e : string) :
  let h := sha256_hex (contentBytes (reqContent req)) in
  IsValid (fst (ValidateFile (reqFilename req) (reqMimeType req) (reqContent req))) = true ->
  snd (ioCopy (reqContent req)) = [] ->
  (forall f, GetByContentHash (meta w) (lookupFault env) h <> Ok f) ->
  Service_generateStoragePath h = Ok path ->
  putFault env = None ->
  createFault env = Some e ->
  UploadFile (H1 := LocalStorageService) w env req
  = ({| meta := meta w; objects := <[path := EmptyString]> (objects w) |},
     Err ("failed to create file record: " +:+ e)).
Proof.
  intros h Hvalid Hdrained Hmiss Hpath Hput Hcreate.
  destruct (UploadFile_miss_local w env req path Hvalid Hdrained Hmiss Hpath Hput)
    as (validation & file & _ & _ & Heq).
  cbv zeta in Heq. rewrite Heq. unfold Create. rewrite Hcreate. reflexivity.
Qed.

(** X16.  A lookup that fails is taken for a miss.  If the lookup by fingerprint
    fails while the content is already stored, UploadFile writes the object
    again - with the local backend this empties the object under the key of
    the fingerprint - and then fails on the insert of the duplicate row. *)
Theorem failed_lookup_rewrites_the_object
    (w : World) (env : UploadEnv) (req : UploadFileRequest) (path e : string) (f : File) :
  let h := sha256_hex (contentBytes (reqContent req)) in
  IsValid (fst (ValidateFile (reqFilename req) (reqMimeType req) (reqContent req))) = true ->
  snd (ioCopy (reqContent req)) = [] ->
  lookupFault env = Some e ->
  In f (files (meta w)) -> ContentHash f = h ->
  Service_generateStoragePath h = Ok path ->
  putFault env = None ->
  exists msg,
    UploadFile (H1 := LocalStorageService) w env req
    = ({| meta := meta w; objects := <[path := EmptyString]> (objects w) |}, Err msg).
Proof.
  intros h Hvalid Hdrained Hlookup Hin Hhash Hpath Hput.
  assert (Hmiss : forall f0, GetByContentHash (meta w) (lookupFault env) h <> Ok f0).
  { intros f0. unfold GetByContentHash. rewrite Hlookup. discriminate. }
  destruct (UploadFile_miss_local w env req path Hvalid Hdrained Hmiss Hpath Hput)
    as (validation & file & Hfh & _ & Heq).
  cbv zeta in Heq. rewrite Heq. unfold Create.
  destruct (createFault env) as [e'|]; [eexists; reflexivity|]. cbv zeta.
  assert (Hdup : existsb (hashIs (ContentHash (fileRow (fileUUID env) file)))
                   (files (meta w)) = true).
  { apply existsb_exists. exists f. split; [exact Hin|].
    unfold hashIs. simpl. rewrite Hfh, Hhash. apply String.eqb_refl. }
  rewrite Hdup, orb_true_r. destruct w as [st objs]. eexists. reflexivity.
Qed.

End Local.

Lemma new_upload_stores_an_empty_object_witness :
  let w := Scenario.emptyWorld in
  let env := Scenario.draws 100%N 200%N in
  let req := Scenario.uploadBy 1%N "x.bin" in
  let w' := fst (UploadFile (H := Instances.asciiLib) (H0 := Instances.plainSniffer)
                   (H1 := LocalStorageService) w env req) in
  contentBytes (reqContent req) = "helloworld"
  /\ exists path,
       Service_generateStoragePath
         (sha256_hex (Lib := Instances.asciiLib) (contentBytes (reqContent req))) = Ok path
       /\ objects w' = <[path := EmptyString]> (objects w).
Proof.
  intros w env req w'.
  split; [reflexivity|].
  assert (Hup : UploadFile (H := Instances.asciiLib) (H0 := Instances.plainSniffer)
                  (H1 := LocalStorageService) w env req
                = (w', Ok {| respFileID := 100%N; respUserFileID := 200%N;
                             IsExisting := false; SavingsBytes := 0;
                             respWarnings := [] |}))
    by (vm_compute; reflexivity).
  exact (new_upload_stores_an_empty_object (H := Instances.asciiLib)
           (H0 := Instances.plainSniffer) w w' env req _ eq_refl Hup eq_refl).
Defined.

Lemma failed_insert_leaves_the_object_behind_witness :
  let w := Scenario.emptyWorld in
  let env := {| lookupFault := None; putFault := None;
                createFault := Some "connection reset"; referenceFault := None;
                fileUUID := 100%N; referenceUUID := 200%N |} in
  let req := Scenario.uploadBy 1%N "x.bin" in
  let path := "files/00/00/000000000000000000000000000000000000000000000000000000000000043c" in
  UploadFile (H := Instances.asciiLib) (H0 := Instances.plainSniffer)
    (H1 := LocalStorageService) w env req
  = ({| meta := meta w; objects := <[path := EmptyString]> (objects w) |},
     Err "failed to create file record: connection reset").
Proof.
  intros w env req path.
  assert (Hvalid : IsValid (fst (ValidateFile (H := Instances.asciiLib)
                                   (H0 := Instances.plainSniffer) (reqFilename req)
                                   (reqMimeType req) (reqContent req))) = true)
    by (vm_compute; reflexivity).
  assert (Hmiss : forall f,
    GetByContentHash (meta w) (lookupFault env)
      (sha256_hex (Lib := Instances.asciiLib) (contentBytes (reqContent req))) <> Ok f)
    by (intros f; discriminate).
  assert (Hpath : Service_generateStoragePath
                    (sha256_hex (Lib := Instances.asciiLib)
                       (contentBytes (reqContent req))) = Ok path)
    by (vm_compute; reflexivity).
  exact (failed_insert_leaves_the_object_behind (H := Instances.asciiLib)
           (H0 := Instances.plainSniffer) w env req path "connection reset"
           Hvalid eq_refl Hmiss Hpath eq_refl eq_refl).
Defined.

Lemma failed_lookup_rewrites_the_object_witness :
  let path := "files/00/00/000000000000000000000000000000000000000000000000000000000000043c" in
  let f := {| File_ID := 100%N;
              ContentHash := "000000000000000000000000000000000000000000000000000000000000043c";
              Filename := "x.bin"; OriginalMimeType := "application/octet-stream";
              File_DetectedMimeType := "text/plain"; File_FileSize := 10;
              StoragePath := path; IsEncrypted := false; OwnerID := Some 1%N;
              PrimaryGroupID := None; FilePermissions := 644 |} in
  let w := {| meta := {| files := [f]; user_files := [] |};
              objects := <[path := "helloworld"]> ∅ |} in
  let env := {| lookupFault := Some "timeout"; putFault := None; createFault := None;
                referenceFault := None; fileUUID := 101%N; referenceUUID := 201%N |} in
  let req := Scenario.uploadBy 2%N "y.bin" in
  In f (files (meta w))
  /\ exists msg,
       UploadFile (H := Instances.asciiLib) (H0 := Instances.plainSniffer)
         (H1 := LocalStorageService) w env req
       = ({| meta := meta w; objects := <[path := EmptyString]> (objects w) |}, Err msg).
Proof.
  intros path f w env req.
  assert (Hin : In f (files (meta w))) by (left; reflexivity).
  assert (Hvalid : IsValid (fst (ValidateFile (H := Instances.asciiLib)
                                   (H0 := Instances.plainSniffer) (reqFilename req)
                                   (reqMimeType req) (reqContent req))) = true)
    by (vm_compute; reflexivity).
  assert (Hhash : ContentHash f
                  = sha256_hex (Lib := Instances.asciiLib) (contentBytes (reqContent req)))
    by (vm_compute; reflexivity).
  assert (Hpath : Service_generateStoragePath
                    (sha256_hex (Lib := Instances.asciiLib)
                       (contentBytes (reqContent req))) = Ok path)
    by (vm_compute; reflexivity).
  split; [exact Hin|].
  exact (failed_lookup_rewrites_the_object (H := Instances.asciiLib)
           (H0 := Instances.plainSniffer) w env req path "timeout" f
           Hvalid eq_refl eq_refl Hin Hhash Hpath eq_refl).
Defined.

(** *** The deduplication check and the session *)

Section Prediction.
Context `{Lib} `{Sniffer} `{StorageInterface}.

(** CheckDeduplication predicts UploadFile.  If the check answers for the
    fingerprint and the size of a content and the upload of that content
    then succeeds, the upload reports what the check announced: the same
    flag and the same savings, a file stored under the announced path, and
    for a stored content the announced file. *)
Theorem CheckDeduplication_predicts_UploadFile
    (w w' : World) (env : UploadEnv) (req : UploadFileRequest)
    (r : UploadFileResponse) (d : DeduplicationResult) :
  let bs := contentBytes (reqContent req) in
  CheckDeduplication (meta w) None (sha256_hex bs) (len bs) = Ok d ->
  UploadFile w env req = (w', Ok r) ->
  IsExisting r = DR_IsExisting d
  /\ SavingsBytes r = DR_SavingsBytes d
  /\ exists f, In f (files (meta w')) /\ File_ID f = respFileID r
               /\ StoragePath f = DR_StoragePath d
               /\ (DR_IsExisting d = true -> ExistingFileID d = Some (File_ID f)).
Proof.
  intros bs Hcheck Hup. apply UploadProps.UploadFile_Ok in Hup. cbv zeta in Hup.
  fold bs in Hup. unfold CheckDeduplication, CheckFileExists in Hcheck.
  destruct Hup as [(f & Hfind & Hex & Hsav & Hid & Hfiles & _)
                  | (f & path & Hnone & Hex & Hsav & Hid & Hfiles & _ & Hpath & Hsp & _)].
  - rewrite Hfind in Hcheck. injection Hcheck as Hd. subst d. simpl.
    split; [exact Hex|]. split; [exact Hsav|].
    exists f. apply find_some in Hfind. destruct Hfind as [Hin _].
    rewrite Hfiles. repeat split; auto.
  - rewrite (DeleteProps.find_all_false _ _ Hnone) in Hcheck.
    change (generateStoragePath (sha256_hex bs))
      with (Service_generateStoragePath (sha256_hex bs)) in Hcheck.
    rewrite Hpath in Hcheck. injection Hcheck as Hd. subst d. simpl.
    split; [exact Hex|]. split; [exact Hsav|].
    exists f. rewrite Hfiles. split; [apply in_or_app; right; left; reflexivity|].
    repeat split; auto. discriminate.
Qed.

End Prediction.

Lemma CheckDeduplication_predicts_UploadFile_witness :
  let w := Scenario.emptyWorld in
  let env := Scenario.draws 100%N 200%N in
  let req := Scenario.uploadBy 1%N "x.bin" in
  let r := {| respFileID := 100%N; respUserFileID := 200%N; IsExisting := false;
              SavingsBytes := 0; respWarnings := [] |} in
  let d := {| DR_IsExisting := false; ExistingFileID := None; DR_SavingsBytes := 0;
              DR_StoragePath :=
                "files/00/00/000000000000000000000000000000000000000000000000000000000000043c" |} in
  CheckDeduplication (meta w) None
    (sha256_hex (Lib := Instances.asciiLib) (contentBytes (reqContent req)))
    (len (contentBytes (reqContent req))) = Ok d
  /\ IsExisting r = DR_IsExisting d /\ SavingsBytes r = DR_SavingsBytes d.
Proof.
  intros w env req r d.
  assert (Hcheck : CheckDeduplication (meta w) None
                     (sha256_hex (Lib := Instances.asciiLib)
                        (contentBytes (reqContent req)))
                     (len (contentBytes (reqContent req))) = Ok d)
    by (vm_compute; reflexivity).
  assert (Hup : UploadFile (H := Instances.asciiLib) (H0 := Instances.plainSniffer)
                  (H1 := LocalStorageService) w env req
                = (fst (UploadFile (H := Instances.asciiLib)
                          (H0 := Instances.plainSniffer) (H1 := LocalStorageService)
                          w env req), Ok r))
    by (vm_compute; reflexivity).
  split; [exact Hcheck|].
  pose proof (CheckDeduplication_predicts_UploadFile (H := Instances.asciiLib)
                (H0 := Instances.plainSniffer) (H1 := LocalStorageService)
                w _ env req r d Hcheck Hup) as Hthm.
  split; [exact (proj1 Hthm) | exact (proj1 (proj2 Hthm))].
Defined.

Lemma find_existsb {A} (p : A -> bool) (l : list A) :
  (match find p l with Some _ => true | None => false end) = existsb p l.
Proof.
  induction l as [|x l IH]; simpl; [reflexivity|]. destruct (p x); [reflexivity | exact IH].
Qed.

Lemma countDuplicates_bounds (st : Store) (inputs : list FileInput) (faults : list Fault) :
  0 <= countDuplicates st faults inputs <= Z.of_nat (List.length inputs).
Proof.
  revert faults. induction inputs as [|i inputs IH]; intros faults.
  - simpl. lia.
  - cbn [countDuplicates List.length]. specialize (IH (List.tl faults)).
    destruct (GetByContentHash _ _ _); lia.
Qed.

Lemma countDuplicates_no_fault (st : Store) (inputs : list FileInput) :
  countDuplicates st [] inputs
  = Z.of_nat (List.length
                (List.filter (fun i => existsb (hashIs (fiContentHash i)) (files st))
                   inputs)).
Proof.
  induction inputs as [|i inputs IH]; [reflexivity|].
  cbn [countDuplicates List.tl List.filter]. rewrite IH.
  unfold GetByContentHash. rewrite <- (find_existsb (hashIs (fiContentHash i))).
  destruct (find (hashIs (fiContentHash i)) (files st)); cbn [List.length]; lia.
Qed.

(** X17.  CreateUploadSession counts the announced fingerprints that are already
    stored, one for each announced file, so the same fingerprint announced
    twice counts twice; a lookup that fails counts as not stored.  The count
    lies between zero and the number of announced files. *)
Theorem CreateUploadSession_counts_stored_fingerprints
    (st : Store) (token : UUID) (req : CreateUploadSessionRequest) :
  (forall faults,
     0 <= DuplicateFiles (CreateUploadSession st faults token req)
       <= TotalFiles (CreateUploadSession st faults token req))
  /\ DuplicateFiles (CreateUploadSession st [] token req)
     = Z.of_nat (List.length
                   (List.filter (fun i => existsb (hashIs (fiContentHash i)) (files st))
                      (csFiles req)))
  /\ (forall faults, Forall (fun f => f <> None) faults ->
        (List.length (csFiles req) <= List.length faults)%nat ->
        DuplicateFiles (CreateUploadSession st faults token req) = 0).
Proof.
  split; [intros faults; apply countDuplicates_bounds|].
  split; [apply countDuplicates_no_fault|].
  intros faults. unfold CreateUploadSession. simpl.
  generalize (csFiles req) as inputs. intros inputs. revert faults.
  induction inputs as [|i inputs IH]; intros faults Hall Hlen; [reflexivity|].
  destruct faults as [|f faults]; [simpl in Hlen; lia|].
  apply Forall_cons in Hall. destruct Hall as [Hf Hall].
  cbn [countDuplicates List.tl]. rewrite (IH faults Hall) by (simpl in Hlen; lia).
  unfold GetByContentHash. destruct f as [e|]; [reflexivity | contradiction].
Qed.

End UploadMore.

(** ** The repository's own reference operations *)
Module RepositoryProps.
Import Go Models Repository RepositoryMore StatementsMore.

Lemma map_id_on {A} (f : A -> A) (l : list A) :
  (forall x, In x l -> f x = x) -> map f l = l.
Proof.
  induction l as [|x l IH]; intros Hid; [reflexivity|].
  simpl. rewrite (Hid x) by (left; reflexivity).
  rewrite IH; [reflexivity|]. intros y Hy. apply Hid. right. exact Hy.
Qed.

Lemma rowOf_markDeletedOf (userID id userID' id' : UUID) (r : UserFile) :
  rowOf userID id (markDeletedOf userID' id' r) = rowOf userID id r.
Proof. unfold markDeletedOf. destruct (rowOf userID' id' r); reflexivity. Qed.

Lemma markDeletedOf_twice (userID id : UUID) (r : UserFile) :
  markDeletedOf userID id (markDeletedOf userID id r) = markDeletedOf userID id r.
Proof.
  unfold markDeletedOf at 2. destruct (rowOf userID id r) eqn:E.
  - unfold markDeletedOf, rowOf in *. simpl. rewrite E. reflexivity.
  - unfold markDeletedOf. rewrite E. reflexivity.
Qed.

Lemma filter_map_same {A} (p : A -> bool) (f : A -> A) (l : list A) :
  (forall x, p (f x) = p x) ->
  List.length (List.filter p (map f l)) = List.length (List.filter p l).
Proof.
  intros Hp. induction l as [|x l IH]; [reflexivity|].
  simpl. rewrite Hp. destruct (p x); simpl; rewrite IH; reflexivity.
Qed.

(** X18.  CreateUserFileReference refuses a taken name: if the principal has a
    live reference with the same name in the same folder, the call fails
    and the store is as before. *)
Theorem CreateUserFileReference_refuses_a_taken_name
    (st : Store) (createFault statsFault : Fault) (newID : UUID)
    (userFile taken : UserFile) :
  In taken (user_files st) ->
  UserID taken = UserID userFile ->
  UserFilename taken = UserFilename userFile ->
  FolderPath taken = FolderPath userFile ->
  IsDeleted taken = false ->
  exists msg,
    CreateUserFileReference st None createFault statsFault newID userFile
    = (st, Some msg).
Proof.
  intros Hin Hu Hn Hf Hlive. unfold CreateUserFileReference.
  destruct (find (nameTaken userFile) (user_files st)) as [x|] eqn:E;
    [eexists; reflexivity|].
  exfalso. apply (find_none _ _ E) in Hin. unfold nameTaken in Hin.
  rewrite Hu, Hn, Hf, Hlive, N.eqb_refl, !String.eqb_refl in Hin. discriminate.
Qed.

Lemma CreateUserFileReference_refuses_a_taken_name_witness :
  let taken := {| UserFile_ID := 200%N; UserID := 1%N; FileID := 100%N;
                  UserFilename := "x.bin"; FolderPath := "/"; IsDeleted := false;
                  DownloadCount := 0; AccessPermissions := 644 |} in
  let st := {| files := []; user_files := [taken] |} in
  let userFile := {| UserFile_ID := 0%N; UserID := 1%N; FileID := 101%N;
                     UserFilename := "x.bin"; FolderPath := "/"; IsDeleted := false;
                     DownloadCount := 0; AccessPermissions := 0 |} in
  In taken (user_files st)
  /\ exists msg, CreateUserFileReference st None None None 201%N userFile = (st, Some msg).
Proof.
  intros taken st userFile.
  assert (Hin : In taken (user_files st)) by (left; reflexivity).
  split; [exact Hin|].
  exact (CreateUserFileReference_refuses_a_taken_name st None None 201%N userFile taken
           Hin eq_refl eq_refl eq_refl eq_refl).
Defined.

(** The statistics update is outside the write.  When the update of the
    storage statistics fails, CreateUserFileReference and DeleteUserFile
    return its error although the row has been inserted, respectively
    marked: an error answer does not mean that nothing was written. *)
Theorem statistics_error_comes_after_the_write
    (st st' : Store) (createFault : Fault) (newID : UUID) (userFile u : UserFile)
    (e : string) :
  find (nameTaken userFile) (user_files st) = None ->
  CreateUserFile st createFault newID userFile = (st', Ok u) ->
  CreateUserFileReference st None createFault (Some e) newID userFile = (st', Some e)
  /\ user_files st' = user_files st ++ [u]
  /\ DeleteUserFile st' None (Some e) (UserID u) (UserFile_ID u)
     = ({| files := files st';
           user_files := map (markDeletedOf (UserID u) (UserFile_ID u)) (user_files st') |},
        Some e)
  /\ In (markDeletedOf (UserID u) (UserFile_ID u) u)
        (user_files (fst (DeleteUserFile st' None (Some e) (UserID u) (UserFile_ID u))))
  /\ IsDeleted (markDeletedOf (UserID u) (UserFile_ID u) u) = true.
Proof.
  intros Hfree Hcreate.
  assert (Hrows : user_files st' = user_files st ++ [u]).
  { revert Hcreate. unfold CreateUserFile. destruct createFault; [discriminate|].
    cbv zeta. destruct (existsb _ (user_files st) || existsb _ (user_files st));
      [discriminate|].
    destruct (negb (existsb _ (files st))); [discriminate|].
    intros Heq. injection Heq as Hst Hu. subst st' u. reflexivity. }
  split.
  { unfold CreateUserFileReference. rewrite Hfree, Hcreate. reflexivity. }
  split; [exact Hrows|].
  assert (Hself : rowOf (UserID u) (UserFile_ID u) u = true).
  { unfold rowOf. rewrite !N.eqb_refl. reflexivity. }
  assert (Haffected : (rowsAffected (UserID u) (UserFile_ID u) st' =? 0)%nat = false).
  { apply Nat.eqb_neq. unfold rowsAffected. rewrite Hrows, List.filter_app. simpl.
    rewrite Hself, length_app. simpl. lia. }
  split.
  { unfold DeleteUserFile. cbv zeta. rewrite Haffected. reflexivity. }
  split.
  { unfold DeleteUserFile. cbv zeta. rewrite Haffected. simpl.
    apply in_map. rewrite Hrows. apply in_or_app. right. left. reflexivity. }
  unfold markDeletedOf. rewrite Hself. reflexivity.
Qed.

Lemma statistics_error_comes_after_the_write_witness :
  let f := {| File_ID := 100%N; ContentHash := "abcd"; Filename := "x.bin";
              OriginalMimeType := EmptyString; File_DetectedMimeType := EmptyString;
              File_FileSize := 10; StoragePath := "files/ab/cd/abcd";
              IsEncrypted := false; OwnerID := None; PrimaryGroupID := None;
              FilePermissions := 644 |} in
  let st := {| files := [f]; user_files := [] |} in
  let userFile := {| UserFile_ID := 0%N; UserID := 1%N; FileID := 100%N;
                     UserFilename := "x.bin"; FolderPath := "/"; IsDeleted := false;
                     DownloadCount := 0; AccessPermissions := 0 |} in
  let u := userFileRow 200%N userFile in
  let st' := {| files := [f]; user_files := [u] |} in
  CreateUserFile st None 200%N userFile = (st', Ok u)
  /\ CreateUserFileReference st None None (Some "stats failed") 200%N userFile
     = (st', Some "stats failed").
Proof.
  intros f st userFile u st'.
  assert (Hcreate : CreateUserFile st None 200%N userFile = (st', Ok u)) by reflexivity.
  split; [exact Hcreate|].
  exact (proj1 (statistics_error_comes_after_the_write st st' None 200%N userFile u
                  "stats failed" eq_refl Hcreate)).
Defined.

(** X19.  DeleteUserFile can be repeated.  Its update does not look at the
    deletion flag, so a second call by the owner succeeds again and changes
    nothing more - where the handler's DeleteFile answers not found. *)
Theorem DeleteUserFile_can_be_repeated
    (st st1 : Store) (userID userFileID : UUID) :
  DeleteUserFile st None None userID userFileID = (st1, None) ->
  DeleteUserFile st1 None None userID userFileID = (st1, None).
Proof.
  unfold DeleteUserFile. cbv zeta.
  destruct (rowsAffected userID userFileID st =? 0)%nat eqn:E; [discriminate|].
  intros Heq. injection Heq as Hst. subst st1.
  unfold rowsAffected in *. cbn [user_files files].
  rewrite (filter_map_same (rowOf userID userFileID) (markDeletedOf userID userFileID))
    by (intros x; apply rowOf_markDeletedOf).
  rewrite E. rewrite map_map.
  rewrite (map_ext _ _ (markDeletedOf_twice userID userFileID)). reflexivity.
Qed.

Lemma DeleteUserFile_can_be_repeated_witness :
  let u := {| UserFile_ID := 200%N; UserID := 1%N; FileID := 100%N;
              UserFilename := "x.bin"; FolderPath := "/"; IsDeleted := false;
              DownloadCount := 0; AccessPermissions := 644 |} in
  let st := {| files := []; user_files := [u] |} in
  let st1 := {| files := []; user_files := [markDeletedOf 1%N 200%N u] |} in
  DeleteUserFile st None None 1%N 200%N = (st1, None)
  /\ DeleteUserFile st1 None None 1%N 200%N = (st1, None).
Proof.
  intros u st st1.
  assert (Hfirst : DeleteUserFile st None None 1%N 200%N = (st1, None)) by reflexivity.
  split; [exact Hfirst|].
  exact (DeleteUserFile_can_be_repeated st st1 1%N 200%N Hfirst).
Defined.

(** DeleteUserFile spares the other principals: for a reference that is not
    the caller's it answers not found and leaves the store as it was. *)
Theorem DeleteUserFile_spares_other_principals
    (st : Store) (statsFault : Fault) (userID userFileID : UUID) :
  (forall x, In x (user_files st) -> UserFile_ID x = userFileID -> UserID x <> userID) ->
  DeleteUserFile st None statsFault userID userFileID = (st, Some "user file not found").
Proof.
  intros Hforeign.
  assert (Hnone : forall x, In x (user_files st) -> rowOf userID userFileID x = false).
  { intros x Hx. unfold rowOf.
    destruct (UserFile_ID x =? userFileID)%N eqn:Eid; [|reflexivity].
    apply N.eqb_eq in Eid. simpl. apply N.eqb_neq. exact (Hforeign x Hx Eid). }
  unfold DeleteUserFile. cbv zeta.
  assert (Hrows : map (markDeletedOf userID userFileID) (user_files st) = user_files st).
  { apply map_id_on. intros x Hx. unfold markDeletedOf. rewrite (Hnone x Hx). reflexivity. }
  assert (Hzero : rowsAffected userID userFileID st = 0%nat).
  { unfold rowsAffected. generalize (user_files st) Hnone. intros l.
    induction l as [|x l IH]; intros Hl; [reflexivity|].
    simpl. rewrite (Hl x) by (left; reflexivity). apply IH.
    intros y Hy. apply Hl. right. exact Hy. }
  rewrite Hrows, Hzero. destruct st. reflexivity.
Qed.

Lemma DeleteUserFile_spares_other_principals_witness :
  let u := {| UserFile_ID := 200%N; UserID := 1%N; FileID := 100%N;
              UserFilename := "x.bin"; FolderPath := "/"; IsDeleted := false;
              DownloadCount := 0; AccessPermissions := 644 |} in
  let st := {| files := []; user_files := [u] |} in
  DeleteUserFile st None None 2%N 200%N = (st, Some "user file not found").
Proof.
  intros u st.
  assert (Hforeign : forall x, In x (user_files st) -> UserFile_ID x = 200%N ->
                               UserID x <> 2%N).
  { intros x [Hx | []] _. subst x. discriminate. }
  exact (DeleteUserFile_spares_other_principals st None 2%N 200%N Hforeign).
Defined.

End RepositoryProps.

(** ** The file handlers, further properties *)
Module HandlerProps.
Import Go Models Repository Handlers HandlersMore StatementsMore.

(** *** DeleteFile *)

Lemma GetUserFile_owner (st : Store) (fault : Fault) (userID userFileID : UUID)
    (userFile : UserFile) :
  GetUserFile st fault userID userFileID = Ok userFile ->
  In userFile (user_files st)
  /\ UserFile_ID userFile = userFileID /\ UserID userFile = userID
  /\ IsDeleted userFile = false.
Proof.
  unfold GetUserFile. destruct fault; [discriminate|].
  destruct (find (liveRowOf userID userFileID) (user_files st)) as [r|] eqn:E;
    [|discriminate].
  intros Heq. injection Heq as Hr. subst r. apply find_some in E.
  destruct E as [Hin Hp]. unfold liveRowOf in Hp.
  apply andb_true_iff in Hp. destruct Hp as [Hp Hlive].
  apply andb_true_iff in Hp. destruct Hp as [Hid Huser].
  apply N.eqb_eq in Hid, Huser. apply negb_true_iff in Hlive. auto.
Qed.

(** X20.  DeleteFile never answers 403.  The reference is looked up for the
    requesting principal, so the ownership test that follows cannot fail:
    a reference of somebody else is reported as not found, and the files
    table is never written. *)
Theorem DeleteFile_never_answers_forbidden
    (st : Store) (env : DeleteEnv) (req : DeleteRequest) :
  code (snd (DeleteFile st env req)) <> StatusForbidden
  /\ files (fst (DeleteFile st env req)) = files st.
Proof.
  unfold DeleteFile.
  destruct (ctxUserID req) as [userID|]; [|split; [discriminate | reflexivity]].
  destruct (fileId req) as [fileID|]; [|split; [discriminate | reflexivity]].
  destruct (GetUserFile st (getFault env) userID fileID) as [userFile|e|] eqn:E;
    [|split; [discriminate | reflexivity] | split; [discriminate | reflexivity]].
  apply GetUserFile_owner in E. destruct E as (_ & _ & Huser & _).
  rewrite Huser, N.eqb_refl. cbn [negb]. unfold SoftDeleteUserFile.
  destruct (updateFault env); split; try discriminate; reflexivity.
Qed.

(** X21.  DeleteFile spares the other principals: when the requesting principal
    has no live reference with the given identifier, the answer is 404 and
    the store is as before, whatever the database does. *)
Theorem DeleteFile_spares_other_principals
    (st : Store) (env : DeleteEnv) (userID userFileID : UUID) :
  (forall x, In x (user_files st) -> UserFile_ID x = userFileID ->
             UserID x <> userID \/ IsDeleted x = true) ->
  DeleteFile st env {| ctxUserID := Some userID; fileId := Some userFileID |}
  = (st, fileNotFound).
Proof.
  intros Hforeign. unfold DeleteFile. cbn [ctxUserID fileId].
  destruct (GetUserFile st (getFault env) userID userFileID) as [userFile|e|] eqn:E;
    [|reflexivity|reflexivity].
  exfalso. apply GetUserFile_owner in E. destruct E as (Hin & Hid & Huser & Hlive).
  destruct (Hforeign userFile Hin Hid) as [Hne | Hdel]; congruence.
Qed.

Lemma DeleteFile_spares_other_principals_witness :
  DeleteFile Scenario.twoReferences {| getFault := None; updateFault := None |}
    {| ctxUserID := Some 2%N; fileId := Some 200%N |}
  = (Scenario.twoReferences, fileNotFound).
Proof.
  assert (Hforeign : forall x, In x (user_files Scenario.twoReferences) ->
                               UserFile_ID x = 200%N ->
                               UserID x <> 2%N \/ IsDeleted x = true).
  { intros x Hx Hid. vm_compute in Hx. destruct Hx as [Hx | [Hx | []]]; subst x.
    - left. discriminate.
    - discriminate Hid. }
  exact (DeleteFile_spares_other_principals Scenario.twoReferences
           {| getFault := None; updateFault := None |} 2%N 200%N Hforeign).
Defined.

(** *** GetFiles *)

Lemma wrap64_small (z : Z) : - 2 ^ 63 <= z < 2 ^ 63 -> wrap64 z = z.
Proof.
  intros Hz. unfold wrap64.
  change (2 ^ 64) with (2 * 2 ^ 63). rewrite Z.mod_small; lia.
Qed.

Lemma wrap64_over (z : Z) : 2 ^ 63 <= z < 2 ^ 64 -> wrap64 z = z - 2 ^ 64.
Proof.
  intros Hz. unfold wrap64.
  replace (z + 2 ^ 63) with ((z - 2 ^ 63) + 1 * 2 ^ 64)
    by (change (2 ^ 64) with (2 * 2 ^ 63); lia).
  rewrite Z_mod_plus_full.
  change (2 ^ 64) with (2 * 2 ^ 63) in *. rewrite Z.mod_small; lia.
Qed.

Lemma pageOf_positive (q : option Z) : 1 <= pageOf q.
Proof.
  unfold pageOf. destruct q as [z|]; [|lia].
  destruct (z >? 0) eqn:E; [apply Z.gtb_lt in E; lia | lia].
Qed.

Lemma limitOf_range (q : option Z) : 1 <= limitOf q <= 100.
Proof.
  unfold limitOf. destruct q as [z|]; [|lia].
  destruct ((z >? 0) && (z <=? 100)) eqn:E; [|lia].
  apply andb_true_iff in E. destruct E as [E1 E2].
  apply Z.gtb_lt in E1. apply Z.leb_le in E2. lia.
Qed.

(** Below the overflow, a page is a window of the listing. *)
Lemma paginate_window {A} (fs : list A) (page limit : Z) :
  1 <= page -> 1 <= limit -> (page - 1) * limit + limit < 2 ^ 63 ->
  paginate fs page limit
  = Ok (firstn (Z.to_nat limit) (skipn (Z.to_nat ((page - 1) * limit)) fs)).
Proof.
  intros Hpage Hlimit Hbound. unfold paginate. cbv zeta.
  assert (Hstart : 0 <= (page - 1) * limit) by nia.
  rewrite (wrap64_small ((page - 1) * limit)) by lia.
  rewrite (wrap64_small ((page - 1) * limit + limit)) by lia.
  set (start := (page - 1) * limit) in *.
  set (total := Z.of_nat (List.length fs)).
  assert (Htotal : 0 <= total) by (unfold total; lia).
  unfold slice.
  destruct (start >? total) eqn:Es.
  - apply Z.gtb_lt in Es.
    replace (start + limit >? total) with true by (symmetry; apply Z.gtb_lt; lia).
    replace ((0 <=? total) && (total <=? total) && (total <=? Z.of_nat (List.length fs)))
      with true
      by (symmetry; rewrite !andb_true_iff; repeat split; apply Z.leb_le; unfold total; lia).
    rewrite Z.sub_diag. simpl firstn.
    rewrite (drop_ge fs (Z.to_nat start)) by (unfold total in Es; lia).
    rewrite take_nil. reflexivity.
  - assert (Hs : start <= total) by (destruct (Z.gtb_spec start total); [discriminate | lia]).
    destruct (start + limit >? total) eqn:Ee.
    + apply Z.gtb_lt in Ee.
      replace ((0 <=? start) && (start <=? total) && (total <=? Z.of_nat (List.length fs)))
        with true
        by (symmetry; rewrite !andb_true_iff; repeat split; apply Z.leb_le;
            unfold total; lia).
      rewrite !take_ge; [reflexivity | |]; rewrite length_drop; unfold total in *; lia.
    + assert (He : start + limit <= total)
        by (destruct (Z.gtb_spec (start + limit) total); [discriminate | lia]).
      replace ((0 <=? start) && (start <=? start + limit)
               && (start + limit <=? Z.of_nat (List.length fs)))
        with true
        by (symmetry; rewrite !andb_true_iff; repeat split; apply Z.leb_le;
            unfold total in *; lia).
      replace (start + limit - start) with limit by lia. reflexivity.
Qed.

(** X22.  GetFiles serves the requested window.  For an authenticated principal
    whose record and files are found, and a page number below the overflow
    of the offset, the answer is page [page] of size [limit]: the files of
    the listing from position [(page - 1) * limit] on, at most [limit] of
    them, with [page], [limit] and the total as given. *)
Theorem GetFiles_serves_the_requested_window {A}
    (userID : UUID) (pageQuery limitQuery : option Z) (fs : list A) :
  let page := pageOf pageQuery in
  let limit := limitOf limitQuery in
  page * 100 < 2 ^ 63 ->
  exists p,
    GetFiles (Some userID) pageQuery limitQuery true (inl fs) = ListingPage p
    /\ pageFiles p = firstn (Z.to_nat limit) (skipn (Z.to_nat ((page - 1) * limit)) fs)
    /\ (List.length (pageFiles p) <= Z.to_nat limit)%nat
    /\ pageNumber p = page /\ pageLimit p = limit
    /\ pageTotal p = Z.of_nat (List.length fs).
Proof.
  intros page limit Hbound.
  pose proof (pageOf_positive pageQuery) as Hpage.
  pose proof (limitOf_range limitQuery) as Hlimit.
  fold page in Hpage. fold limit in Hlimit.
  unfold GetFiles. cbv zeta. cbn [negb]. fold page. fold limit.
  rewrite (paginate_window fs page limit) by nia.
  eexists. split; [reflexivity|]. cbn [pageFiles pageNumber pageLimit pageTotal].
  split; [reflexivity|]. split; [rewrite length_take; lia|]. auto.
Qed.

Lemma GetFiles_serves_the_requested_window_witness :
  pageOf (Some 2) * 100 < 2 ^ 63
  /\ exists p,
       GetFiles (Some 1%N) (Some 2) (Some 2) true (inl ["a"; "b"; "c"; "d"; "e"])
       = ListingPage p
       /\ pageFiles p = ["c"; "d"].
Proof.
  assert (Hbound : pageOf (Some 2) * 100 < 2 ^ 63) by (vm_compute; reflexivity).
  split; [exact Hbound|].
  destruct (GetFiles_serves_the_requested_window 1%N (Some 2) (Some 2)
              ["a"; "b"; "c"; "d"; "e"] Hbound) as (p & Hp & Hfiles & _).
  exists p. split; [exact Hp | exact Hfiles].
Defined.

Lemma pagesUpTo_prefix {A} (fs : list A) (limit : Z) (n : nat) :
  1 <= limit -> Z.of_nat n * limit < 2 ^ 63 ->
  pagesUpTo fs limit n = firstn (Z.to_nat (Z.of_nat n * limit)) fs.
Proof.
  intros Hlimit. unfold pagesUpTo. induction n as [|n IH]; intros Hbound.
  - simpl. reflexivity.
  - rewrite seq_S, flat_map_app. rewrite IH by nia. cbn [flat_map].
    rewrite app_nil_r.
    rewrite (paginate_window fs (Z.of_nat (1 + n)) limit) by nia.
    replace (Z.of_nat (1 + n) - 1) with (Z.of_nat n) by lia.
    rewrite take_take_drop. f_equal. nia.
Qed.

(** X23.  The pages partition the listing: below the overflow, the files of the
    pages 1 to [n], one after the other, are the listing itself as soon as
    [n] pages of size [limit] can hold it, each file once and in order. *)
Theorem GetFiles_pages_partition_the_listing {A} (fs : list A) (limit : Z) (n : nat) :
  1 <= limit ->
  Z.of_nat n * limit < 2 ^ 63 ->
  Z.of_nat (List.length fs) <= Z.of_nat n * limit ->
  pagesUpTo fs limit n = fs.
Proof.
  intros Hlimit Hbound Hall. rewrite pagesUpTo_prefix by assumption.
  apply take_ge. lia.
Qed.

Lemma GetFiles_pages_partition_the_listing_witness :
  pagesUpTo ["a"; "b"; "c"; "d"; "e"] 2 3 = ["a"; "b"; "c"; "d"; "e"].
Proof.
  assert (H1 : 1 <= 2) by lia.
  assert (H2 : Z.of_nat 3 * 2 < 2 ^ 63) by (vm_compute; reflexivity).
  assert (H3 : Z.of_nat (List.length ["a"; "b"; "c"; "d"; "e"]) <= Z.of_nat 3 * 2)
    by (vm_compute; discriminate).
  exact (GetFiles_pages_partition_the_listing ["a"; "b"; "c"; "d"; "e"] 2 3 H1 H2 H3).
Defined.

(** X24.  GetFiles panics on a far page.  When the offset [(page - 1) * limit]
    still fits the 64-bit integer but the end of the window does not, the
    end wraps to a negative number and the slice expression panics, for
    every listing. *)
Theorem GetFiles_panics_on_a_far_page {A}
    (userID : UUID) (page limit : Z) (fs : list A) :
  0 < page -> 0 < limit <= 100 ->
  2 ^ 63 - limit <= (page - 1) * limit < 2 ^ 63 ->
  GetFiles (Some userID) (Some page) (Some limit) true (inl fs) = ListingPanic.
Proof.
  intros Hpage Hlimit Hfar. unfold GetFiles, pageOf, limitOf. cbv zeta. cbn [negb].
  replace (page >? 0) with true by (symmetry; apply Z.gtb_lt; lia).
  replace ((limit >? 0) && (limit <=? 100)) with true
    by (symmetry; apply andb_true_iff; split; [apply Z.gtb_lt | apply Z.leb_le]; lia).
  assert (Hp : paginate fs page limit = Panic).
  { unfold paginate. cbv zeta.
    rewrite (wrap64_small ((page - 1) * limit)) by lia.
    rewrite (wrap64_over ((page - 1) * limit + limit))
      by (change (2 ^ 64) with (2 * 2 ^ 63); lia).
    set (start := (page - 1) * limit) in *.
    set (total := Z.of_nat (List.length fs)).
    assert (Htotal : 0 <= total) by (unfold total; lia).
    replace (start + limit - 2 ^ 64 >? total) with false
      by (symmetry; rewrite Z.gtb_ltb; apply Z.ltb_ge;
          change (2 ^ 64) with (2 * 2 ^ 63); lia).
    unfold slice.
    replace ((if start >? total then total else start) <=? start + limit - 2 ^ 64)
      with false
      by (symmetry; apply Z.leb_gt; change (2 ^ 64) with (2 * 2 ^ 63);
          destruct (start >? total); lia).
    rewrite andb_false_r. reflexivity. }
  rewrite Hp. reflexivity.
Qed.

Lemma GetFiles_panics_on_a_far_page_witness :
  GetFiles (Some 1%N) (Some 92233720368547759) (Some 100) true (inl ["a"; "b"])
  = ListingPanic.
Proof.
  assert (H1 : 0 < 92233720368547759) by lia.
  assert (H2 : 0 < 100 <= 100) by lia.
  assert (H3 : 2 ^ 63 - 100 <= (92233720368547759 - 1) * 100 < 2 ^ 63)
    by (vm_compute; split; [discriminate | reflexivity]).
  exact (GetFiles_panics_on_a_far_page 1%N 92233720368547759 100 ["a"; "b"] H1 H2 H3).
Defined.

End HandlerProps.

(** ** The rate limiter, further properties *)
Module RateMore.
Import Go Models Middleware.

Section AnyLimiter.
Context `{RateLib}.

Lemma RateLimitMiddleware_state (rl : RateLimiter) (now : Z) (userID : UUID) :
  fst (RateLimitMiddleware rl now (UserIDValue userID))
  = storeUserLimiter (fst (GetUserLimiter rl now userID)) userID
      (snd (Allow now (snd (GetUserLimiter rl now userID)))).
Proof.
  unfold RateLimitMiddleware.
  destruct (GetUserLimiter rl now userID) as [rl' lim]. cbn [fst snd].
  destruct (Allow now lim) as [ok lim']. cbn [fst snd]. destruct ok; reflexivity.
Qed.

(** The limiter a principal's next request will meet. *)
Lemma RateLimitMiddleware_bucket (rl : RateLimiter) (now : Z) (userID : UUID) :
  userBuckets (fst (RateLimitMiddleware rl now (UserIDValue userID))) !! userID
  = Some {| limiter := snd (Allow now (snd (GetUserLimiter rl now userID)));
            lastAccess := now |}.
Proof.
  rewrite RateLimitMiddleware_state.
  unfold storeUserLimiter, GetUserLimiter. cbv zeta.
  cbn [fst snd userBuckets withUserBuckets].
  rewrite lookup_alter_eq, lookup_insert_eq.
  destruct (userBuckets rl !! userID) as [b|]; reflexivity.
Qed.

Lemma RateLimitMiddleware_config (rl : RateLimiter) (now : Z) (c : CtxValue) :
  maxIdleTime (fst (RateLimitMiddleware rl now c)) = maxIdleTime rl
  /\ userRPS (fst (RateLimitMiddleware rl now c)) = userRPS rl
  /\ userBurst (fst (RateLimitMiddleware rl now c)) = userBurst rl.
Proof.
  destruct c as [|userID|]; try (repeat split; reflexivity).
  rewrite RateLimitMiddleware_state. repeat split; reflexivity.
Qed.

Lemma RateLimitMiddleware_other_bucket
    (rl : RateLimiter) (now : Z) (c : CtxValue) (other : UUID) :
  c <> UserIDValue other ->
  userBuckets (fst (RateLimitMiddleware rl now c)) !! other = userBuckets rl !! other.
Proof.
  intros Hne. destruct c as [|userID|]; try reflexivity.
  assert (Hu : userID <> other) by congruence.
  rewrite RateLimitMiddleware_state.
  unfold storeUserLimiter, GetUserLimiter. cbv zeta.
  cbn [fst snd userBuckets withUserBuckets].
  rewrite lookup_alter_ne, lookup_insert_ne by exact Hu. reflexivity.
Qed.

Lemma serve_other_bucket (rl : RateLimiter) (reqs : list Request) (other : UUID) :
  Forall (fun r => principal r <> other) reqs ->
  userBuckets (fst (serve rl reqs)) !! other = userBuckets rl !! other.
Proof.
  revert rl. induction reqs as [|r rest IH]; intros rl Hall; [reflexivity|].
  apply Forall_cons in Hall. destruct Hall as [Hr Hall].
  cbn [serve].
  pose proof (RateLimitMiddleware_other_bucket rl (at_ r) (UserIDValue (principal r))
                other) as Hone.
  destruct (RateLimitMiddleware rl (at_ r) (UserIDValue (principal r))) as [rl1 o].
  pose proof (IH rl1 Hall) as Hrest.
  destruct (serve rl1 rest) as [rl2 os]. simpl in Hone, Hrest |- *.
  rewrite Hrest. apply Hone. congruence.
Qed.

(** X25.  Principals do not share a budget.  Whatever requests the other
    principals send, a principal's bucket stays as it was, so its next
    request is decided exactly as if the others had sent nothing. *)
Theorem principals_do_not_share_a_budget
    (rl : RateLimiter) (others : list Request) (now : Z) (userID : UUID) :
  Forall (fun r => principal r <> userID) others ->
  userBuckets (fst (serve rl others)) !! userID = userBuckets rl !! userID
  /\ admitted (snd (RateLimitMiddleware (fst (serve rl others)) now (UserIDValue userID)))
     = admitted (snd (RateLimitMiddleware rl now (UserIDValue userID))).
Proof.
  intros Hothers. pose proof (serve_other_bucket rl others userID Hothers) as Hsame.
  split; [exact Hsame|].
  rewrite !RateProps.RateLimitMiddleware_user. unfold GetUserLimiter. cbv zeta.
  cbn [snd]. rewrite Hsame.
  assert (Hcfg : forall reqs rl0,
            userRPS (fst (serve rl0 reqs)) = userRPS rl0
            /\ userBurst (fst (serve rl0 reqs)) = userBurst rl0).
  { induction reqs as [|r rest IH]; intros rl0; [split; reflexivity|].
    cbn [serve].
    destruct (RateLimitMiddleware_config rl0 (at_ r) (UserIDValue (principal r)))
      as (_ & H3 & H4).
    destruct (RateLimitMiddleware rl0 (at_ r) (UserIDValue (principal r))) as [rl1 o].
    destruct (IH rl1) as [H1 H2]. destruct (serve rl1 rest) as [rl2 os].
    simpl in *. split; congruence. }
  destruct (Hcfg others rl) as [Hrps Hburst]. rewrite Hrps, Hburst. reflexivity.
Qed.

(** X26.  cleanup forgets the idle principals only.  After a request of a
    principal at instant [t], a cleanup at instant [now] keeps the
    principal's bucket, limiter state included, while [now - t] does not
    exceed the idle time, and removes it afterwards - the principal's next
    request then meets a new, full limiter. *)
Theorem cleanup_forgets_idle_principals_only
    (rl : RateLimiter) (t now later : Z) (userID : UUID) :
  let rl1 := fst (RateLimitMiddleware rl t (UserIDValue userID)) in
  let used := snd (Allow t (snd (GetUserLimiter rl t userID))) in
  (now - t <= maxIdleTime rl ->
     userBuckets (cleanup rl1 now) !! userID
     = Some {| limiter := used; lastAccess := t |}
     /\ snd (GetUserLimiter (cleanup rl1 now) later userID) = used)
  /\ (now - t > maxIdleTime rl ->
        userBuckets (cleanup rl1 now) !! userID = None
        /\ snd (GetUserLimiter (cleanup rl1 now) later userID)
           = NewLimiter (userRPS rl) (userBurst rl)).
Proof.
  intros rl1 used.
  pose proof (RateLimitMiddleware_bucket rl t userID) as Hbucket.
  fold rl1 in Hbucket. fold used in Hbucket.
  pose proof (RateLimitMiddleware_config rl t (UserIDValue userID)) as Hcfg.
  fold rl1 in Hcfg.
  destruct Hcfg as (Hidle & Hrps & Hburst).
  split; intros Hage.
  - assert (Hkept : userBuckets (cleanup rl1 now) !! userID
                    = Some {| limiter := used; lastAccess := t |}).
    { unfold cleanup. cbn [userBuckets]. apply map_lookup_filter_Some.
      split; [exact Hbucket|]. cbn [snd lastAccess]. rewrite Hidle.
      apply negb_true_iff. destruct (Z.gtb_spec (now - t) (maxIdleTime rl)); [lia|].
      reflexivity. }
    split; [exact Hkept|]. unfold GetUserLimiter. cbv zeta. rewrite Hkept. reflexivity.
  - assert (Hgone : userBuckets (cleanup rl1 now) !! userID = None).
    { unfold cleanup. cbn [userBuckets]. apply map_lookup_filter_None.
      right. intros b Hb. rewrite Hbucket in Hb. injection Hb as Hb. subst b.
      cbn [snd lastAccess]. rewrite Hidle.
      destruct (Z.gtb_spec (now - t) (maxIdleTime rl)); [|lia].
      discriminate. }
    split; [exact Hgone|]. unfold GetUserLimiter. cbv zeta. rewrite Hgone.
    cbn [limiter snd]. unfold cleanup. cbn [userRPS userBurst].
    rewrite Hrps, Hburst. reflexivity.
Qed.

End AnyLimiter.

Lemma principals_do_not_share_a_budget_witness :
  let rl := NewRateLimiter (H := BucketLib) {| RateLimitRPS := 2; RateLimitBurst := 1 |} in
  Forall (fun r => principal r <> 12%N) Scenario.elevenPrincipals
  /\ admitted (snd (RateLimitMiddleware (fst (serve rl Scenario.elevenPrincipals)) 0
                      (UserIDValue 12%N)))
     = admitted (snd (RateLimitMiddleware rl 0 (UserIDValue 12%N))).
Proof.
  intros rl.
  assert (Hothers : Forall (fun r => principal r <> 12%N) Scenario.elevenPrincipals).
  { unfold Scenario.elevenPrincipals. simpl.
    repeat (apply Forall_cons; split; [simpl; discriminate|]). apply Forall_nil_2. }
  split; [exact Hothers|].
  exact (proj2 (principals_do_not_share_a_budget (H := BucketLib) rl
                  Scenario.elevenPrincipals 0 12%N Hothers)).
Defined.

End RateMore.

(** ** Reading a file back *)
Module ReadProps.
Import Go Models Repository RepositoryMore Services Handlers HandlersRead Invariants.

Lemma DeleteFile_done (st st1 : Store) (env : DeleteEnv) (req : DeleteRequest)
    (resp : Response) :
  DeleteFile st env req = (st1, resp) ->
  code resp = StatusOK ->
  exists userID id,
    ctxUserID req = Some userID /\ fileId req = Some id
    /\ forall x, In x (user_files st1) -> UserFile_ID x = id -> IsDeleted x = true.
Proof.
  intros Hdel Hok. unfold DeleteFile in Hdel.
  destruct (ctxUserID req) as [u|]; [|inversion Hdel; subst; discriminate].
  destruct (fileId req) as [id|]; [|inversion Hdel; subst; discriminate].
  exists u, id. split; [reflexivity|]. split; [reflexivity|].
  destruct (GetUserFile st (getFault env) u id) as [row|e|] eqn:Eget;
    [|inversion Hdel; subst; discriminate|inversion Hdel; subst; discriminate].
  apply HandlerProps.GetUserFile_owner in Eget. destruct Eget as (_ & Hrow & Huser & _).
  rewrite Huser, N.eqb_refl in Hdel. cbn [negb] in Hdel.
  unfold SoftDeleteUserFile in Hdel.
  destruct (updateFault env); [inversion Hdel; subst; discriminate|].
  inversion Hdel; subst st1 resp; clear Hdel. simpl.
  intros x Hin Hx. rewrite Hrow in Hin. exact (DeleteProps.markDeleted_deletes id _ x Hin Hx).
Qed.

Lemma GetUserFile_gone (st : Store) (fault : Fault) (userID id : UUID) :
  (forall x, In x (user_files st) -> UserFile_ID x = id -> IsDeleted x = true) ->
  forall userFile, GetUserFile st fault userID id <> Ok userFile.
Proof.
  intros Hgone userFile Hget. apply HandlerProps.GetUserFile_owner in Hget.
  destruct Hget as (Hin & Hid & _ & Hlive). rewrite (Hgone userFile Hin Hid) in Hlive.
  discriminate.
Qed.

(** X27.  A deleted file can be neither inspected nor downloaded.  After
    DeleteFile has answered 200, GetFileMetadata and DownloadFile answer 404
    to the same request, whatever the database does, and no download is
    counted. *)
Theorem deleted_file_cannot_be_read
    (st st1 : Store) (env : DeleteEnv) (req : DeleteRequest) (resp : Response)
    (renv : ReadEnv) :
  DeleteFile st env req = (st1, resp) ->
  code resp = StatusOK ->
  GetFileMetadata st1 renv req = Failure StatusNotFound "File not found"
  /\ DownloadFile st1 renv req = (Failure StatusNotFound "File not found", None).
Proof.
  intros Hdel Hok.
  destruct (DeleteFile_done st st1 env req resp Hdel Hok) as (u & id & Hctx & Hid & Hgone).
  pose proof (GetUserFile_gone st1 (userFileFault renv) u id Hgone) as Hnone.
  unfold GetFileMetadata, DownloadFile. rewrite Hctx, Hid.
  destruct (GetUserFile st1 (userFileFault renv) u id) as [userFile|e|];
    [exfalso; exact (Hnone userFile eq_refl)| |]; split; reflexivity.
Qed.

Lemma deleted_file_cannot_be_read_witness :
  let env := {| getFault := None; updateFault := None |} in
  let req := {| ctxUserID := Some 1%N; fileId := Some 200%N |} in
  let renv := {| userFileFault := None; fileFault := None |} in
  let st1 := fst (DeleteFile Scenario.twoReferences env req) in
  code (snd (DeleteFile Scenario.twoReferences env req)) = StatusOK
  /\ GetFileMetadata st1 renv req = Failure StatusNotFound "File not found"
  /\ DownloadFile st1 renv req = (Failure StatusNotFound "File not found", None).
Proof.
  intros env req renv st1.
  assert (Hok : code (snd (DeleteFile Scenario.twoReferences env req)) = StatusOK)
    by (vm_compute; reflexivity).
  split; [exact Hok|].
  exact (deleted_file_cannot_be_read Scenario.twoReferences st1 env req _ renv
           (surjective_pairing _) Hok).
Defined.

(** X28.  The reads never answer 403, and the permissions they report ignore
    groups.  GetFileMetadata and DownloadFile look the reference up for the
    requesting principal, so their ownership test cannot fail.  The
    permissions in the metadata are computed with an empty list of groups:
    they are the owner digit of the file for the owner of the file and the
    others digit for everybody else, the group digit never applies. *)
Theorem reads_ignore_groups (st : Store) (env : ReadEnv) (req : DeleteRequest) :
  (forall error, GetFileMetadata st env req <> Failure StatusForbidden error)
  /\ (forall error, fst (DownloadFile st env req) <> Failure StatusForbidden error)
  /\ forall m, GetFileMetadata st env req = Success m ->
       exists userID file,
         ctxUserID req = Some userID /\ In file (files st) /\ Hash m = ContentHash file
         /\ Permissions m
            = ParseLinuxPermissions (FilePermissions file) userID (OwnerID file)
                (PrimaryGroupID file) []
         /\ CanRead (Permissions m)
            = Read (if ptrIs (OwnerID file) userID
                    then Owner (Permissions m) else Others (Permissions m))
         /\ CanWrite (Permissions m)
            = Write (if ptrIs (OwnerID file) userID
                     then Owner (Permissions m) else Others (Permissions m)).
Proof.
  unfold GetFileMetadata, DownloadFile.
  destruct (ctxUserID req) as [userID|];
    [|split; [discriminate | split; [discriminate | intros m Hm; discriminate]]].
  destruct (fileId req) as [fileID|];
    [|split; [discriminate | split; [discriminate | intros m Hm; discriminate]]].
  destruct (GetUserFile st (userFileFault env) userID fileID) as [userFile|e|] eqn:Eget;
    [|split; [discriminate | split; [discriminate | intros m Hm; discriminate]]
     |split; [discriminate | split; [discriminate | intros m Hm; discriminate]]].
  apply HandlerProps.GetUserFile_owner in Eget. destruct Eget as (_ & _ & Huser & _).
  rewrite Huser, N.eqb_refl. cbn [negb].
  unfold GetByID. destruct (fileFault env) as [e|];
    [split; [discriminate | split; [discriminate | intros m Hm; discriminate]]|].
  destruct (find (fun f => (File_ID f =? FileID userFile)%N) (files st)) as [file|] eqn:Efind;
    [|split; [discriminate | split; [discriminate | intros m Hm; discriminate]]].
  split; [discriminate|]. split; [discriminate|].
  intros m Hm. injection Hm as Hm. subst m. cbn [Permissions Hash].
  exists userID, file. apply find_some in Efind. destruct Efind as [Hin _].
  split; [reflexivity|]. split; [exact Hin|]. split; [reflexivity|].
  split; [reflexivity|].
  unfold ParseLinuxPermissions, userPermsOf. cbv zeta.
  cbn [CanRead CanWrite Owner Others inGroups].
  destruct (ptrIs (OwnerID file) userID); [split; reflexivity|].
  destruct (PrimaryGroupID file); split; reflexivity.
Qed.

Section Upload.
Context `{Lib} `{Sniffer} `{StorageInterface}.

(** X29.  Round trip through the handlers.  After a successful upload into a
    well-formed store, the uploading principal can read the file back under
    the identifier of the answer: GetFileMetadata answers with that
    identifier and the fingerprint of the uploaded content, and DownloadFile
    points at a stored file with that fingerprint. *)
Theorem uploaded_file_can_be_read_back
    (w w' : World) (env : UploadEnv) (req : UploadFileRequest) (r : UploadFileResponse) :
  wellFormed (meta w) ->
  UploadFile w env req = (w', Ok r) ->
  let read := {| ctxUserID := Some (reqUserID req); fileId := Some (respUserFileID r) |} in
  let renv := {| userFileFault := None; fileFault := None |} in
  (exists m, GetFileMetadata (meta w') renv read = Success m
             /\ FM_ID m = respUserFileID r
             /\ Hash m = sha256_hex (contentBytes (reqContent req)))
  /\ (exists d f, DownloadFile (meta w') renv read = (Success d, Some (respUserFileID r))
                  /\ In f (files (meta w'))
                  /\ File_ID f = respFileID r
                  /\ ContentHash f = sha256_hex (contentBytes (reqContent req))
                  /\ downloadStoragePath d = StoragePath f).
Proof.
  intros Hwf Hup read renv.
  destruct (StoreProps.upload_lookup w w' env req r Hwf Hup)
    as (f & u & Hfile & Hhash & Hget & Hfid & Hlive).
  assert (Hu : UserID u = reqUserID req /\ UserFile_ID u = respUserFileID r).
  { apply HandlerProps.GetUserFile_owner in Hget. tauto. }
  destruct Hu as [Huser Huid].
  assert (Hin : In f (files (meta w')) /\ File_ID f = respFileID r).
  { unfold GetByID in Hfile.
    destruct (find (fun f0 => (File_ID f0 =? respFileID r)%N) (files (meta w')))
      as [f0|] eqn:E; [|discriminate].
    injection Hfile as Hf0. subst f0. apply find_some in E. destruct E as [Hin Hid].
    apply N.eqb_eq in Hid. auto. }
  destruct Hin as [Hin Hid].
  unfold GetFileMetadata, DownloadFile, read, renv.
  cbn [ctxUserID fileId userFileFault fileFault].
  rewrite Hget, Huser, N.eqb_refl. cbn [negb]. rewrite Hfid, Hid, Hfile. split.
  - eexists. split; [reflexivity|]. cbn [FM_ID Hash]. auto.
  - eexists _, f. rewrite Huid. split; [reflexivity|]. cbn [downloadStoragePath]. auto.
Qed.

End Upload.

Lemma uploaded_file_can_be_read_back_witness :
  let w := Scenario.emptyWorld in
  let env := Scenario.draws 100%N 200%N in
  let req := Scenario.uploadBy 1%N "x.bin" in
  let w' := fst (UploadFile (H := Instances.asciiLib) (H0 := Instances.plainSniffer)
                   (H1 := LocalStorageService) w env req) in
  wellFormed (meta w)
  /\ exists m,
       GetFileMetadata (meta w') {| userFileFault := None; fileFault := None |}
         {| ctxUserID := Some 1%N; fileId := Some 200%N |} = Success m
       /\ FM_ID m = 200%N
       /\ Hash m = sha256_hex (Lib := Instances.asciiLib) (contentBytes (reqContent req)).
Proof.
  intros w env req w'.
  assert (Hwf : wellFormed (meta w)).
  { constructor; simpl; try apply NoDup_nil_2. intros u []. }
  split; [exact Hwf|].
  assert (Hup : UploadFile (H := Instances.asciiLib) (H0 := Instances.plainSniffer)
                  (H1 := LocalStorageService) w env req
                = (w', Ok {| respFileID := 100%N; respUserFileID := 200%N;
                             IsExisting := false; SavingsBytes := 0;
                             respWarnings := [] |}))
    by (vm_compute; reflexivity).
  exact (proj1 (uploaded_file_can_be_read_back (H := Instances.asciiLib)
                  (H0 := Instances.plainSniffer) (H1 := LocalStorageService)
                  w w' env req _ Hwf Hup)).
Defined.

End ReadProps.

(** ** The two validators *)
Module ValidatorProps.
Import Go Models Repository Services RepositoryMore StatementsMore.

Lemma dangerousExts_included :
  forall ext, In ext RepositoryMore.dangerousExts -> In ext Services.dangerousExts.
Proof.
  intros ext Hin. unfold RepositoryMore.dangerousExts in Hin. simpl in Hin.
  repeat (destruct Hin as [Hin | Hin]; [subst ext; simpl; tauto|]). destruct Hin.
Qed.

Section TwoValidators.
Context `{Lib} `{Sniffer} `{MimeTable}.

(** What makes ValidateFileUpload reject. *)
Lemma ValidateFileUpload_invalid filename declared content :
  IsValid (fst (ValidateFileUpload filename declared content)) = false ->
  snd (fst (ioCopy content)) <> None
  \/ len (contentBytes content) = 0
  \/ len (contentBytes content) > MaxFileSize
  \/ TrimSpace filename = EmptyString
  \/ In (ToLower (Ext filename)) RepositoryMore.dangerousExts.
Proof.
  unfold ValidateFileUpload, CalculateContentHash, contentBytes.
  destruct (ioCopy content) as [[bs e] rest]. cbn [fst snd].
  destruct e as [msg|]; [intros _; left; discriminate|]. cbv zeta.
  destruct (Z.gtb_spec (len bs) MaxFileSize) as [Hgt|Hle];
    [intros _; right; right; left; lia|].
  destruct (Z.eqb_spec (len bs) 0) as [Hz|Hnz]; [intros _; right; left; exact Hz|].
  destruct (String.eqb_spec (TrimSpace filename) EmptyString) as [Hb|Hnb];
    [intros _; right; right; right; left; exact Hb|].
  destruct (existsb (String.eqb (ToLower (Ext filename))) RepositoryMore.dangerousExts)
    eqn:Eext.
  - intros _. right; right; right; right.
    apply existsb_exists in Eext. destruct Eext as (x & Hin & Heq).
    apply String.eqb_eq in Heq. rewrite Heq. exact Hin.
  - match goal with
    | |- context [if ?b then _ else _] => destruct b
    end; cbn; discriminate.
Qed.

Lemma ValidateFileUpload_digest filename declared content :
  snd (fst (ioCopy content)) = None ->
  FVR_ContentHash (fst (ValidateFileUpload filename declared content))
  = sha256_hex (contentBytes content)
  /\ FileSize (fst (ValidateFileUpload filename declared content))
     = len (contentBytes content)
  /\ snd (ValidateFileUpload filename declared content) = snd (ioCopy content).
Proof.
  unfold ValidateFileUpload, CalculateContentHash, contentBytes.
  destruct (ioCopy content) as [[bs e] rest]. cbn [fst snd].
  intros He. subst e. cbv zeta.
  repeat match goal with
         | |- context [if ?b then _ else _] => destruct b
         end; repeat split; reflexivity.
Qed.

(** X30.  The service's validator is the stricter of the two.  Whatever
    ValidateFile of the validation service accepts, ValidateFileUpload of the
    repository accepts as well, with the same fingerprint and the same size,
    whatever MIME types are declared or detected; both leave the reader
    where it ended. *)
Theorem service_validation_is_the_stricter
    (filename declared declared' : string) (content : Reader) :
  let strict := ValidateFile filename declared content in
  let plain := ValidateFileUpload filename declared' content in
  IsValid (fst strict) = true ->
  IsValid (fst plain) = true
  /\ FVR_ContentHash (fst plain) = FVR_ContentHash (fst strict)
  /\ FileSize (fst plain) = FileSize (fst strict)
  /\ snd plain = snd strict.
Proof.
  intros strict plain Hvalid. unfold strict, plain in *. clear strict plain.
  assert (Hread : snd (fst (ioCopy content)) = None).
  { pose proof (UploadProps.ValidateFile_digest filename declared content) as Hd.
    destruct (ioCopy content) as [[bs e] rest]. cbn [fst snd].
    destruct e as [msg|]; [|reflexivity]. rewrite Hd in Hvalid. discriminate. }
  destruct (UploadProps.ValidateFile_valid filename declared content Hvalid)
    as [Hhash Hsize].
  destruct (ValidateFileUpload_digest filename declared' content Hread)
    as (Hhash' & Hsize' & Hrest').
  split.
  { destruct (IsValid (fst (ValidateFileUpload filename declared' content))) eqn:E;
      [reflexivity|].
    exfalso. apply ValidateFileUpload_invalid in E.
    destruct E as [Hr | [Hz | [Hbig | [Hblank | Hext]]]].
    - contradiction.
    - rewrite (ValidationProps.ValidateFile_rejects_size filename declared content)
        in Hvalid by (left; exact Hz). discriminate.
    - rewrite (ValidationProps.ValidateFile_rejects_size filename declared content)
        in Hvalid by (right; exact Hbig). discriminate.
    - rewrite (ValidationProps.ValidateFile_rejects_name filename declared content)
        in Hvalid; [discriminate|].
      intros r. apply (ValidationProps.validateFilename_blank filename r Hblank).
    - rewrite (ValidationMore.ValidateFile_rejects_extension filename declared content)
        in Hvalid; [discriminate|].
      apply dangerousExts_included. exact Hext. }
  split; [congruence|]. split; [congruence|].
  rewrite Hrest'. symmetry. apply UploadMore.ValidateFile_rest.
Qed.

End TwoValidators.

Lemma service_validation_is_the_stricter_witness :
  let strict := ValidateFile (H := Instances.asciiLib) (H0 := Instances.plainSniffer)
                  "x.bin" "application/octet-stream" Scenario.hello in
  let plain := ValidateFileUpload (H := Instances.asciiLib)
                 (H0 := ScenarioMore.noMimeTable) "x.bin" "text/plain" Scenario.hello in
  IsValid (fst strict) = true
  /\ IsValid (fst plain) = true
  /\ FVR_ContentHash (fst plain) = FVR_ContentHash (fst strict).
Proof.
  intros strict plain.
  assert (Hvalid : IsValid (fst strict) = true) by (vm_compute; reflexivity).
  split; [exact Hvalid|].
  pose proof (service_validation_is_the_stricter (H := Instances.asciiLib)
                (H0 := Instances.plainSniffer) (H1 := ScenarioMore.noMimeTable)
                "x.bin" "application/octet-stream" "text/plain" Scenario.hello Hvalid)
    as Hthm.
  split; [exact (proj1 Hthm) | exact (proj1 (proj2 Hthm))].
Defined.

(** The converse fails: the repository's validator accepts names and
    contents that the service's validator rejects. *)
Example repository_validation_accepts_more :
  let name := "report<1>.php" in
  let content := ScenarioMore.oneRead (elfMagic +:+ "payload") in
  IsValid (fst (ValidateFileUpload (H := Instances.asciiLib)
                  (H0 := ScenarioMore.noMimeTable) name EmptyString content)) = true
  /\ IsValid (fst (ValidateFile (H := Instances.asciiLib) (H0 := Instances.plainSniffer)
                     name EmptyString content)) = false.
Proof. split; vm_compute; reflexivity. Qed.

End ValidatorProps.
